(** * Speech-Pathology-App: the record store, the aggregator and the state facade

    A shallow embedding of
      - [src/utils/helpers.ts]      ([calculateSessionStats], [calculateAge]),
      - [src/services/storage.ts]   (the AsyncStorage-backed record store),
      - [src/context/AppContext.tsx] (the in-memory mirror and its mutations),
      - [src/screens/NewSessionScreen.tsx] (the session-recording flow),
      - the statistics of [src/screens/ReportsScreen.tsx], the grouping of
        [src/screens/SessionDetailScreen.tsx], the handlers of the settings
        screen ([src/screens/ClientDetailScreen.tsx]) and the form of
        [src/screens/AddGoalScreen.tsx],
    followed by the properties of the specification that concern them
    and by further properties of the code.

    JavaScript numbers are IEEE-754 binary64 values.  Fields that the
    data model declares to hold integers are kept in [Z]; the two places
    where the program leaves the integers (a quotient times one hundred,
    and a mean of two percentages) are computed with the binary64
    operations of [SpecFloat], so that their rounding is the one the
    program really performs. *)

From Stdlib Require Import ZArith List String Ascii Bool Lia Arith.
From Stdlib Require Import DecimalString.
From Stdlib Require Import Permutation Sorted.
From Stdlib Require Import Floats.SpecFloat.
Import ListNotations.

Local Open Scope string_scope.
Local Open Scope list_scope.
Local Open Scope Z_scope.

(* ================================================================== *)
(** * JavaScript numbers                                               *)
(* ================================================================== *)

Module JS.

(** binary64: 53 bits of precision, exponent of infinity 1024. *)
Definition prec : Z := 53.
Definition emax : Z := 1024.

Definition number := spec_float.

(** The double nearest to an integer (exact below 2^53). *)
Definition of_Z (n : Z) : number := binary_normalize prec emax n 0 false.

Definition add (x y : number) : number := SFadd prec emax x y.
Definition mul (x y : number) : number := SFmul prec emax x y.
Definition div (x y : number) : number := SFdiv prec emax x y.

Definition is_finite (x : number) : bool :=
  match x with
  | S754_zero _ | S754_finite _ _ _ => true
  | S754_infinity _ | S754_nan => false
  end.

(** [Math.round]: the integer nearest to [x], a tie going towards
    plus infinity, that is [floor (x + 1/2)] computed exactly.  On a
    finite double [(-1)^s * m * 2^e] this is integer arithmetic.
    [Math.round] leaves NaN and the infinities as they are; they are
    no integers, the value [0] given here for them is never used by
    the program (see [percentage_finite] and [mean_spec]). *)
Definition Math_round (x : number) : Z :=
  match x with
  | S754_zero _ => 0
  | S754_finite s m e =>
      let sm := if s then Z.neg m else Z.pos m in
      if 0 <=? e then sm * 2 ^ e
      else (2 * sm + 2 ^ (- e)) / 2 ^ (1 - e)
  | S754_infinity _ | S754_nan => 0
  end.

End JS.

(* ================================================================== *)
(** * Domain model ([src/types/index.ts])                              *)
(* ================================================================== *)

Inductive Response := correct | incorrect | approximation | no_response.

Inductive CueLevel :=
  independent | verbal_cue | visual_cue | model | partial_physical | full_physical.

Inductive GoalCategory :=
  articulation | language | fluency | voice | pragmatics | phonology | other.

Inductive GoalStatus := active | achieved | discontinued.

Inductive Theme := light | dark | system.

Definition Response_eqb (a b : Response) : bool :=
  match a, b with
  | correct, correct | incorrect, incorrect
  | approximation, approximation | no_response, no_response => true
  | _, _ => false
  end.

Definition GoalStatus_eqb (a b : GoalStatus) : bool :=
  match a, b with
  | active, active | achieved, achieved | discontinued, discontinued => true
  | _, _ => false
  end.

Module Client.
Record t := mk {
  id : string;
  firstName : string;
  lastName : string;
  dateOfBirth : string;
  diagnosis : option string;
  notes : option string;
  createdAt : string;
  updatedAt : string;
  isActive : bool
}.
(** [{ ...client, updatedAt: stamp }] *)
Definition with_updatedAt (stamp : string) (c : t) : t :=
  mk (id c) (firstName c) (lastName c) (dateOfBirth c) (diagnosis c)
     (notes c) (createdAt c) stamp (isActive c).
End Client.

Module Goal.
Record t := mk {
  id : string;
  clientId : string;
  name : string;
  description : string;
  targetAccuracy : Z;
  currentAccuracy : Z;
  targetDate : option string;
  status : GoalStatus;
  category : GoalCategory;
  createdAt : string;
  updatedAt : string
}.
(** [{ ...goal, updatedAt: stamp }] *)
Definition with_updatedAt (stamp : string) (g : t) : t :=
  mk (id g) (clientId g) (name g) (description g) (targetAccuracy g)
     (currentAccuracy g) (targetDate g) (status g) (category g)
     (createdAt g) stamp.
(** [{ ...goal, currentAccuracy: a, status: s, updatedAt: stamp }] *)
Definition with_progress (a : Z) (s : GoalStatus) (stamp : string) (g : t) : t :=
  mk (id g) (clientId g) (name g) (description g) (targetAccuracy g)
     a (targetDate g) s (category g) (createdAt g) stamp.
End Goal.

Module Trial.
Record t := mk {
  id : string;
  sessionId : string;
  goalId : string;
  prompt : string;
  response : Response;
  cueLevel : CueLevel;
  notes : option string;
  timestamp : string
}.
(** [{ ...t, sessionId }] *)
Definition with_sessionId (sid : string) (x : t) : t :=
  mk (id x) sid (goalId x) (prompt x) (response x) (cueLevel x)
     (notes x) (timestamp x).
End Trial.

Module Session.
Record t := mk {
  id : string;
  clientId : string;
  date : string;
  duration : Z;
  notes : option string;
  goals : list string;
  trials : list Trial.t;
  createdAt : string
}.
End Session.

Module SessionStats.
Record t := mk {
  totalTrials : Z;
  correctTrials : Z;
  incorrectTrials : Z;
  approximationTrials : Z;
  noResponseTrials : Z;
  accuracy : Z
}.
End SessionStats.

Module AppSettings.
Record t := mk {
  defaultSessionDuration : Z;
  defaultTargetAccuracy : Z;
  enableNotifications : bool;
  theme : Theme;
  cueLevels : list CueLevel;
  responseOptions : list Response
}.
End AppSettings.

(* ================================================================== *)
(** * The aggregator ([src/utils/helpers.ts])                          *)
(* ================================================================== *)

(** [array.length] *)
Definition len {A} (l : list A) : Z := Z.of_nat (List.length l).

(** [(correctTrials / totalTrials) * 100], in binary64. *)
Definition percentage (correctTrials totalTrials : Z) : JS.number :=
  JS.mul (JS.div (JS.of_Z correctTrials) (JS.of_Z totalTrials)) (JS.of_Z 100).

Definition calculateSessionStats (trials : list Trial.t) : SessionStats.t :=
  let totalTrials := len trials in
  let correctTrials :=
    len (filter (fun t => Response_eqb (Trial.response t) correct) trials) in
  let incorrectTrials :=
    len (filter (fun t => Response_eqb (Trial.response t) incorrect) trials) in
  let approximationTrials :=
    len (filter (fun t => Response_eqb (Trial.response t) approximation) trials) in
  let noResponseTrials :=
    len (filter (fun t => Response_eqb (Trial.response t) no_response) trials) in
  let accuracy :=
    if 0 <? totalTrials
    then JS.Math_round (percentage correctTrials totalTrials)
    else 0 in
  SessionStats.mk totalTrials correctTrials incorrectTrials
    approximationTrials noResponseTrials accuracy.

(** [(goal.currentAccuracy + stats.accuracy) / 2], in binary64. *)
Definition mean (currentAccuracy accuracy : Z) : JS.number :=
  JS.div (JS.add (JS.of_Z currentAccuracy) (JS.of_Z accuracy)) (JS.of_Z 2).

(* ================================================================== *)
(** * JavaScript arrays                                                *)
(* ================================================================== *)

(** [array.findIndex(p)]: the first index whose element satisfies [p],
    or [-1]. *)
Fixpoint findIndex {A} (p : A -> bool) (l : list A) : Z :=
  match l with
  | [] => -1
  | x :: r => if p x then 0 else
                let i := findIndex p r in if 0 <=? i then i + 1 else -1
  end.

(** [array[i] = v] for an index inside the array.  (Outside it
    JavaScript would grow the array; the store only assigns at an index
    returned by [findIndex], see [findIndex_range].) *)
Fixpoint assign {A} (i : nat) (v : A) (l : list A) : list A :=
  match l, i with
  | [], _ => []
  | _ :: r, O => v :: r
  | x :: r, S j => x :: assign j v r
  end.

(** [array.push(v)] and the spread [[...prev, v]]. *)
Definition push {A} (v : A) (l : list A) : list A := l ++ [v].

(** [array.includes(s)] on strings. *)
Definition includes (s : string) (l : list string) : bool :=
  existsb (String.eqb s) l.

(** [array.sort(compareFn)].  With a comparator that orders the
    elements consistently -- here always the difference of two
    integers -- the result is the one stable sorted arrangement, which
    insertion from the right computes: an element goes in front of the
    first later element that it does not follow. *)
Fixpoint insert_sorted {A} (compareFn : A -> A -> Z) (x : A) (l : list A)
  : list A :=
  match l with
  | [] => [x]
  | y :: r => if compareFn x y <=? 0 then x :: y :: r
              else y :: insert_sorted compareFn x r
  end.

Definition sort {A} (compareFn : A -> A -> Z) (l : list A) : list A :=
  fold_right (insert_sorted compareFn) [] l.

(** [array.slice(0, stop)]: a negative [stop] counts from the end. *)
Definition slice0 {A} (stop : Z) (l : list A) : list A :=
  if 0 <=? stop then firstn (Z.to_nat stop) l
  else firstn (Z.to_nat (Z.of_nat (List.length l) + stop)) l.

(* ================================================================== *)
(** * The key-value medium (AsyncStorage)                              *)
(* ================================================================== *)

(** [STORAGE_KEYS] *)
Inductive Key := CLIENTS | GOALS | SESSIONS | SETTINGS.

(** The shape of the document kept under each key, as the type
    arguments of [getItem<T>] declare it. *)
Definition docT (k : Key) : Type :=
  match k with
  | CLIENTS => list Client.t
  | GOALS => list Goal.t
  | SESSIONS => list Session.t
  | SETTINGS => AppSettings.t
  end.

(** A stored text: either the serialisation of a value, or bytes that
    [JSON.parse] rejects.  A text that parses is taken to hold a value
    of the shape declared for its key: the store is written by this
    program only, from values of that shape. *)
Inductive text (T : Type) := Malformed | Json (v : T).
Arguments Malformed {T}.
Arguments Json {T} v.

(** What the medium holds: for each key a text, or nothing. *)
Record Disk := mkDisk {
  at_clients : option (text (list Client.t));
  at_goals : option (text (list Goal.t));
  at_sessions : option (text (list Session.t));
  at_settings : option (text AppSettings.t)
}.

Definition read (d : Disk) (k : Key) : option (text (docT k)) :=
  match k with
  | CLIENTS => at_clients d
  | GOALS => at_goals d
  | SESSIONS => at_sessions d
  | SETTINGS => at_settings d
  end.

Definition write (d : Disk) (k : Key) : text (docT k) -> Disk :=
  match k with
  | CLIENTS => fun v => mkDisk (Some v) (at_goals d) (at_sessions d) (at_settings d)
  | GOALS => fun v => mkDisk (at_clients d) (Some v) (at_sessions d) (at_settings d)
  | SESSIONS => fun v => mkDisk (at_clients d) (at_goals d) (Some v) (at_settings d)
  | SETTINGS => fun v => mkDisk (at_clients d) (at_goals d) (at_sessions d) (Some v)
  end.

(** What the surroundings decide during one operation: which reads and
    writes of the medium fail, and what the clock shows. *)
Record Env := mkEnv {
  read_ok : Key -> bool;
  write_ok : Key -> bool;
  now : string
}.

(** ** Asynchronous computations

    A promise either resolves with a value or rejects; either way the
    medium may have changed. *)
Inductive result (A : Type) := Return (a : A) | Throw.
Arguments Return {A} a.
Arguments Throw {A}.

Definition M (A : Type) : Type := Env -> Disk -> result A * Disk.

Definition ret {A} (a : A) : M A := fun _ d => (Return a, d).

Definition throw {A} : M A := fun _ d => (Throw, d).

Definition bind {A B} (m : M A) (f : A -> M B) : M B :=
  fun env d =>
    match m env d with
    | (Return a, d') => f a env d'
    | (Throw, d') => (Throw, d')
    end.

(** [try { body } catch (error) { handler }] *)
Definition try_catch {A} (body handler : M A) : M A :=
  fun env d =>
    match body env d with
    | (Return a, d') => (Return a, d')
    | (Throw, d') => handler env d'
    end.

Notation "x <- c ;; k" := (bind c (fun x => k))
  (at level 61, c at next level, right associativity).
Notation "c ;;; k" := (bind c (fun _ => k))
  (at level 61, right associativity).

(** [for (const x of xs) { await body(x) }], threading a state. *)
Fixpoint forEach {A S} (body : A -> S -> M S) (xs : list A) (s : S) : M S :=
  match xs with
  | [] => ret s
  | x :: r => s' <- body x s ;; forEach body r s'
  end.

Module AsyncStorage.
Definition getItem (k : Key) : M (option (text (docT k))) :=
  fun env d => if read_ok env k then (Return (read d k), d) else (Throw, d).

Definition setItem (k : Key) (v : text (docT k)) : M unit :=
  fun env d => if write_ok env k then (Return tt, write d k v) else (Throw, d).

(** The medium without what it held under [k]. *)
Definition remove (d : Disk) (k : Key) : Disk :=
  match k with
  | CLIENTS => mkDisk None (at_goals d) (at_sessions d) (at_settings d)
  | GOALS => mkDisk (at_clients d) None (at_sessions d) (at_settings d)
  | SESSIONS => mkDisk (at_clients d) (at_goals d) None (at_settings d)
  | SETTINGS => mkDisk (at_clients d) (at_goals d) (at_sessions d) None
  end.

(** [AsyncStorage.multiRemove(keys)]: a removal is a write of the
    medium; the keys whose write the medium performs are removed, and
    the call rejects when it refuses one. *)
Definition multiRemove (keys : list Key) : M unit :=
  fun env d =>
    let d' := fold_left (fun acc k => if write_ok env k then remove acc k else acc)
                keys d in
    if forallb (write_ok env) keys then (Return tt, d') else (Throw, d').
End AsyncStorage.

Module JSON.
Definition parse {T} (t : text T) : M T :=
  match t with Json v => ret v | Malformed => throw end.
Definition stringify {T} (v : T) : text T := Json v.
End JSON.

(** [new Date().toISOString()] *)
Definition Date_now : M string := fun env d => (Return (now env), d).

(* ================================================================== *)
(** * The record store ([src/services/storage.ts])                     *)
(* ================================================================== *)

Definition DEFAULT_SETTINGS : AppSettings.t :=
  AppSettings.mk 30 80 true system
    [independent; verbal_cue; visual_cue; model; partial_physical; full_physical]
    [correct; incorrect; approximation; no_response].

Definition getItem (k : Key) : M (option (docT k)) :=
  try_catch
    (jsonValue <- AsyncStorage.getItem k ;;
     match jsonValue with
     | Some t => v <- JSON.parse t ;; ret (Some v)
     | None => ret None
     end)
    (ret None).

Definition setItem (k : Key) (value : docT k) : M bool :=
  try_catch
    (AsyncStorage.setItem k (JSON.stringify value) ;;; ret true)
    (ret false).

(** [value || fallback] on a value that is either an object or null. *)
Definition or_else {T} (value : option T) (fallback : T) : T :=
  match value with Some v => v | None => fallback end.

Module GoalStorage.
Definition getAll : M (list Goal.t) :=
  goals <- getItem GOALS ;; ret (or_else goals []).

Definition getById (id : string) : M (option Goal.t) :=
  goals <- getAll ;;
  ret (find (fun g => (Goal.id g =? id)%string) goals).

Definition getByClientId (clientId : string) : M (list Goal.t) :=
  goals <- getAll ;;
  ret (filter (fun g => (Goal.clientId g =? clientId)%string) goals).

Definition getActiveByClientId (clientId : string) : M (list Goal.t) :=
  goals <- getByClientId clientId ;;
  ret (filter (fun g => GoalStatus_eqb (Goal.status g) active) goals).

Definition save (goal : Goal.t) : M bool :=
  goals <- getAll ;;
  let existingIndex :=
    findIndex (fun g => (Goal.id g =? Goal.id goal)%string) goals in
  goals' <- (if 0 <=? existingIndex
             then stamp <- Date_now ;;
                  ret (assign (Z.to_nat existingIndex)
                         (Goal.with_updatedAt stamp goal) goals)
             else ret (push goal goals)) ;;
  setItem GOALS goals'.

Definition delete (id : string) : M bool :=
  goals <- getAll ;;
  let filtered := filter (fun g => negb (Goal.id g =? id)%string) goals in
  setItem GOALS filtered.

Definition deleteByClientId (clientId : string) : M bool :=
  goals <- getAll ;;
  let filtered :=
    filter (fun g => negb (Goal.clientId g =? clientId)%string) goals in
  setItem GOALS filtered.

Definition updateAccuracy (id : string) (accuracy : Z) : M bool :=
  goal <- getById id ;;
  match goal with
  | None => ret false
  | Some goal =>
      save (Goal.mk (Goal.id goal) (Goal.clientId goal) (Goal.name goal)
              (Goal.description goal) (Goal.targetAccuracy goal)
              accuracy (Goal.targetDate goal)
              (if Goal.targetAccuracy goal <=? accuracy
               then achieved else Goal.status goal)
              (Goal.category goal) (Goal.createdAt goal) (Goal.updatedAt goal))
  end.
End GoalStorage.

Module SessionStorage.
Definition getAll : M (list Session.t) :=
  sessions <- getItem SESSIONS ;; ret (or_else sessions []).

Definition getById (id : string) : M (option Session.t) :=
  sessions <- getAll ;;
  ret (find (fun s => (Session.id s =? id)%string) sessions).

Definition save (session : Session.t) : M bool :=
  sessions <- getAll ;;
  let existingIndex :=
    findIndex (fun s => (Session.id s =? Session.id session)%string) sessions in
  let sessions' :=
    if 0 <=? existingIndex
    then assign (Z.to_nat existingIndex) session sessions
    else push session sessions in
  setItem SESSIONS sessions'.

Definition delete (id : string) : M bool :=
  sessions <- getAll ;;
  let filtered := filter (fun s => negb (Session.id s =? id)%string) sessions in
  setItem SESSIONS filtered.

Definition deleteByClientId (clientId : string) : M bool :=
  sessions <- getAll ;;
  let filtered :=
    filter (fun s => negb (Session.clientId s =? clientId)%string) sessions in
  setItem SESSIONS filtered.

(** [(a, b) => new Date(b.date).getTime() - new Date(a.date).getTime()],
    where [getTime s] is the instant, in milliseconds, that
    [new Date(s).getTime()] reads from the date string [s] (the dates
    of sessions are written by [toISOString], so it is a number). *)
Definition newest_first (getTime : string -> Z) (a b : Session.t) : Z :=
  getTime (Session.date b) - getTime (Session.date a).

Definition getByClientId (getTime : string -> Z) (clientId : string)
  : M (list Session.t) :=
  sessions <- getAll ;;
  ret (sort (newest_first getTime)
         (filter (fun s => (Session.clientId s =? clientId)%string) sessions)).

Definition getByGoalId (getTime : string -> Z) (goalId : string)
  : M (list Session.t) :=
  sessions <- getAll ;;
  ret (sort (newest_first getTime)
         (filter (fun s => includes goalId (Session.goals s)) sessions)).

(** [limit] is [None] when the argument is left out: it defaults to 10. *)
Definition getRecent (getTime : string -> Z) (limit : option Z)
  : M (list Session.t) :=
  sessions <- getAll ;;
  ret (slice0 (or_else limit 10) (sort (newest_first getTime) sessions)).
End SessionStorage.

(** (In the source [ClientStorage] comes first; it is placed after the
    two stores its [delete] calls.) *)
Module ClientStorage.
Definition getAll : M (list Client.t) :=
  clients <- getItem CLIENTS ;; ret (or_else clients []).

Definition getById (id : string) : M (option Client.t) :=
  clients <- getAll ;;
  ret (find (fun c => (Client.id c =? id)%string) clients).

Definition save (client : Client.t) : M bool :=
  clients <- getAll ;;
  let existingIndex :=
    findIndex (fun c => (Client.id c =? Client.id client)%string) clients in
  clients' <- (if 0 <=? existingIndex
               then stamp <- Date_now ;;
                    ret (assign (Z.to_nat existingIndex)
                           (Client.with_updatedAt stamp client) clients)
               else ret (push client clients)) ;;
  setItem CLIENTS clients'.

Definition delete (id : string) : M bool :=
  clients <- getAll ;;
  let filtered := filter (fun c => negb (Client.id c =? id)%string) clients in
  (* Also delete related goals and sessions *)
  GoalStorage.deleteByClientId id ;;;
  SessionStorage.deleteByClientId id ;;;
  setItem CLIENTS filtered.

Definition getActive : M (list Client.t) :=
  clients <- getAll ;; ret (filter Client.isActive clients).
End ClientStorage.

Module SettingsStorage.
Definition get : M AppSettings.t :=
  settings <- getItem SETTINGS ;; ret (or_else settings DEFAULT_SETTINGS).

Definition save (settings : AppSettings.t) : M bool :=
  setItem SETTINGS settings.

Definition reset : M bool := setItem SETTINGS DEFAULT_SETTINGS.
End SettingsStorage.

(** ** Backup documents

    A property of a parsed document is absent, or holds a value that
    JavaScript treats as false ([null], [false], [0], the empty
    string), or holds a value it treats as true; the latter is taken to
    have the shape of the collection, as the import path assumes. *)
Inductive field (T : Type) := Absent | Falsy | Truthy (v : T).
Arguments Absent {T}.
Arguments Falsy {T}.
Arguments Truthy {T} v.

Record Backup := mkBackup {
  exportDate : field string;
  clients : field (list Client.t);
  goals : field (list Goal.t);
  sessions : field (list Session.t);
  settings : field AppSettings.t
}.

(** What [JSON.parse] can return: [null]; a value without the four
    properties (a number, a string, a boolean, an array); an object. *)
Inductive json := JNull | JOther | JObject (b : Backup).

(** [data.prop]: a property read on [null] raises a TypeError. *)
Definition prop {T} (sel : Backup -> field T) (data : json) : M (field T) :=
  match data with
  | JNull => throw
  | JOther => ret Absent
  | JObject b => ret (sel b)
  end.

(** [if (data.prop) { await setItem(key, data.prop); }] *)
Definition import_key (k : Key) (sel : Backup -> field (docT k)) (data : json)
  : M unit :=
  value <- prop sel data ;;
  match value with
  | Truthy v => setItem k v ;;; ret tt
  | _ => ret tt
  end.

Definition exportAllData : M (text json) :=
  clients <- ClientStorage.getAll ;;
  goals <- GoalStorage.getAll ;;
  sessions <- SessionStorage.getAll ;;
  settings <- SettingsStorage.get ;;
  stamp <- Date_now ;;
  let data :=
    mkBackup (Truthy stamp) (Truthy clients) (Truthy goals)
      (Truthy sessions) (Truthy settings) in
  ret (JSON.stringify (JObject data)).

Definition importData (jsonString : text json) : M bool :=
  try_catch
    (data <- JSON.parse jsonString ;;
     import_key CLIENTS clients data ;;;
     import_key GOALS goals data ;;;
     import_key SESSIONS sessions data ;;;
     import_key SETTINGS settings data ;;;
     ret true)
    (ret false).

Definition clearAllData : M bool :=
  try_catch
    (AsyncStorage.multiRemove [CLIENTS; GOALS; SESSIONS; SETTINGS] ;;; ret true)
    (ret false).

(* ================================================================== *)
(** * The state facade ([src/context/AppContext.tsx])                  *)
(* ================================================================== *)

Module AppContext.

(** The in-memory mirror: the four [useState] cells of [AppProvider]. *)
Record t := mk {
  clients : list Client.t;
  goals : list Goal.t;
  sessions : list Session.t;
  settings : AppSettings.t;
  isLoading : bool
}.

Definition setClients (f : list Client.t -> list Client.t) (ctx : t) : t :=
  mk (f (clients ctx)) (goals ctx) (sessions ctx) (settings ctx) (isLoading ctx).
Definition setGoals (f : list Goal.t -> list Goal.t) (ctx : t) : t :=
  mk (clients ctx) (f (goals ctx)) (sessions ctx) (settings ctx) (isLoading ctx).
Definition setSessions (f : list Session.t -> list Session.t) (ctx : t) : t :=
  mk (clients ctx) (goals ctx) (f (sessions ctx)) (settings ctx) (isLoading ctx).
Definition setSettings (s : AppSettings.t) (ctx : t) : t :=
  mk (clients ctx) (goals ctx) (sessions ctx) s (isLoading ctx).
Definition setIsLoading (b : bool) (ctx : t) : t :=
  mk (clients ctx) (goals ctx) (sessions ctx) (settings ctx) b.

(** The initial values of the cells. *)
Definition initial : t := mk [] [] [] DEFAULT_SETTINGS true.

Definition loadData (ctx : t) : M t :=
  let ctx := setIsLoading true ctx in
  ctx' <- try_catch
    (loadedClients <- ClientStorage.getAll ;;
     loadedGoals <- GoalStorage.getAll ;;
     loadedSessions <- SessionStorage.getAll ;;
     loadedSettings <- SettingsStorage.get ;;
     ret (setSettings loadedSettings
            (setSessions (fun _ => loadedSessions)
               (setGoals (fun _ => loadedGoals)
                  (setClients (fun _ => loadedClients) ctx)))))
    (ret ctx) ;;
  ret (setIsLoading false ctx').

(** *** Client operations *)

Definition addClient (client : Client.t) (ctx : t) : M (bool * t) :=
  success <- ClientStorage.save client ;;
  ret (success,
       if success then setClients (fun prev => push client prev) ctx else ctx).

Definition updateClient (client : Client.t) (ctx : t) : M (bool * t) :=
  success <- ClientStorage.save client ;;
  ret (success,
       if success
       then setClients
              (map (fun c => if (Client.id c =? Client.id client)%string
                             then client else c)) ctx
       else ctx).

Definition deleteClient (id : string) (ctx : t) : M (bool * t) :=
  success <- ClientStorage.delete id ;;
  ret (success,
       if success
       then setSessions
              (filter (fun s => negb (Session.clientId s =? id)%string))
              (setGoals
                 (filter (fun g => negb (Goal.clientId g =? id)%string))
                 (setClients
                    (filter (fun c => negb (Client.id c =? id)%string)) ctx))
       else ctx).

Definition getClient (id : string) (ctx : t) : option Client.t :=
  find (fun c => (Client.id c =? id)%string) (clients ctx).

(** *** Goal operations *)

Definition addGoal (goal : Goal.t) (ctx : t) : M (bool * t) :=
  success <- GoalStorage.save goal ;;
  ret (success,
       if success then setGoals (fun prev => push goal prev) ctx else ctx).

Definition updateGoal (goal : Goal.t) (ctx : t) : M (bool * t) :=
  success <- GoalStorage.save goal ;;
  ret (success,
       if success
       then setGoals
              (map (fun g => if (Goal.id g =? Goal.id goal)%string
                             then goal else g)) ctx
       else ctx).

Definition deleteGoal (id : string) (ctx : t) : M (bool * t) :=
  success <- GoalStorage.delete id ;;
  ret (success,
       if success
       then setGoals (filter (fun g => negb (Goal.id g =? id)%string)) ctx
       else ctx).

Definition getGoal (id : string) (ctx : t) : option Goal.t :=
  find (fun g => (Goal.id g =? id)%string) (goals ctx).

Definition getGoalsByClient (clientId : string) (ctx : t) : list Goal.t :=
  filter (fun g => (Goal.clientId g =? clientId)%string) (goals ctx).

Definition getActiveGoalsByClient (clientId : string) (ctx : t) : list Goal.t :=
  filter (fun g => (Goal.clientId g =? clientId)%string
                   && GoalStatus_eqb (Goal.status g) active) (goals ctx).

(** *** Session operations *)

Definition addSession (session : Session.t) (ctx : t) : M (bool * t) :=
  success <- SessionStorage.save session ;;
  ret (success,
       if success then setSessions (fun prev => push session prev) ctx else ctx).

Definition updateSession (session : Session.t) (ctx : t) : M (bool * t) :=
  success <- SessionStorage.save session ;;
  ret (success,
       if success
       then setSessions
              (map (fun s => if (Session.id s =? Session.id session)%string
                             then session else s)) ctx
       else ctx).

Definition deleteSession (id : string) (ctx : t) : M (bool * t) :=
  success <- SessionStorage.delete id ;;
  ret (success,
       if success
       then setSessions (filter (fun s => negb (Session.id s =? id)%string)) ctx
       else ctx).

Definition getSession (id : string) (ctx : t) : option Session.t :=
  find (fun s => (Session.id s =? id)%string) (sessions ctx).

Definition getSessionsByClient (getTime : string -> Z) (clientId : string)
    (ctx : t) : list Session.t :=
  sort (SessionStorage.newest_first getTime)
    (filter (fun s => (Session.clientId s =? clientId)%string) (sessions ctx)).

Definition getSessionsByGoal (getTime : string -> Z) (goalId : string)
    (ctx : t) : list Session.t :=
  sort (SessionStorage.newest_first getTime)
    (filter (fun s => includes goalId (Session.goals s)) (sessions ctx)).

(** *** Settings operations *)

Definition updateSettings (newSettings : AppSettings.t) (ctx : t)
  : M (bool * t) :=
  success <- SettingsStorage.save newSettings ;;
  ret (success, if success then setSettings newSettings ctx else ctx).

Definition refreshData (ctx : t) : M t := loadData ctx.

End AppContext.

(* ================================================================== *)
(** * The session-recording flow ([src/screens/NewSessionScreen.tsx])  *)
(* ================================================================== *)

(** ** [String.prototype.trim]

    A string holds the UTF-8 encoding of the JavaScript string.
    [trim] removes from both ends the code points that ECMAScript
    calls WhiteSpace or LineTerminator:
    U+0009..U+000D and U+0020 (one byte);
    U+00A0 (two bytes: C2 A0);
    U+1680, U+2000..U+200A, U+2028, U+2029, U+202F, U+205F, U+3000 and
    U+FEFF (three bytes). *)
Definition byte (c : ascii) : N := N_of_ascii c.

Definition is_space (c : ascii) : bool :=
  ((9 <=? byte c) && (byte c <=? 13) || (byte c =? 32))%N.

Definition is_space2 (a b : ascii) : bool :=
  ((byte a =? 194) && (byte b =? 160))%N.

Definition is_space3 (a b c : ascii) : bool :=
  ((byte a =? 225) && (byte b =? 154) && (byte c =? 128)
   || (byte a =? 226) && (byte b =? 128)
      && ((128 <=? byte c) && (byte c <=? 138)
          || (byte c =? 168) || (byte c =? 169) || (byte c =? 175))
   || (byte a =? 226) && (byte b =? 129) && (byte c =? 159)
   || (byte a =? 227) && (byte b =? 128) && (byte c =? 128)
   || (byte a =? 239) && (byte b =? 187) && (byte c =? 191))%N.

(** The string without the white space it starts with.  With
    [backwards] the string is read from its end: the bytes of a code
    point then come in the opposite order. *)
Fixpoint strip (backwards : bool) (s : string) : string :=
  match s with
  | String a r1 =>
      if is_space a then strip backwards r1
      else
        match r1 with
        | String b r2 =>
            if (if backwards then is_space2 b a else is_space2 a b)
            then strip backwards r2
            else
              match r2 with
              | String c r3 =>
                  if (if backwards then is_space3 c b a else is_space3 a b c)
                  then strip backwards r3
                  else s
              | EmptyString => s
              end
        | EmptyString => s
        end
  | EmptyString => EmptyString
  end.

Definition reverse (s : string) : string :=
  string_of_list_ascii (rev (list_ascii_of_string s)).

Definition trimStart (s : string) : string := strip false s.

Definition trimEnd (s : string) : string := reverse (strip true (reverse s)).

Definition trim (s : string) : string := trimEnd (trimStart s).

(** The template literal [`Trial ${n}`]. *)
Definition trial_label (n : Z) : string :=
  ("Trial " ++ NilZero.string_of_int (Z.to_int n))%string.

Module NewSessionScreen.

(** The [useState] cells of the screen, with the route parameter
    [clientId]. *)
Record t := mk {
  clientId : string;
  selectedGoalIds : list string;
  currentGoalIndex : Z;
  trials : list Trial.t;
  currentCueLevel : CueLevel;
  prompt : string;
  sessionNotes : string;
  sessionStarted : bool;
  isSaving : bool
}.

(** [route.params] gives [clientId] and, optionally, [goalIds]. *)
Definition initial (clientId : string) (initialGoalIds : option (list string)) : t :=
  mk clientId (or_else initialGoalIds []) 0 [] independent "" "" false false.

Definition setSelectedGoalIds (f : list string -> list string) (s : t) : t :=
  mk (clientId s) (f (selectedGoalIds s)) (currentGoalIndex s) (trials s)
     (currentCueLevel s) (prompt s) (sessionNotes s) (sessionStarted s) (isSaving s).
Definition setCurrentGoalIndex (i : Z) (s : t) : t :=
  mk (clientId s) (selectedGoalIds s) i (trials s)
     (currentCueLevel s) (prompt s) (sessionNotes s) (sessionStarted s) (isSaving s).
Definition setTrials (f : list Trial.t -> list Trial.t) (s : t) : t :=
  mk (clientId s) (selectedGoalIds s) (currentGoalIndex s) (f (trials s))
     (currentCueLevel s) (prompt s) (sessionNotes s) (sessionStarted s) (isSaving s).
Definition setCurrentCueLevel (c : CueLevel) (s : t) : t :=
  mk (clientId s) (selectedGoalIds s) (currentGoalIndex s) (trials s)
     c (prompt s) (sessionNotes s) (sessionStarted s) (isSaving s).
Definition setPrompt (p : string) (s : t) : t :=
  mk (clientId s) (selectedGoalIds s) (currentGoalIndex s) (trials s)
     (currentCueLevel s) p (sessionNotes s) (sessionStarted s) (isSaving s).
Definition setSessionNotes (n : string) (s : t) : t :=
  mk (clientId s) (selectedGoalIds s) (currentGoalIndex s) (trials s)
     (currentCueLevel s) (prompt s) n (sessionStarted s) (isSaving s).
Definition setSessionStarted (b : bool) (s : t) : t :=
  mk (clientId s) (selectedGoalIds s) (currentGoalIndex s) (trials s)
     (currentCueLevel s) (prompt s) (sessionNotes s) b (isSaving s).
Definition setIsSaving (b : bool) (s : t) : t :=
  mk (clientId s) (selectedGoalIds s) (currentGoalIndex s) (trials s)
     (currentCueLevel s) (prompt s) (sessionNotes s) (sessionStarted s) b.

(** [selectedGoalIds[currentGoalIndex]]: [undefined] outside the array. *)
Definition at_index {A} (l : list A) (i : Z) : option A :=
  if 0 <=? i then nth_error l (Z.to_nat i) else None.

Definition currentGoal (ctx : AppContext.t) (s : t) : option Goal.t :=
  if len (selectedGoalIds s) =? 0 then None
  else match at_index (selectedGoalIds s) (currentGoalIndex s) with
       | Some id => AppContext.getGoal id ctx
       | None => None
       end.

Definition currentGoalTrials (ctx : AppContext.t) (s : t) : list Trial.t :=
  match currentGoal ctx s with
  | None => []
  | Some g => filter (fun x => (Trial.goalId x =? Goal.id g)%string) (trials s)
  end.

Definition toggleGoalSelection (goalId : string) (s : t) : t :=
  setSelectedGoalIds
    (fun prev => if includes goalId prev
                 then filter (fun id => negb (id =? goalId)%string) prev
                 else push goalId prev) s.

Definition handleStartSession (s : t) : t :=
  if len (selectedGoalIds s) =? 0 then s  (* Alert 'Select Goals' *)
  else setSessionStarted true s.

(** [newId] is what [generateId()] returns and [stamp] what the clock
    shows when the handler runs. *)
Definition handleRecordTrial (ctx : AppContext.t) (newId stamp : string)
    (response : Response) (s : t) : t :=
  match currentGoal ctx s with
  | None => s
  | Some g =>
      let newTrial :=
        Trial.mk newId
          ""  (* Will be set when session is saved *)
          (Goal.id g)
          (match trim (prompt s) with
           | EmptyString => trial_label (len (currentGoalTrials ctx s) + 1)
           | p => p
           end)
          response (currentCueLevel s) None stamp in
      setPrompt "" (setTrials (fun prev => push newTrial prev) s)
  end.

Definition handleDeleteLastTrial (ctx : AppContext.t) (s : t) : t :=
  match rev (currentGoalTrials ctx s) with
  | [] => s
  | lastTrial :: _ =>
      setTrials
        (filter (fun x => negb (Trial.id x =? Trial.id lastTrial)%string)) s
  end.

Definition handleNextGoal (s : t) : t :=
  if currentGoalIndex s <? len (selectedGoalIds s) - 1
  then setCurrentGoalIndex (currentGoalIndex s + 1) s else s.

Definition handlePrevGoal (s : t) : t :=
  if 0 <? currentGoalIndex s
  then setCurrentGoalIndex (currentGoalIndex s - 1) s else s.

(** [rendered] is the facade as the screen last rendered it: the
    callback reads [getGoal] and [trials] from that render, while
    [updateGoal] acts on the facade's current cells. *)
Definition calculateAndUpdateGoalAccuracy
    (rendered : AppContext.t) (s : t) (stamp : string)
    (goalId : string) (ctx : AppContext.t) : M AppContext.t :=
  match AppContext.getGoal goalId rendered with
  | None => ret ctx
  | Some goal =>
      let goalTrials :=
        filter (fun x => (Trial.goalId x =? goalId)%string) (trials s) in
      let stats := calculateSessionStats goalTrials in
      (* Update goal's current accuracy (simple average with existing) *)
      let newAccuracy :=
        JS.Math_round
          (mean (Goal.currentAccuracy goal) (SessionStats.accuracy stats)) in
      r <- AppContext.updateGoal
             (Goal.with_progress newAccuracy
                (if Goal.targetAccuracy goal <=? newAccuracy
                 then achieved else Goal.status goal)
                stamp goal) ctx ;;
      ret (snd r)
  end.

(** How [handleEndSession] leaves the screen. *)
Inductive Ended :=
| AlertNoTrials
| WentBack (session : Session.t)
| AlertFailed (session : Session.t).

(** [sessionId] is what [generateId()] returns; [date] and
    [createdAt] are the two readings of the clock taken for the
    session, [stampOf goalId] the reading taken by the update of that
    goal. *)
Definition handleEndSession
    (sessionId date createdAt : string) (stampOf : string -> string)
    (ctx : AppContext.t) (s : t) : M (Ended * t * AppContext.t) :=
  if len (trials s) =? 0 then ret (AlertNoTrials, s, ctx)
  else
    let s := setIsSaving true s in
    let sessionTrials := map (Trial.with_sessionId sessionId) (trials s) in
    let session :=
      Session.mk sessionId (clientId s) date
        30 (* Default duration, could be calculated *)
        (match trim (sessionNotes s) with
         | EmptyString => None
         | n => Some n
         end)
        (selectedGoalIds s) sessionTrials createdAt in
    r <- AppContext.addSession session ctx ;;
    let '(success, ctx') := r in
    if (success : bool) then
      (* Update goal accuracies *)
      ctx'' <- forEach
                 (fun goalId =>
                    calculateAndUpdateGoalAccuracy ctx s (stampOf goalId) goalId)
                 (selectedGoalIds s) ctx' ;;
      ret (WentBack session, s, ctx'')
    else
      ret (AlertFailed session, setIsSaving false s, ctx').

(** What the user can do on the screen.  The goal-selection view is
    rendered until the session has started, the recording view
    afterwards; a control that is not rendered cannot be pressed. *)
Inductive Event :=
| PressGoal (goalId : string)
| PressStart
| TypePrompt (p : string)
| PressCueLevel (c : CueLevel)
| PressResponse (response : Response) (newId stamp : string)
| PressUndoLast
| PressNext
| PressPrev
| TypeNotes (n : string).

Definition step (ctx : AppContext.t) (ev : Event) (s : t) : t :=
  match AppContext.getClient (clientId s) ctx with
  | None => s   (* 'Client not found' *)
  | Some _ =>
      if sessionStarted s then
        match ev with
        | PressGoal _ | PressStart => s
        | TypePrompt p => setPrompt p s
        | PressCueLevel c => setCurrentCueLevel c s
        | PressResponse r newId stamp => handleRecordTrial ctx newId stamp r s
        | PressUndoLast =>
            if 0 <? len (currentGoalTrials ctx s)
            then handleDeleteLastTrial ctx s else s
        | PressNext =>
            if 1 <? len (selectedGoalIds s) then handleNextGoal s else s
        | PressPrev =>
            if 1 <? len (selectedGoalIds s) then handlePrevGoal s else s
        | TypeNotes n => setSessionNotes n s
        end
      else
        match ev with
        | PressGoal goalId =>
            if existsb (fun g => (Goal.id g =? goalId)%string)
                 (AppContext.getActiveGoalsByClient (clientId s) ctx)
            then toggleGoalSelection goalId s else s
        | PressStart => handleStartSession s
        | _ => s
        end
  end.

(** A run of the screen: each event comes with the facade as it is
    when the event is handled. *)
Fixpoint run (evs : list (AppContext.t * Event)) (s : t) : t :=
  match evs with
  | [] => s
  | (ctx, ev) :: r => run r (step ctx ev s)
  end.

End NewSessionScreen.

(* ================================================================== *)
(** * Other helpers and the screens that call the core                 *)
(* ================================================================== *)

(** What [calculateAge] reads of a [Date]: [getFullYear()],
    [getMonth()] (from 0) and [getDate()]. *)
Module JSDate.
Record t := mk { getFullYear : Z; getMonth : Z; getDate : Z }.
End JSDate.

(** [calculateAge] ([src/utils/helpers.ts]); [today] is [new Date()]
    and [birthDate] is [parseISO(dateOfBirth)]. *)
Definition calculateAge (today birthDate : JSDate.t) : Z :=
  let age := JSDate.getFullYear today - JSDate.getFullYear birthDate in
  let monthDiff := JSDate.getMonth today - JSDate.getMonth birthDate in
  if (monthDiff <? 0)
     || ((monthDiff =? 0) && (JSDate.getDate today <? JSDate.getDate birthDate))
  then age - 1 else age.

(** ** [src/screens/ReportsScreen.tsx]: the statistics, which the
    screen computes from the sessions that pass its time filter. *)
Module ReportsScreen.

(** The entries of the palette that the chart uses. *)
Inductive Colors := success | error | warning | textSecondary | text.

Record Slice := mkSlice {
  name : string;
  count : Z;
  color : Colors;
  legendFontColor : Colors;
  legendFontSize : Z
}.

Definition overallStats (filteredSessions : list Session.t) : SessionStats.t :=
  let allTrials := flat_map Session.trials filteredSessions in
  calculateSessionStats allTrials.

Definition responseDistribution (filteredSessions : list Session.t) : list Slice :=
  let allTrials := flat_map Session.trials filteredSessions in
  if len allTrials =? 0 then []
  else
    let stats := calculateSessionStats allTrials in
    filter (fun item => 0 <? count item)
      [ mkSlice "Correct" (SessionStats.correctTrials stats) success text 12;
        mkSlice "Incorrect" (SessionStats.incorrectTrials stats) error text 12;
        mkSlice "Approx." (SessionStats.approximationTrials stats) warning text 12;
        mkSlice "No Response" (SessionStats.noResponseTrials stats)
          textSecondary text 12 ].

Record GoalRow := mkGoalRow {
  goal : Goal.t;
  sessionCount : Z;
  trialCount : Z;
  accuracy : Z
}.

Definition goalProgress (goals : list Goal.t) (filteredSessions : list Session.t)
  : list GoalRow :=
  sort (fun a b => trialCount b - trialCount a)
    (map (fun goal =>
            let goalSessions :=
              filter (fun s => includes (Goal.id goal) (Session.goals s))
                filteredSessions in
            let goalTrials :=
              flat_map (fun s =>
                          filter (fun t => (Trial.goalId t =? Goal.id goal)%string)
                            (Session.trials s))
                goalSessions in
            let stats := calculateSessionStats goalTrials in
            mkGoalRow goal (len goalSessions) (len goalTrials)
              (SessionStats.accuracy stats))
       (filter (fun g => GoalStatus_eqb (Goal.status g) active
                         || GoalStatus_eqb (Goal.status g) achieved) goals)).

End ReportsScreen.

(** ** [src/screens/SessionDetailScreen.tsx]: the trials of a session,
    grouped by goal. *)
Module SessionDetailScreen.

(** The object that the reduction fills, as the list of its own
    properties with their values.  The list is kept in the order in
    which the reduction creates the properties; this is not the order
    in which [Object.entries] enumerates them (names that are array
    indices come first there), which is not part of the embedding. *)
Definition Groups := list (string * list Trial.t).

(** [acc[k]] for an own property. *)
Fixpoint own (k : string) (acc : Groups) : option (list Trial.t) :=
  match acc with
  | [] => None
  | (k', ts) :: r => if (k' =? k)%string then Some ts else own k r
  end.

(** [acc[k].push(trial)] for an own property [k]. *)
Fixpoint push_own (k : string) (trial : Trial.t) (acc : Groups) : Groups :=
  match acc with
  | [] => []
  | (k', ts) :: r =>
      if (k' =? k)%string then (k', push trial ts) :: r
      else (k', ts) :: push_own k trial r
  end.

(** One step of the reduction.  [inherited k] says that the name [k]
    is defined by [Object.prototype] (such as [constructor]): then
    [acc[k]] is truthy without being an array of the object, no array
    is created, and [push] is not a function. *)
Definition group_step (inherited : string -> bool)
    (acc : result Groups) (trial : Trial.t) : result Groups :=
  match acc with
  | Throw => Throw
  | Return acc =>
      let k := Trial.goalId trial in
      match own k acc with
      | Some _ => Return (push_own k trial acc)
      | None =>
          if inherited k then Throw
          else Return (push (k, push trial []) acc)
      end
  end.

Definition trialsByGoal (inherited : string -> bool) (session : option Session.t)
  : result Groups :=
  match session with
  | None => Return []
  | Some session =>
      fold_left (group_step inherited) (Session.trials session) (Return [])
  end.

End SessionDetailScreen.

(** ** [SettingsScreen] ([src/screens/ClientDetailScreen.tsx]) *)
Module SettingsScreen.

(** [parseInt(text) || fallback]: [parseInt] yields an integer or NaN
    ([None]); NaN and 0 give way to the fallback. *)
Definition parsed_or (parseInt : string -> option Z) (text : string)
    (fallback : Z) : Z :=
  match parseInt text with
  | None => fallback
  | Some n => if n =? 0 then fallback else n
  end.

(** The alert that closes [handleSaveSettings]. *)
Inductive SaveAlert := Saved.

(** [defaultDuration] and [defaultAccuracy] are the two text fields.
    The flag that [updateSettings] returns is not looked at. *)
Definition handleSaveSettings (parseInt : string -> option Z)
    (defaultDuration defaultAccuracy : string) (ctx : AppContext.t)
  : M (SaveAlert * AppContext.t) :=
  let duration := parsed_or parseInt defaultDuration 30 in
  let accuracy := parsed_or parseInt defaultAccuracy 80 in
  let settings := AppContext.settings ctx in
  r <- AppContext.updateSettings
         (AppSettings.mk
            (Z.max 5 (Z.min 120 duration))
            (Z.max 1 (Z.min 100 accuracy))
            (AppSettings.enableNotifications settings)
            (AppSettings.theme settings)
            (AppSettings.cueLevels settings)
            (AppSettings.responseOptions settings))
         ctx ;;
  ret (Saved, snd r).

(** What the document picker and the file system hand over. *)
Inductive Picked := Rejected | Canceled | Content (content : text json).

Inductive ImportAlert := NoAlert | Success | InvalidFormat | Unable.

(** The handler of 'Continue' in [handleImportData]. *)
Definition handleImportData (picked : Picked) (ctx : AppContext.t)
  : M (ImportAlert * AppContext.t) :=
  try_catch
    (match picked with
     | Rejected => throw
     | Canceled => ret (NoAlert, ctx)
     | Content content =>
         success <- importData content ;;
         if (success : bool)
         then ctx' <- AppContext.refreshData ctx ;; ret (Success, ctx')
         else ret (InvalidFormat, ctx)
     end)
    (ret (Unable, ctx)).

(** The alert that closes [handleClearData]. *)
Inductive ClearAlert := Done.

(** The handler of 'Yes, Delete All' in [handleClearData].  The flag
    that [clearAllData] returns is not looked at. *)
Definition handleClearData (ctx : AppContext.t) : M (ClearAlert * AppContext.t) :=
  clearAllData ;;;
  ctx' <- AppContext.refreshData ctx ;;
  ret (Done, ctx').

End SettingsScreen.

(** ** [AddGoalScreen] ([src/screens/AddGoalScreen.tsx]) *)
Module AddGoalScreen.

(** The object [errors]: its two possible properties. *)
Record Errors := mkErrors {
  error_name : option string;
  error_targetAccuracy : option string
}.

(** The [useState] cells of the form, with the route parameter
    [clientId]; [targetAccuracy] is the text of its field. *)
Record t := mk {
  clientId : string;
  name : string;
  description : string;
  category : GoalCategory;
  targetAccuracy : string;
  isLoading : bool;
  errors : Errors
}.

Definition setErrors (e : Errors) (s : t) : t :=
  mk (clientId s) (name s) (description s) (category s) (targetAccuracy s)
     (isLoading s) e.
Definition setIsLoading (b : bool) (s : t) : t :=
  mk (clientId s) (name s) (description s) (category s) (targetAccuracy s)
     b (errors s).

(** [parseInt] yields an integer, or NaN ([None]). *)
Definition validateForm (parseInt : string -> option Z) (s : t) : bool * t :=
  let newErrors :=
    mkErrors
      (* Only goal name is required! *)
      (match trim (name s) with
       | EmptyString => Some "Goal name is required"
       | _ => None
       end)
      (match parseInt (targetAccuracy s) with
       | None => Some "Enter a value between 1 and 100"
       | Some accuracy =>
           if (accuracy <? 1) || (100 <? accuracy)
           then Some "Enter a value between 1 and 100" else None
       end) in
  (match error_name newErrors, error_targetAccuracy newErrors with
   | None, None => true
   | _, _ => false
   end,
   setErrors newErrors s).

(** How [handleSave] leaves the screen. *)
Inductive Left := Stayed | WentBack | AlertFailed.

(** [newId] is what [generateId()] returns, [createdAt] and
    [updatedAt] the two readings of the clock. *)
Definition handleSave (parseInt : string -> option Z)
    (newId createdAt updatedAt : string) (ctx : AppContext.t) (s : t)
  : M (Left * t * AppContext.t) :=
  let '(valid, s) := validateForm parseInt s in
  if negb valid then ret (Stayed, s, ctx)
  else
    match parseInt (targetAccuracy s) with
    | None => ret (Stayed, s, ctx)  (* NaN: [validateForm] has refused it *)
    | Some accuracy =>
        let s := setIsLoading true s in
        let newGoal :=
          Goal.mk newId (clientId s) (trim (name s))
            (match trim (description s) with
             | EmptyString => trim (name s)
             | d => d
             end)
            accuracy 0 None active (category s) createdAt updatedAt in
        r <- AppContext.addGoal newGoal ctx ;;
        let '(success, ctx') := r in
        let s := setIsLoading false s in
        if (success : bool) then ret (WentBack, s, ctx')
        else ret (AlertFailed, s, ctx')
    end.

End AddGoalScreen.

(* ================================================================== *)
(** * Notions used to state the properties                             *)
(* ================================================================== *)

(** ** Rounding *)

(** The integer nearest to [100 * c / t], a tie going up. *)
Definition nearest_percent_half_up (c t : Z) : Z := (200 * c + t) / (2 * t).

(** The integer nearest to [100 * c / t], a tie going to the even
    neighbour. *)
Definition nearest_percent_half_even (c t : Z) : Z :=
  let f := (100 * c) / t in
  let twice_rest := 2 * ((100 * c) mod t) in
  if twice_rest <? t then f
  else if t <? twice_rest then f + 1
  else if Z.even f then f else f + 1.

(** The integer nearest to [n / 2], a tie going up. *)
Definition nearest_half_up (n : Z) : Z := (n + 1) / 2.

(** A sticky pair of a shifted mantissa says that bits were lost. *)
Definition inexact (mrs : shr_record) : bool := shr_r mrs || shr_s mrs.

(** The next mantissa at or above a located value. *)
Definition loc_up (m : Z) (l : location) : Z :=
  match l with loc_Exact => m | loc_Inexact _ => m + 1 end.

(** A non-negative finite double that does not exceed the integer [N]. *)
Definition below (N : Z) (x : JS.number) : Prop :=
  x = S754_zero false \/
  exists m e, x = S754_finite false m e /\ e <= 0 /\ Z.pos m <= N * 2 ^ (- e).

(** The percentages [0 .. 100]. *)
Definition percents : list Z := map Z.of_nat (seq 0 101).

(** ** What the medium holds, as the store reads it *)

Definition stored {T} (slot : option (text T)) : option T :=
  match slot with Some (Json v) => Some v | _ => None end.

Definition clientsOf (d : Disk) : list Client.t := or_else (stored (at_clients d)) [].
Definition goalsOf (d : Disk) : list Goal.t := or_else (stored (at_goals d)) [].
Definition sessionsOf (d : Disk) : list Session.t := or_else (stored (at_sessions d)) [].
Definition settingsOf (d : Disk) : AppSettings.t :=
  or_else (stored (at_settings d)) DEFAULT_SETTINGS.

(** The medium performs every read, respectively every write. *)
Definition reads (env : Env) : Prop := forall k, read_ok env k = true.
Definition writes (env : Env) : Prop := forall k, write_ok env k = true.

(** A medium that works, at a given time. *)
Definition working (stamp : string) : Env :=
  mkEnv (fun _ => true) (fun _ => true) stamp.

(** The in-memory mirror equals the contents of the record store. *)
Definition mirrors (ctx : AppContext.t) (d : Disk) : Prop :=
  AppContext.clients ctx = clientsOf d /\
  AppContext.goals ctx = goalsOf d /\
  AppContext.sessions ctx = sessionsOf d /\
  AppContext.settings ctx = settingsOf d.

(** The effect of [importData] on one key. *)
Definition imported {T} (accepted : bool) (f : field T) (slot : option (text T))
  : option (text T) :=
  match f with
  | Truthy v => if accepted then Some (Json v) else slot
  | Absent | Falsy => slot
  end.


(** ** Saving into a collection *)

(** What [save] makes of a collection keyed by [id]: the record with
    the id of [e] gives way, in its place, to [stamp e]; when there is
    none, [e] is appended. *)
Definition upsert {A} (id : A -> string) (stamp : A -> A) (e : A) (l : list A)
  : list A :=
  let existingIndex := findIndex (fun x => (id x =? id e)%string) l in
  if 0 <=? existingIndex
  then assign (Z.to_nat existingIndex) (stamp e) l
  else push e l.

(** What a read of the medium yields to the store. *)
Definition seen {T} (ok : bool) (slot : option (text T)) : option T :=
  if ok then stored slot else None.

(** The number of records of a collection that carry a given id. *)
Definition count_id {A} (id : A -> string) (k : string) (l : list A) : Z :=
  len (filter (fun x => (id x =? k)%string) l).

(** Every trial of the session belongs to it and to one of its goals. *)
Definition well_formed (session : Session.t) : Prop :=
  forall x, In x (Session.trials session) ->
    Trial.sessionId x = Session.id session /\
    In (Trial.goalId x) (Session.goals session).

(** The record [x] holds what the client [e] holds, with the time [t]
    in [updatedAt]. *)
Definition client_stored_at (t : string) (e x : Client.t) : Prop :=
  Client.id x = Client.id e /\
  Client.firstName x = Client.firstName e /\
  Client.lastName x = Client.lastName e /\
  Client.dateOfBirth x = Client.dateOfBirth e /\
  Client.diagnosis x = Client.diagnosis e /\
  Client.notes x = Client.notes e /\
  Client.createdAt x = Client.createdAt e /\
  Client.isActive x = Client.isActive e /\
  Client.updatedAt x = t.

(** The record [x] holds what the goal [e] holds, with the time [t] in
    [updatedAt]. *)
Definition goal_stored_at (t : string) (e x : Goal.t) : Prop :=
  Goal.id x = Goal.id e /\
  Goal.clientId x = Goal.clientId e /\
  Goal.name x = Goal.name e /\
  Goal.description x = Goal.description e /\
  Goal.targetAccuracy x = Goal.targetAccuracy e /\
  Goal.currentAccuracy x = Goal.currentAccuracy e /\
  Goal.targetDate x = Goal.targetDate e /\
  Goal.status x = Goal.status e /\
  Goal.category x = Goal.category e /\
  Goal.createdAt x = Goal.createdAt e /\
  Goal.updatedAt x = t.


(** [save] is idempotent on the id.  On a collection whose ids are
    pairwise distinct and a medium that works, [save e] succeeds and
    keeps the ids distinct; a record with the id of [e] is replaced
    where it stands by a record that is [e] as the collection stores
    it ([stored_as]), all other records staying where they are, and
    without such a record [e] is appended; saving [e] once more
    succeeds, and leaves the collection with as many records and
    exactly one with the id of [e]. *)
Definition saves_by_id {A} (id : A -> string) (stored_as : Env -> A -> A -> Prop)
    (view : Disk -> list A) (save : A -> M bool) : Prop :=
  forall (env env' : Env) (d : Disk) (e : A),
    reads env -> writes env -> reads env' -> writes env' ->
    NoDup (map id (view d)) ->
    exists d1 d2,
      save e env d = (Return true, d1) /\
      save e env' d1 = (Return true, d2) /\
      NoDup (map id (view d1)) /\
      ((~ In (id e) (map id (view d)) /\ view d1 = view d ++ [e]) \/
       (exists l1 x l2 x',
           view d = l1 ++ x :: l2 /\ id x = id e /\
           view d1 = l1 ++ x' :: l2 /\ stored_as env e x')) /\
      count_id id (id e) (view d1) = 1 /\
      NoDup (map id (view d2)) /\
      len (view d2) = len (view d1) /\
      count_id id (id e) (view d2) = 1.

(** A medium that refuses the writes of the goals, and only those. *)
Definition goals_write_fails (stamp : string) : Env :=
  mkEnv (fun _ => true)
        (fun k => match k with GOALS => false | _ => true end) stamp.

(** [JSON.parse] accepts the document. *)
Definition parseable {T} (doc : text T) : bool :=
  match doc with Malformed => false | Json _ => true end.

(** The medium after [importData] has dealt with one key. *)
Definition import_slot (env : Env) (k : Key) (f : field (docT k)) (d : Disk)
  : Disk :=
  match f with
  | Truthy v => if write_ok env k then write d k (Json v) else d
  | Absent | Falsy => d
  end.

(** A mutation of the facade whose store operation writes under [k]
    last: it returns the flag of that write; when the write succeeded
    the new mirror and the new store satisfy [post]; when it failed the
    mirror is the former one. *)
Definition keeps_mirror (op : AppContext.t -> M (bool * AppContext.t))
    (k : Key) (env : Env) (d : Disk) (ctx : AppContext.t)
    (post : AppContext.t -> Disk -> Prop) : Prop :=
  exists ctx' d',
    op ctx env d = (Return (write_ok env k, ctx'), d') /\
    (write_ok env k = true -> post ctx' d') /\
    (write_ok env k = false -> ctx' = ctx).

(** A collection in which the record of id [k] carries the time [stamp]
    in its [updatedAt]. *)
Definition restamp_client (k stamp : string) (l : list Client.t) : list Client.t :=
  map (fun c => if (Client.id c =? k)%string
                then Client.with_updatedAt stamp c else c) l.

Definition restamp_goal (k stamp : string) (l : list Goal.t) : list Goal.t :=
  map (fun g => if (Goal.id g =? k)%string
                then Goal.with_updatedAt stamp g else g) l.

(** What holds of the recording screen at all times: every recorded
    trial belongs to a selected goal and carries the empty placeholder
    as its session id, and nothing is recorded before the session has
    started. *)
Definition recording_invariant (s : NewSessionScreen.t) : Prop :=
  (forall x, In x (NewSessionScreen.trials s) ->
     In (Trial.goalId x) (NewSessionScreen.selectedGoalIds s) /\
     Trial.sessionId x = "") /\
  (NewSessionScreen.sessionStarted s = false -> NewSessionScreen.trials s = []).


(** ** Reading back what an operation of the store wrote *)

(** [op] succeeds, after which [getById k] yields [expected] and every
    other id reads as before. *)
Definition then_reads {A} (op : M bool) (getById : string -> M (option A))
    (k : string) (expected : option A) (env env' : Env) (d : Disk) : Prop :=
  exists d',
    op env d = (Return true, d') /\
    getById k env' d' = (Return expected, d') /\
    forall k', k' <> k -> fst (getById k' env' d') = fst (getById k' env' d).

(** The record that [save e] leaves under the id of [e]: [e] itself
    when the id is new, [stamp e] when a record with the id is
    replaced. *)
Definition saved_as {A} (id : A -> string) (stamp : A -> A) (e : A) (l : list A)
  : A :=
  if includes (id e) (map id l) then stamp e else e.

(** The three collections agree. *)
Definition same_records (d d' : Disk) : Prop :=
  clientsOf d' = clientsOf d /\ goalsOf d' = goalsOf d /\
  sessionsOf d' = sessionsOf d.

(** ** Sample data *)

Definition trial_with (r : Response) : Trial.t :=
  Trial.mk "t" "" "g1" "Trial 1" r independent None "2024-01-01T10:00:00.000Z".

Definition sample_client : Client.t :=
  Client.mk "c1" "Ada" "Byron" "2015-12-10" None None
    "2024-01-01T09:00:00.000Z" "2024-01-01T09:00:00.000Z" true.

Definition sample_goal (st : GoalStatus) : Goal.t :=
  Goal.mk "g1" "c1" "Produce /s/" "Initial /s/ in words" 80 60 None st
    articulation "2024-01-01T09:00:00.000Z" "2024-01-01T09:00:00.000Z".

Definition sample_session : Session.t :=
  Session.mk "s1" "c1" "2024-01-02T09:00:00.000Z" 30 None ["g1"]
    [Trial.with_sessionId "s1" (trial_with correct)] "2024-01-02T09:30:00.000Z".

Definition other_client : Client.t :=
  Client.mk "c2" "Alan" "Turing" "2014-06-23" None None
    "2024-01-05T09:00:00.000Z" "2024-01-05T09:00:00.000Z" true.

(** A backup without the [goals] key. *)
Definition backup_without_goals : Backup :=
  mkBackup (Truthy "2024-03-01T00:00:00.000Z") (Truthy [other_client])
    Absent (Truthy []) (Truthy DEFAULT_SETTINGS).

(** A backup whose [clients] key holds [null]. *)
Definition backup_null_clients : Backup :=
  mkBackup (Truthy "2024-03-01T00:00:00.000Z") Falsy
    Absent Absent Absent.

Definition sample_ctx : AppContext.t :=
  AppContext.mk [sample_client] [sample_goal active] [sample_session]
    DEFAULT_SETTINGS false.

(** The sample client under a new last name, as an edit screen builds
    it: with the time of the edit in [updatedAt]. *)
Definition edited_client : Client.t :=
  Client.mk "c1" "Ada" "Lovelace" "2015-12-10" None None
    "2024-01-01T09:00:00.000Z" "2024-02-01T10:00:00.000Z" true.


Definition disk_with_goal (st : GoalStatus) : Disk :=
  mkDisk (Some (Json [sample_client])) (Some (Json [sample_goal st])) None None.

Definition screen_one_correct : NewSessionScreen.t :=
  NewSessionScreen.mk "c1" ["g1"] 0 [trial_with correct] independent "" ""
    true false.

(** A visit to the screen: one goal is selected, the session is
    started, two responses are recorded. *)
Definition sample_visit : list (AppContext.t * NewSessionScreen.Event) :=
  [ (sample_ctx, NewSessionScreen.PressGoal "g1");
    (sample_ctx, NewSessionScreen.PressStart);
    (sample_ctx, NewSessionScreen.PressResponse correct "t1"
                   "2024-02-01T10:00:00.000Z");
    (sample_ctx, NewSessionScreen.PressResponse incorrect "t2"
                   "2024-02-01T10:01:00.000Z") ].

Definition sample_disk : Disk :=
  mkDisk (Some (Json [sample_client])) (Some (Json [sample_goal active]))
    (Some (Json [sample_session])) None.

(** ** Orders *)

(** In descending order of [key]. *)
Definition descending {A} (key : A -> Z) (l : list A) : Prop :=
  StronglySorted (fun a b => key b <= key a) l.

(** [outcome] is the return, with the medium [d] unchanged, of the
    sessions [qualifying] newest first: a rearrangement of them in
    descending order of the date, in which the sessions of one instant
    keep their order. *)
Definition newest_first_of (getTime : string -> Z) (qualifying : list Session.t)
    (outcome : result (list Session.t) * Disk) (d : Disk) : Prop :=
  exists l,
    outcome = (Return l, d) /\
    descending (fun s => getTime (Session.date s)) l /\
    Permutation l qualifying /\
    forall t,
      filter (fun s => getTime (Session.date s) =? t) l
      = filter (fun s => getTime (Session.date s) =? t) qualifying.

(** ** More sample data *)

(** A medium that fails to read the clients, and writes them. *)
Definition clients_read_fails (stamp : string) : Env :=
  mkEnv (fun k => match k with CLIENTS => false | _ => true end)
        (fun _ => true) stamp.

(** A reading of the dates that [toISOString] writes, for the samples:
    the decimal digits of the string as one number, which grows with
    the instant. *)
Definition iso_digits (s : string) : Z :=
  fold_left
    (fun acc c =>
       let n := Z.of_nat (nat_of_ascii c) in
       if (48 <=? n) && (n <=? 57) then 10 * acc + (n - 48) else acc)
    (list_ascii_of_string s) 0.

Definition later_session : Session.t :=
  Session.mk "s2" "c1" "2024-01-09T09:00:00.000Z" 30 None ["g1"]
    [Trial.with_sessionId "s2" (trial_with incorrect)] "2024-01-09T09:30:00.000Z".

Definition two_sessions_disk : Disk :=
  mkDisk (Some (Json [sample_client])) (Some (Json [sample_goal active]))
    (Some (Json [sample_session; later_session])) None.

(** ** The recording screen *)

(** The goal in view: the index of the current goal is 0 until the
    session has started, and an index into the selection afterwards. *)
Definition goal_in_view (s : NewSessionScreen.t) : Prop :=
  0 <= NewSessionScreen.currentGoalIndex s /\
  (NewSessionScreen.sessionStarted s = false ->
   NewSessionScreen.currentGoalIndex s = 0) /\
  (NewSessionScreen.sessionStarted s = true ->
   NewSessionScreen.currentGoalIndex s
   < len (NewSessionScreen.selectedGoalIds s)).

(** ** Dates *)

(** The day [(y, m, day)] is [today] or earlier. *)
Definition on_or_before (y m day : Z) (today : JSDate.t) : Prop :=
  y < JSDate.getFullYear today \/
  (y = JSDate.getFullYear today /\
   (m < JSDate.getMonth today \/
    (m = JSDate.getMonth today /\ day <= JSDate.getDate today))).

(** ** Sums *)

Definition sum_of {A} (f : A -> Z) (l : list A) : Z :=
  fold_right (fun x acc => f x + acc) 0 l.

(** ** Groups *)

(** The trials of goal [k], when there are any. *)
Definition trials_of (k : string) (trials : list Trial.t) : option (list Trial.t) :=
  match filter (fun x => (Trial.goalId x =? k)%string) trials with
  | [] => None
  | ts => Some ts
  end.

(** ** Reading back a record

    [op] succeeds, after which [getById k] yields a record that
    satisfies [P] and every other id reads as before. *)
Definition then_reads_a {A} (op : M bool) (getById : string -> M (option A))
    (k : string) (P : A -> Prop) (env env' : Env) (d : Disk) : Prop :=
  exists d' x,
    op env d = (Return true, d') /\
    getById k env' d' = (Return (Some x), d') /\
    P x /\
    forall k', k' <> k -> fst (getById k' env' d') = fst (getById k' env' d).

(** What [save e] leaves under the id of [e] in a collection that held
    [l]: [e] as the collection stores it when a record with the id was
    there, [e] itself when the id was new. *)
Definition saved_record {A} (id : A -> string) (stored_at : A -> A -> Prop)
    (e : A) (l : list A) (x : A) : Prop :=
  (In (id e) (map id l) -> stored_at e x) /\
  (~ In (id e) (map id l) -> x = e).

(** ** Backups, key by key *)

(** What a key holds after the import of a document: the document's
    value when it is truthy, what was there otherwise. *)
Definition value_or {T} (f : field T) (previous : T) : T :=
  match f with Truthy v => v | Absent | Falsy => previous end.

(** ** Blank strings *)

(** The UTF-8 encodings of the code points that [trim] removes. *)
Definition utf8 (bytes : list nat) : string :=
  string_of_list_ascii (map ascii_of_nat bytes).

Definition white_space : list string :=
  map utf8
    [ [9%nat]; [10%nat]; [11%nat]; [12%nat]; [13%nat]; [32%nat];
      [194; 160]%nat;
      [225; 154; 128]%nat;
      [226; 128; 128]%nat; [226; 128; 129]%nat; [226; 128; 130]%nat;
      [226; 128; 131]%nat; [226; 128; 132]%nat; [226; 128; 133]%nat;
      [226; 128; 134]%nat; [226; 128; 135]%nat; [226; 128; 136]%nat;
      [226; 128; 137]%nat; [226; 128; 138]%nat;
      [226; 128; 168]%nat; [226; 128; 169]%nat; [226; 128; 175]%nat;
      [226; 129; 159]%nat;
      [227; 128; 128]%nat;
      [239; 187; 191]%nat ].

(** A string that consists of white space only. *)
Inductive Blank : string -> Prop :=
| Blank_empty : Blank EmptyString
| Blank_more (w s : string) : In w white_space -> Blank s -> Blank (w ++ s)%string.

(** ** Samples for the failures of the medium *)

(** A medium that refuses the writes of the sessions, and only those. *)
Definition sessions_write_fails (stamp : string) : Env :=
  mkEnv (fun _ => true)
        (fun k => match k with SESSIONS => false | _ => true end) stamp.

(** A medium that refuses every write. *)
Definition no_write (stamp : string) : Env :=
  mkEnv (fun _ => true) (fun _ => false) stamp.

Definition two_clients_disk : Disk :=
  mkDisk (Some (Json [sample_client; other_client]))
    (Some (Json [sample_goal active])) (Some (Json [sample_session])) None.

(** The add-goal form with a name that is one no-break space. *)
Definition form_with_blank_name : AddGoalScreen.t :=
  AddGoalScreen.mk "c1" (utf8 [194; 160]%nat) "" articulation "80" false
    (AddGoalScreen.mkErrors None None).

(* ================================================================== *)
(** * Binary64 arithmetic                                              *)
(* ================================================================== *)

Section Binary64.

Lemma iter_pos_nat {A} (f : A -> A) (p : positive) (x : A) :
  iter_pos f p x = Nat.iter (Pos.to_nat p) f x.
Proof.
  revert x; induction p as [p IH | p IH |]; intro x; cbn [iter_pos].
  - rewrite !IH, Pos2Nat.inj_xI, <- Nat.iter_add, <- Nat.iter_succ_r.
    f_equal; lia.
  - rewrite !IH, Pos2Nat.inj_xO, <- Nat.iter_add. f_equal; lia.
  - reflexivity.
Qed.

Lemma shr_1_spec mrs :
  0 <= shr_m mrs ->
  shr_m (shr_1 mrs) = shr_m mrs / 2 /\
  (inexact (shr_1 mrs) = false <-> inexact mrs = false /\ shr_m mrs mod 2 = 0).
Proof.
  destruct mrs as [m r s]; unfold inexact; cbn [shr_m shr_r shr_s].
  intro Hm.
  destruct m as [| [p | p |] |]; try lia; cbn [shr_1 shr_m shr_r shr_s orb].
  - split; [reflexivity|]. split; [intros H; split; [exact H | reflexivity] | tauto].
  - split.
    + apply Z.div_unique with (r := 1); lia.
    + split; [discriminate|]. intros [_ H].
      rewrite <- (Z.mod_unique (Z.pos p~1) 2 (Z.pos p) 1) in H; lia.
  - split.
    + apply Z.div_unique with (r := 0); lia.
    + split; [|tauto]. intros H; split; [exact H|].
      symmetry; apply Z.mod_unique with (q := Z.pos p); lia.
  - split; [reflexivity|]. split; [discriminate|]. intros [_ H]. discriminate H.
Qed.

Lemma shr_iter_spec n mrs :
  0 <= shr_m mrs ->
  shr_m (Nat.iter n shr_1 mrs) = shr_m mrs / 2 ^ Z.of_nat n /\
  (inexact (Nat.iter n shr_1 mrs) = false <->
   inexact mrs = false /\ shr_m mrs mod 2 ^ Z.of_nat n = 0).
Proof.
  intro Hm. induction n as [| n [IHm IHx]].
  - change (Nat.iter 0 shr_1 mrs) with mrs.
    rewrite Z.pow_0_r, Z.div_1_r, Z.mod_1_r. tauto.
  - change (Nat.iter (S n) shr_1 mrs) with (shr_1 (Nat.iter n shr_1 mrs)).
    assert (Hpos : 0 < 2 ^ Z.of_nat n) by (apply Z.pow_pos_nonneg; lia).
    assert (H0 : 0 <= shr_m (Nat.iter n shr_1 mrs)).
    { rewrite IHm. apply Z.div_pos; lia. }
    destruct (shr_1_spec _ H0) as [S1 S2].
    rewrite Nat2Z.inj_succ, Z.pow_succ_r by lia.
    split.
    + rewrite S1, IHm, Z.div_div by lia. f_equal; lia.
    + rewrite S2, IHx, IHm.
      rewrite (Z.mul_comm 2), Z.rem_mul_r by lia.
      pose proof (Z.mod_pos_bound (shr_m mrs) (2 ^ Z.of_nat n) Hpos).
      pose proof (Z.mod_pos_bound (shr_m mrs / 2 ^ Z.of_nat n) 2 ltac:(lia)).
      split.
      * intros [[Ha Hb] Hc]. split; [exact Ha|]. rewrite Hb, Hc. lia.
      * intros [Ha Hb]. split; [split; [exact Ha|]|]; nia.
Qed.

(** [shr] moves the binary point [Z.max n 0] places. *)
Lemma shr_spec mrs e n :
  0 <= shr_m mrs ->
  snd (shr mrs e n) = e + Z.max n 0 /\
  shr_m (fst (shr mrs e n)) = shr_m mrs / 2 ^ Z.max n 0 /\
  (inexact (fst (shr mrs e n)) = false <->
   inexact mrs = false /\ shr_m mrs mod 2 ^ Z.max n 0 = 0).
Proof.
  intros Hm. destruct n as [| p | p]; cbn [shr fst snd].
  - rewrite Z.max_id, Z.pow_0_r, Z.div_1_r, Z.mod_1_r, Z.add_0_r. tauto.
  - rewrite iter_pos_nat.
    replace (Z.max (Z.pos p) 0) with (Z.of_nat (Pos.to_nat p)) by lia.
    split; [lia|]. apply shr_iter_spec; exact Hm.
  - replace (Z.max (Z.neg p) 0) with 0 by lia.
    rewrite Z.pow_0_r, Z.div_1_r, Z.mod_1_r, Z.add_0_r. tauto.
Qed.

Lemma digits2_pos_bounds p :
  2 ^ (Z.pos (digits2_pos p) - 1) <= Z.pos p < 2 ^ Z.pos (digits2_pos p).
Proof.
  induction p as [p IH | p IH |]; cbn [digits2_pos].
  - rewrite Pos2Z.inj_succ.
    replace (Z.succ (Z.pos (digits2_pos p)) - 1)
      with (Z.succ (Z.pos (digits2_pos p) - 1)) by lia.
    rewrite !Z.pow_succ_r by lia. lia.
  - rewrite Pos2Z.inj_succ.
    replace (Z.succ (Z.pos (digits2_pos p)) - 1)
      with (Z.succ (Z.pos (digits2_pos p) - 1)) by lia.
    rewrite !Z.pow_succ_r by lia. lia.
  - cbn. lia.
Qed.

Lemma Zdigits2_le m k : 0 <= m -> 0 <= k -> m < 2 ^ k -> Zdigits2 m <= k.
Proof.
  intros Hm Hk Hlt. destruct m as [| p | p]; cbn [Zdigits2]; try lia.
  destruct (digits2_pos_bounds p) as [Hlo _].
  destruct (Z_le_gt_dec (Z.pos (digits2_pos p)) k) as [|Hgt]; [assumption|].
  exfalso.
  assert (2 ^ k <= 2 ^ (Z.pos (digits2_pos p) - 1))
    by (apply Z.pow_le_mono_r; lia).
  lia.
Qed.


Lemma fexp64 x : fexp JS.prec JS.emax x = Z.max (x - 53) (-1074).
Proof. reflexivity. Qed.

Lemma inexact_of_loc m l :
  inexact (shr_record_of_loc m l) = false <-> l = loc_Exact.
Proof.
  destruct l as [| [ | | ]]; cbn; split; congruence.
Qed.

Lemma shr_m_of_loc m l : shr_m (shr_record_of_loc m l) = m.
Proof. destruct l as [| [ | | ]]; reflexivity. Qed.

Lemma round_nearest_even_bounds mrs :
  let m := round_nearest_even (shr_m mrs) (loc_of_shr_record mrs) in
  shr_m mrs <= m /\ m <= shr_m mrs + (if inexact mrs then 1 else 0).
Proof.
  destruct mrs as [m [|] [|]]; cbn [shr_m shr_r shr_s inexact orb
    loc_of_shr_record round_nearest_even]; try destruct (Z.even m); lia.
Qed.

Lemma pow2_split a b : 0 <= a -> 0 <= b -> 2 ^ (a + b) = 2 ^ a * 2 ^ b.
Proof. intros; apply Z.pow_add_r; assumption. Qed.

(** One alignment step of [binary_round_aux]: a value that does not
    exceed the integer [N] stays below it when the mantissa is cut to
    [prec] bits and rounded to nearest. *)
Lemma shr_fexp_upper mx ex lx N :
  0 <= mx -> 0 < N <= 2 ^ 52 -> ex <= 0 ->
  loc_up mx lx <= N * 2 ^ (- ex) ->
  let mrs := fst (shr_fexp JS.prec JS.emax mx ex lx) in
  let e := snd (shr_fexp JS.prec JS.emax mx ex lx) in
  e <= 0 /\ 0 <= shr_m mrs /\
  round_nearest_even (shr_m mrs) (loc_of_shr_record mrs) <= N * 2 ^ (- e).
Proof.
  intros Hmx HN Hex Hup mrs e. subst mrs e. unfold shr_fexp.
  set (n := fexp JS.prec JS.emax (Zdigits2 mx + ex) - ex).
  pose proof (shr_spec (shr_record_of_loc mx lx) ex n) as S.
  rewrite shr_m_of_loc in S. destruct (S Hmx) as (Se & Sm & Sx). clear S.
  rewrite Se, Sm.
  assert (Hp : 0 < 2 ^ (- ex)) by (apply Z.pow_pos_nonneg; lia).
  assert (Hmx' : mx <= N * 2 ^ (- ex)) by (destruct lx; cbn [loc_up] in Hup; lia).
  assert (Hd : Zdigits2 mx <= 53 - ex).
  { apply Zdigits2_le; try lia.
    replace (53 - ex) with (53 + - ex) by lia.
    rewrite pow2_split by lia.
    assert (2 ^ 52 < 2 ^ 53) by (cbv; reflexivity). nia. }
  assert (Hk : 0 <= Z.max n 0 <= - ex).
  { unfold n. rewrite fexp64. lia. }
  set (k := Z.max n 0) in *.
  assert (Hpk : 0 < 2 ^ k) by (apply Z.pow_pos_nonneg; lia).
  assert (Hsplit : 2 ^ (- ex) = 2 ^ (- (ex + k)) * 2 ^ k).
  { rewrite <- pow2_split by lia. f_equal; lia. }
  assert (Hpe : 0 < 2 ^ (- (ex + k))) by (apply Z.pow_pos_nonneg; lia).
  split; [lia|]. split; [apply Z.div_pos; lia|].
  pose proof (round_nearest_even_bounds (fst (shr (shr_record_of_loc mx lx) ex n))) as R.
  cbv zeta in R. rewrite Sm in R. destruct R as [_ R].
  eapply Z.le_trans; [exact R|]. clear R.
  destruct (inexact (fst (shr (shr_record_of_loc mx lx) ex n))) eqn:Hin.
  - (* something was cut off or was already inexact *)
    assert (Hlt : mx < N * 2 ^ (- (ex + k)) * 2 ^ k).
    { destruct lx as [| c].
      - cbn [loc_up] in Hup.
        destruct (Z.eq_dec (mx mod 2 ^ k) 0) as [Hz | Hnz].
        + assert (F : true = false).
          { apply Sx. split; [apply inexact_of_loc; reflexivity | exact Hz]. }
          discriminate F.
        + assert (mx <> N * 2 ^ (- (ex + k)) * 2 ^ k).
          { intro E. apply Hnz. rewrite E. apply Z.mod_mul. lia. }
          rewrite Hsplit in Hup. lia.
      - cbn [loc_up] in Hup. rewrite Hsplit in Hup. lia. }
    assert (mx / 2 ^ k < N * 2 ^ (- (ex + k))).
    { apply Z.div_lt_upper_bound; [lia|]. lia. }
    lia.
  - rewrite Z.add_0_r. apply Z.div_le_upper_bound; [lia|].
    rewrite Hsplit in Hmx'. lia.
Qed.

Lemma binary_round_aux_upper mx ex lx N :
  0 <= mx -> 0 < N <= 2 ^ 52 -> ex <= 0 ->
  loc_up mx lx <= N * 2 ^ (- ex) ->
  binary_round_aux JS.prec JS.emax false mx ex lx = S754_zero false \/
  exists m e,
    binary_round_aux JS.prec JS.emax false mx ex lx = S754_finite false m e /\
    e <= 0 /\ Z.pos m <= N * 2 ^ (- e).
Proof.
  intros Hmx HN Hex Hup. unfold binary_round_aux.
  destruct (shr_fexp_upper mx ex lx N Hmx HN Hex Hup) as (He1 & Hm1 & Hr1).
  destruct (shr_fexp JS.prec JS.emax mx ex lx) as [mrs1 e1].
  cbn [fst snd] in He1, Hm1, Hr1.
  set (m2 := round_nearest_even (shr_m mrs1) (loc_of_shr_record mrs1)) in *.
  assert (Hm2 : 0 <= m2).
  { pose proof (round_nearest_even_bounds mrs1) as R. cbv zeta in R. fold m2 in R. lia. }
  destruct (shr_fexp_upper m2 e1 loc_Exact N Hm2 HN He1 Hr1) as (He2 & Hm3 & Hr2).
  destruct (shr_fexp JS.prec JS.emax m2 e1 loc_Exact) as [mrs2 e2].
  cbn [fst snd] in He2, Hm3, Hr2.
  pose proof (round_nearest_even_bounds mrs2) as R. cbv zeta in R.
  destruct (shr_m mrs2) as [| m | m] eqn:E; [left; reflexivity | right | lia].
  exists m, e2.
  replace (e2 <=? JS.emax - JS.prec) with true
    by (symmetry; apply Z.leb_le; unfold JS.emax, JS.prec; lia).
  split; [reflexivity|]. split; [exact He2|]. lia.
Qed.


Lemma iter_xO_spec p k :
  Z.pos (Pos.iter xO p k) = Z.pos p * 2 ^ Z.pos k /\
  Z.pos (digits2_pos (Pos.iter xO p k)) = Z.pos (digits2_pos p) + Z.pos k.
Proof.
  induction k as [| k [IH1 IH2]] using Pos.peano_ind.
  - cbn [Pos.iter digits2_pos]. split; lia.
  - rewrite Pos.iter_succ. cbn [digits2_pos].
    rewrite Pos2Z.inj_xO, IH1, !Pos2Z.inj_succ, IH2, Z.pow_succ_r by lia.
    split; lia.
Qed.

Lemma shl_align_spec p e e' :
  e' <= e ->
  snd (shl_align p e e') = e' /\
  Z.pos (fst (shl_align p e e')) = Z.pos p * 2 ^ (e - e') /\
  Z.pos (digits2_pos (fst (shl_align p e e'))) =
    Z.pos (digits2_pos p) + (e - e').
Proof.
  intro H. unfold shl_align. destruct (e' - e) as [| k | k] eqn:E; cbn [fst snd].
  - replace (e - e') with 0 by lia. rewrite Z.pow_0_r. lia.
  - lia.
  - replace (e - e') with (Z.pos k) by lia.
    destruct (iter_xO_spec p k). split; [reflexivity | split; assumption].
Qed.

Lemma binary_round_aux_canonical m e :
  Z.pos (digits2_pos m) = 53 -> -1074 <= e <= 971 ->
  binary_round_aux JS.prec JS.emax false (Z.pos m) e loc_Exact =
  S754_finite false m e.
Proof.
  intros Hd He.
  assert (Hs : shr_fexp JS.prec JS.emax (Z.pos m) e loc_Exact =
               (Build_shr_record (Z.pos m) false false, e)).
  { unfold shr_fexp. cbn [Zdigits2 shr_record_of_loc]. rewrite Hd, fexp64.
    replace (Z.max (53 + e - 53) (-1074) - e) with 0 by lia. reflexivity. }
  unfold binary_round_aux. rewrite Hs.
  cbn [shr_m loc_of_shr_record round_nearest_even]. rewrite Hs. cbn [shr_m].
  replace (e <=? JS.emax - JS.prec) with true
    by (symmetry; apply Z.leb_le; unfold JS.emax, JS.prec; lia).
  reflexivity.
Qed.

(** Integers below 2^53 are doubles: [of_Z] is exact on them, and the
    result is normalised (53 significant bits). *)
Lemma of_Z_exact n :
  0 < n < 2 ^ 53 ->
  exists m e,
    JS.of_Z n = S754_finite false m e /\ -52 <= e <= 0 /\
    Z.pos m = n * 2 ^ (- e) /\ Z.pos (digits2_pos m) = 53.
Proof.
  intros [Hlo Hhi]. destruct n as [| p | p]; try lia.
  unfold JS.of_Z, binary_normalize, binary_round.
  assert (Hd : 1 <= Z.pos (digits2_pos p) <= 53).
  { split; [lia|]. apply (Zdigits2_le (Z.pos p) 53); lia. }
  rewrite fexp64.
  replace (Z.max (Z.pos (digits2_pos p) + 0 - 53) (-1074))
    with (Z.pos (digits2_pos p) - 53) by lia.
  destruct (shl_align_spec p 0 (Z.pos (digits2_pos p) - 53) ltac:(lia))
    as (A1 & A2 & A3).
  destruct (shl_align p 0 (Z.pos (digits2_pos p) - 53)) as [mz ez].
  cbn [fst snd] in A1, A2, A3. subst ez.
  exists mz, (Z.pos (digits2_pos p) - 53).
  split; [apply binary_round_aux_canonical; lia|].
  split; [lia|]. split; [|lia].
  rewrite A2.
  replace (0 - (Z.pos (digits2_pos p) - 53))
    with (- (Z.pos (digits2_pos p) - 53)) by lia.
  reflexivity.
Qed.

Lemma of_Z_0 : JS.of_Z 0 = S754_zero false.
Proof. reflexivity. Qed.

Lemma of_Z_100 : JS.of_Z 100 = S754_finite false 7036874417766400 (-46).
Proof. reflexivity. Qed.

Lemma loc_up_new_location n q r :
  loc_up q (new_location n r) = if r =? 0 then q else q + 1.
Proof.
  unfold new_location, new_location_even, new_location_odd.
  destruct (Z.even n); destruct (r =? 0); reflexivity.
Qed.

(** A quotient of two integers [c <= t] does not exceed one. *)
Lemma div_below_1 c t :
  0 < c <= t -> t < 2 ^ 53 -> below 1 (JS.div (JS.of_Z c) (JS.of_Z t)).
Proof.
  intros Hc Ht.
  destruct (of_Z_exact c ltac:(lia)) as (mc & ec & Ec & Hec & Hmc & Hdc).
  destruct (of_Z_exact t ltac:(lia)) as (mt & et & Et & Het & Hmt & Hdt).
  unfold JS.div. rewrite Ec, Et. cbn [SFdiv xorb].
  unfold SFdiv_core_binary. cbn [Zdigits2]. rewrite Hdc, Hdt, fexp64.
  replace (Z.min (Z.max (53 + ec - (53 + et) - 53) (-1074)) (ec - et))
    with (ec - et - 53) by lia.
  replace (ec - et - (ec - et - 53)) with 53 by lia.
  rewrite Z.shiftl_mul_pow2 by lia.
  pose proof (Z_div_mod (Z.pos mc * 2 ^ 53) (Z.pos mt) ltac:(lia)) as DM.
  destruct (Z.div_eucl (Z.pos mc * 2 ^ 53) (Z.pos mt)) as [q r].
  destruct DM as [DM Hr].
  assert (P53 : 0 < 2 ^ 53) by (cbv; reflexivity).
  assert (Hq : 0 <= q) by nia.
  assert (Pc : 0 < 2 ^ (- ec)) by (apply Z.pow_pos_nonneg; lia).
  assert (Pt : 0 < 2 ^ (- et)) by (apply Z.pow_pos_nonneg; lia).
  assert (Hs : 2 ^ (- (ec - et - 53)) * 2 ^ (- et) = 2 ^ (- ec) * 2 ^ 53).
  { rewrite <- !pow2_split by lia. f_equal; lia. }
  assert (Pe : 0 < 2 ^ (- (ec - et - 53))) by (apply Z.pow_pos_nonneg; lia).
  apply binary_round_aux_upper; try lia.
  rewrite loc_up_new_location, Z.mul_1_l.
  assert (Hle : q * Z.pos mt + r <= 2 ^ (- (ec - et - 53)) * Z.pos mt).
  { replace (q * Z.pos mt + r) with (Z.pos mc * 2 ^ 53) by lia.
    rewrite Hmc, Hmt.
    replace (2 ^ (- (ec - et - 53)) * (t * 2 ^ (- et)))
      with (t * (2 ^ (- (ec - et - 53)) * 2 ^ (- et))) by ring.
    rewrite Hs. nia. }
  destruct (Z.eqb_spec r 0); nia.
Qed.

(** Multiplying a value that does not exceed one by a hundred. *)
Lemma mul_100_below x : below 1 x -> below 100 (JS.mul x (JS.of_Z 100)).
Proof.
  rewrite of_Z_100. intros [-> | (m & e & -> & He & Hm)].
  - left. reflexivity.
  - unfold JS.mul. cbn [SFmul xorb].
    apply binary_round_aux_upper; try lia.
    cbn [loc_up]. rewrite Pos2Z.inj_mul.
    replace (- (e + -46)) with (- e + 46) by lia.
    rewrite pow2_split by lia.
    change (2 ^ 46) with 70368744177664.
    assert (0 < 2 ^ (- e)) by (apply Z.pow_pos_nonneg; lia).
    nia.
Qed.

Lemma Math_round_below N x :
  0 <= N -> below N x -> 0 <= JS.Math_round x <= N.
Proof.
  intros HN [-> | (m & e & -> & He & Hm)]; cbn [JS.Math_round]; [lia|].
  destruct (Z.leb_spec 0 e).
  - replace e with 0 in * by lia. cbn in *. lia.
  - assert (P : 0 < 2 ^ (- e)) by (apply Z.pow_pos_nonneg; lia).
    assert (E : 2 ^ (1 - e) = 2 * 2 ^ (- e)).
    { replace (1 - e) with (Z.succ (- e)) by lia. apply Z.pow_succ_r. lia. }
    rewrite E. split.
    + apply Z.div_pos; lia.
    + apply Z.lt_succ_r. apply Z.div_lt_upper_bound; lia.
Qed.

Lemma below_finite N x : below N x -> JS.is_finite x = true.
Proof. intros [-> | (m & e & -> & _)]; reflexivity. Qed.

End Binary64.

(* ================================================================== *)
(** * The aggregator                                                   *)
(* ================================================================== *)

Section Aggregator.

Lemma len_nonneg {A} (l : list A) : 0 <= len l.
Proof. unfold len. lia. Qed.

Lemma len_filter_le {A} (p : A -> bool) (l : list A) : len (filter p l) <= len l.
Proof. unfold len. pose proof (filter_length_le p l). lia. Qed.

Lemma len_cons {A} (x : A) (l : list A) : len (x :: l) = len l + 1.
Proof. unfold len. cbn [List.length]. lia. Qed.

(** Every trial has exactly one of the four responses. *)
Lemma responses_partition (trials : list Trial.t) :
  len (filter (fun t => Response_eqb (Trial.response t) correct) trials)
  + len (filter (fun t => Response_eqb (Trial.response t) incorrect) trials)
  + len (filter (fun t => Response_eqb (Trial.response t) approximation) trials)
  + len (filter (fun t => Response_eqb (Trial.response t) no_response) trials)
  = len trials.
Proof.
  induction trials as [| t r IH]; [reflexivity|].
  cbn [filter]. destruct (Trial.response t); cbn [Response_eqb];
    rewrite !len_cons; lia.
Qed.

(** The counts of [calculateSessionStats]. *)
Theorem calculateSessionStats_counts (trials : list Trial.t) :
  let s := calculateSessionStats trials in
  let count r := len (filter (fun t => Response_eqb (Trial.response t) r) trials) in
  SessionStats.totalTrials s = len trials /\
  SessionStats.correctTrials s = count correct /\
  SessionStats.incorrectTrials s = count incorrect /\
  SessionStats.approximationTrials s = count approximation /\
  SessionStats.noResponseTrials s = count no_response /\
  SessionStats.correctTrials s + SessionStats.incorrectTrials s
  + SessionStats.approximationTrials s + SessionStats.noResponseTrials s
  = SessionStats.totalTrials s.
Proof.
  cbv zeta. unfold calculateSessionStats. cbn [SessionStats.totalTrials
    SessionStats.correctTrials SessionStats.incorrectTrials
    SessionStats.approximationTrials SessionStats.noResponseTrials].
  repeat (split; [reflexivity|]). apply responses_partition.
Qed.

Theorem calculateSessionStats_empty :
  calculateSessionStats [] = SessionStats.mk 0 0 0 0 0 0.
Proof. reflexivity. Qed.

Theorem calculateSessionStats_two_of_three :
  calculateSessionStats
    [trial_with correct; trial_with correct; trial_with incorrect]
  = SessionStats.mk 3 2 1 0 0 67.
Proof. vm_compute. reflexivity. Qed.

(** The percentage is a finite double between 0 and 100. *)
Lemma percentage_below (c t : Z) :
  0 <= c <= t -> 0 < t < 2 ^ 53 -> below 100 (percentage c t).
Proof.
  intros Hc Ht. unfold percentage.
  destruct (Z.eq_dec c 0) as [-> | Hnz].
  - left. destruct (of_Z_exact t Ht) as (m & e & -> & _). reflexivity.
  - apply mul_100_below, div_below_1; lia.
Qed.

Lemma percentage_finite (c t : Z) :
  0 <= c <= t -> 0 < t < 2 ^ 53 -> JS.is_finite (percentage c t) = true.
Proof. intros Hc Ht. exact (below_finite _ _ (percentage_below c t Hc Ht)). Qed.

Lemma accuracy_bounds (trials : list Trial.t) :
  len trials < 2 ^ 53 ->
  0 <= SessionStats.accuracy (calculateSessionStats trials) <= 100.
Proof.
  intro Hlen. unfold calculateSessionStats. cbn [SessionStats.accuracy].
  destruct (Z.ltb_spec 0 (len trials)); [|lia].
  apply Math_round_below; [lia|].
  apply percentage_below; [|lia].
  split; [apply len_nonneg | apply len_filter_le].
Qed.

(** The mean of two percentages, checked on all of them. *)
Lemma mean_table :
  forallb (fun a =>
    forallb (fun b =>
      JS.is_finite (mean a b)
      && (JS.Math_round (mean a b) =? nearest_half_up (a + b)))
    percents) percents = true.
Proof. vm_compute. reflexivity. Qed.

Lemma In_percents (a : Z) : 0 <= a <= 100 -> In a percents.
Proof.
  intro H. unfold percents. apply in_map_iff.
  exists (Z.to_nat a). split; [lia|]. apply in_seq. lia.
Qed.

Lemma mean_spec (a b : Z) :
  0 <= a <= 100 -> 0 <= b <= 100 ->
  JS.is_finite (mean a b) = true /\
  JS.Math_round (mean a b) = nearest_half_up (a + b).
Proof.
  intros Ha Hb. pose proof mean_table as T.
  rewrite forallb_forall in T. specialize (T a (In_percents a Ha)).
  rewrite forallb_forall in T. specialize (T b (In_percents b Hb)).
  apply andb_true_iff in T. destruct T as [T1 T2].
  split; [exact T1 | apply Z.eqb_eq; exact T2].
Qed.

Lemma nearest_half_up_range (a b : Z) :
  0 <= a <= 100 -> 0 <= b <= 100 -> 0 <= nearest_half_up (a + b) <= 100.
Proof.
  intros Ha Hb. unfold nearest_half_up. split.
  - apply Z.div_pos; lia.
  - apply Z.lt_succ_r. apply Z.div_lt_upper_bound; lia.
Qed.

End Aggregator.

(** C1 (the accuracy at a tie).  The specification asks that accuracy
    be round(100 * correctTrials / totalTrials).  With 23 correct
    responses among 40 trials the exact percentage is 57.5, which
    rounds to 58 whether a tie goes up or to the even neighbour;
    [calculateSessionStats] returns 57, because the binary64 product
    [(23 / 40) * 100] is 57.49999999999999 (8092405580431359 * 2^-47).
    In the order in which the specification writes the formula,
    [(100 * 23) / 40], binary64 gives 57.5 exactly and [Math.round]
    gives 58.  The counts are as the specification says (see
    [calculateSessionStats_counts]). *)
Theorem C1_accuracy_of_23_in_40 :
  calculateSessionStats
    (repeat (trial_with correct) 23 ++ repeat (trial_with incorrect) 17)
  = SessionStats.mk 40 23 17 0 0 57 /\
  percentage 23 40 = S754_finite false 8092405580431359 (-47) /\
  JS.Math_round (JS.div (JS.mul (JS.of_Z 100) (JS.of_Z 23)) (JS.of_Z 40)) = 58 /\
  nearest_percent_half_up 23 40 = 58 /\
  nearest_percent_half_even 23 40 = 58.
Proof. vm_compute. repeat split; reflexivity. Qed.

(** C10.  For every sequence of trials (a JavaScript array, hence
    shorter than 2^53), the accuracy returned by
    [calculateSessionStats] is an integer between 0 and 100: it is
    [Math.round] of a finite double.  Each of the four response counts
    is at most [totalTrials].  Hence the goal-accuracy update
    [Math.round((currentAccuracy + accuracy) / 2)], applied to a
    [currentAccuracy] between 0 and 100, is again the rounding of a
    finite double and lies between 0 and 100. *)
Theorem C10_accuracy_in_range (trials : list Trial.t) :
  len trials < 2 ^ 53 ->
  let s := calculateSessionStats trials in
  (0 < SessionStats.totalTrials s ->
   JS.is_finite
     (percentage (SessionStats.correctTrials s) (SessionStats.totalTrials s))
   = true) /\
  0 <= SessionStats.accuracy s <= 100 /\
  0 <= SessionStats.correctTrials s <= SessionStats.totalTrials s /\
  0 <= SessionStats.incorrectTrials s <= SessionStats.totalTrials s /\
  0 <= SessionStats.approximationTrials s <= SessionStats.totalTrials s /\
  0 <= SessionStats.noResponseTrials s <= SessionStats.totalTrials s /\
  forall currentAccuracy : Z,
    0 <= currentAccuracy <= 100 ->
    JS.is_finite (mean currentAccuracy (SessionStats.accuracy s)) = true /\
    0 <= JS.Math_round (mean currentAccuracy (SessionStats.accuracy s)) <= 100.
Proof.
  intros Hlen s.
  assert (Hacc : 0 <= SessionStats.accuracy s <= 100)
    by (apply accuracy_bounds; exact Hlen).
  subst s. unfold calculateSessionStats in *.
  cbn [SessionStats.totalTrials SessionStats.correctTrials
       SessionStats.incorrectTrials SessionStats.approximationTrials
       SessionStats.noResponseTrials] in *.
  split.
  { intro Hpos. apply percentage_finite; [|lia].
    split; [apply len_nonneg | apply len_filter_le]. }
  split; [exact Hacc|].
  repeat (split; [split; [apply len_nonneg | apply len_filter_le]|]).
  intros cur Hcur.
  destruct (mean_spec cur _ Hcur Hacc) as [F R].
  split; [exact F|]. rewrite R. apply nearest_half_up_range; assumption.
Qed.

Lemma C10_accuracy_in_range_witness :
  len [trial_with correct; trial_with correct; trial_with incorrect] < 2 ^ 53 /\
  0 <= SessionStats.accuracy
         (calculateSessionStats
            [trial_with correct; trial_with correct; trial_with incorrect])
    <= 100.
Proof.
  split; [reflexivity|].
  apply (C10_accuracy_in_range
           [trial_with correct; trial_with correct; trial_with incorrect]).
  reflexivity.
Defined.

(* ================================================================== *)
(** * Arrays                                                           *)
(* ================================================================== *)

Section Arrays.

Context {A : Type}.

Lemma findIndex_range (p : A -> bool) (l : list A) :
  -1 <= findIndex p l < len l.
Proof.
  induction l as [| x r IH]; cbn [findIndex].
  - unfold len; cbn. lia.
  - rewrite len_cons. destruct (p x); [pose proof (len_nonneg r); lia|].
    destruct (Z.leb_spec 0 (findIndex p r)); lia.
Qed.

(** [findIndex] is [-1] when no element satisfies [p]; otherwise it
    is the length of the longest prefix without such an element. *)
Lemma findIndex_spec (p : A -> bool) (l : list A) :
  (findIndex p l = -1 /\ forall x, In x l -> p x = false) \/
  (exists l1 x l2,
      l = l1 ++ x :: l2 /\ p x = true /\
      (forall y, In y l1 -> p y = false) /\ findIndex p l = len l1).
Proof.
  induction l as [| x r IH]; cbn [findIndex].
  - left. split; [reflexivity | intros ? []].
  - destruct (p x) eqn:Px.
    + right. exists [], x, r. repeat split; auto. intros ? [].
    + destruct IH as [[E H] | (l1 & y & l2 & E & Py & H & I)].
      * left. rewrite E. split; [reflexivity|].
        intros z [<- | Hz]; auto.
      * right. exists (x :: l1), y, l2. rewrite I, len_cons.
        pose proof (len_nonneg l1).
        destruct (Z.leb_spec 0 (len l1)); [|lia].
        split; [rewrite E; reflexivity|].
        repeat split; auto. intros z [<- | Hz]; auto.
Qed.

Lemma assign_at_split (l1 : list A) (x v : A) (l2 : list A) :
  assign (Z.to_nat (len l1)) v (l1 ++ x :: l2) = l1 ++ v :: l2.
Proof.
  unfold len. rewrite Nat2Z.id.
  induction l1 as [| y r IH]; cbn [List.length app assign]; [reflexivity|].
  rewrite IH. reflexivity.
Qed.

End Arrays.

(* ================================================================== *)
(** * Saving into a collection                                         *)
(* ================================================================== *)

Section Upsert.

Context {A : Type} (id : A -> string) (stamp : A -> A).
Hypothesis stamp_id : forall e, id (stamp e) = id e.

Lemma not_In_ids (k : string) (l : list A) :
  (forall x, In x l -> (id x =? k)%string = false) <-> ~ In k (map id l).
Proof.
  split.
  - intros H Hin. apply in_map_iff in Hin. destruct Hin as (x & <- & Hx).
    specialize (H x Hx). rewrite String.eqb_refl in H. discriminate.
  - intros H x Hx. apply String.eqb_neq. intros <-. apply H.
    apply in_map. exact Hx.
Qed.

Lemma upsert_fresh (e : A) (l : list A) :
  ~ In (id e) (map id l) -> upsert id stamp e l = l ++ [e].
Proof.
  intro H. unfold upsert.
  destruct (findIndex_spec (fun x => (id x =? id e)%string) l)
    as [[E _] | (l1 & x & l2 & -> & Px & _)].
  - rewrite E. reflexivity.
  - exfalso. apply H. apply String.eqb_eq in Px. rewrite <- Px.
    rewrite map_app. apply in_or_app. right. left. reflexivity.
Qed.

Lemma upsert_existing (e : A) (l : list A) :
  In (id e) (map id l) ->
  exists l1 x l2,
    l = l1 ++ x :: l2 /\ id x = id e /\ ~ In (id e) (map id l1) /\
    upsert id stamp e l = l1 ++ stamp e :: l2.
Proof.
  intro H. unfold upsert.
  destruct (findIndex_spec (fun x => (id x =? id e)%string) l)
    as [[_ N] | (l1 & x & l2 & -> & Px & N & I)].
  - exfalso. apply (proj1 (not_In_ids (id e) l)); assumption.
  - exists l1, x, l2. rewrite I.
    pose proof (len_nonneg l1).
    destruct (Z.leb_spec 0 (len l1)); [|lia].
    rewrite assign_at_split.
    repeat split; [apply String.eqb_eq; exact Px | apply not_In_ids; exact N].
Qed.

Lemma upsert_cases (e : A) (l : list A) :
  (~ In (id e) (map id l) /\ upsert id stamp e l = l ++ [e]) \/
  (exists l1 x l2,
      l = l1 ++ x :: l2 /\ id x = id e /\ ~ In (id e) (map id l1) /\
      upsert id stamp e l = l1 ++ stamp e :: l2).
Proof.
  destruct (in_dec string_dec (id e) (map id l)) as [Hin | Hnin].
  - right. apply upsert_existing. exact Hin.
  - left. split; [exact Hnin | apply upsert_fresh; exact Hnin].
Qed.

Lemma upsert_ids_existing (e : A) (l : list A) :
  In (id e) (map id l) -> map id (upsert id stamp e l) = map id l.
Proof.
  intro H. destruct (upsert_existing e l H) as (l1 & x & l2 & -> & Hx & _ & ->).
  rewrite !map_app. cbn [map]. rewrite stamp_id, Hx. reflexivity.
Qed.

(** [save] keeps the ids of a collection pairwise distinct. *)
Lemma upsert_NoDup (e : A) (l : list A) :
  NoDup (map id l) -> NoDup (map id (upsert id stamp e l)).
Proof.
  intro H. destruct (in_dec string_dec (id e) (map id l)) as [Hin | Hnin].
  - rewrite upsert_ids_existing; assumption.
  - rewrite upsert_fresh by assumption. rewrite map_app. cbn [map].
    apply NoDup_app; [exact H | constructor; [intros [] | constructor] |].
    intros k Hk [<- | []]. contradiction.
Qed.

Lemma upsert_In (e : A) (l : list A) : In (id e) (map id (upsert id stamp e l)).
Proof.
  destruct (upsert_cases e l) as [[_ ->] | (l1 & x & l2 & _ & _ & _ & ->)];
    rewrite map_app; apply in_or_app; right; left;
    [reflexivity | apply stamp_id].
Qed.

Lemma filter_none (p : A -> bool) (l : list A) :
  (forall x, In x l -> p x = false) -> filter p l = [].
Proof.
  induction l as [| x r IH]; cbn [filter]; [reflexivity|]. intro H.
  rewrite (H x (or_introl eq_refl)). apply IH. intros y Hy. apply H. right. exact Hy.
Qed.

Lemma count_id_NoDup (k : string) (l : list A) :
  NoDup (map id l) -> In k (map id l) -> count_id id k l = 1.
Proof.
  unfold count_id. induction l as [| x r IH]; cbn [map filter]; [intros _ []|].
  intros ND Hin. inversion ND as [| ? ? Hx ND']; subst.
  destruct (String.eqb_spec (id x) k) as [E | E].
  - subst k. rewrite len_cons.
    assert (Z : filter (fun y => (id y =? id x)%string) r = []).
    { apply filter_none. intros y Hy. apply String.eqb_neq. intro E.
      apply Hx. rewrite <- E. apply in_map. exact Hy. }
    rewrite Z. reflexivity.
  - apply IH; [exact ND'|]. destruct Hin as [E' | Hin]; [contradiction | exact Hin].
Qed.

(** After [save] there is exactly one record with the saved id. *)
Lemma upsert_count (e : A) (l : list A) :
  NoDup (map id l) -> count_id id (id e) (upsert id stamp e l) = 1.
Proof.
  intro H. apply count_id_NoDup; [apply upsert_NoDup; exact H | apply upsert_In].
Qed.

Lemma find_upsert_existing (e : A) (l : list A) :
  In (id e) (map id l) ->
  find (fun x => (id x =? id e)%string) (upsert id stamp e l) = Some (stamp e).
Proof.
  intro H. destruct (upsert_existing e l H) as (l1 & x & l2 & _ & _ & N & ->).
  induction l1 as [| y r IH]; cbn [app find].
  - rewrite stamp_id, String.eqb_refl. reflexivity.
  - cbn [map] in N. destruct (String.eqb_spec (id y) (id e)) as [E | E].
    + exfalso. apply N. left. exact E.
    + apply IH. intro Hin. apply N. right. exact Hin.
Qed.

Lemma find_upsert_other (e : A) (l : list A) (k : string) :
  k <> id e ->
  find (fun x => (id x =? k)%string) (upsert id stamp e l)
  = find (fun x => (id x =? k)%string) l.
Proof.
  intro N.
  assert (Ne : forall y, id y = id e -> (id y =? k)%string = false).
  { intros y E. apply String.eqb_neq. rewrite E. intro H. apply N. symmetry. exact H. }
  destruct (upsert_cases e l) as [[_ ->] | (l1 & x & l2 & -> & Hx & _ & ->)].
  - induction l as [| y r IH]; cbn [app find].
    + rewrite (Ne e eq_refl). reflexivity.
    + destruct (id y =? k)%string; [reflexivity | exact IH].
  - induction l1 as [| y r IH]; cbn [app find].
    + rewrite (Ne x Hx), (Ne (stamp e) (stamp_id e)). reflexivity.
    + destruct (id y =? k)%string; [reflexivity | exact IH].
Qed.

(** On a collection with distinct ids, replacing by [map] the records
    that carry the id of [e] is replacing the one record [save] finds. *)
Lemma map_replace_existing (e v : A) (l : list A) :
  NoDup (map id l) -> In (id e) (map id l) ->
  exists l1 x l2,
    l = l1 ++ x :: l2 /\ id x = id e /\
    ~ In (id e) (map id l1) /\ ~ In (id e) (map id l2) /\
    upsert id stamp e l = l1 ++ stamp e :: l2 /\
    map (fun c => if (id c =? id e)%string then v else c) l = l1 ++ v :: l2.
Proof.
  intros ND H. destruct (upsert_existing e l H) as (l1 & x & l2 & -> & Hx & N & U).
  exists l1, x, l2.
  rewrite map_app in ND. cbn [map] in ND.
  apply NoDup_remove_2 in ND. rewrite Hx in ND.
  assert (N2 : ~ In (id e) (map id l2)).
  { intro Hin. apply ND. apply in_or_app. right. exact Hin. }
  split; [reflexivity|]. split; [exact Hx|]. split; [exact N|].
  split; [exact N2|]. split; [exact U|].
  assert (K : forall r, ~ In (id e) (map id r) ->
                map (fun c => if (id c =? id e)%string then v else c) r = r).
  { induction r as [| y r IH]; cbn [map]; [reflexivity|]. intro Hn.
    destruct (String.eqb_spec (id y) (id e)) as [E | E].
    - exfalso. apply Hn. left. exact E.
    - rewrite IH; [reflexivity|]. intro Hin. apply Hn. right. exact Hin. }
  rewrite map_app. cbn [map]. rewrite Hx, String.eqb_refl.
  rewrite !K by assumption. reflexivity.
Qed.

End Upsert.

(* ================================================================== *)
(** * The record store: what each operation computes                   *)
(* ================================================================== *)

Section StoreEquations.

Lemma getItem_eq (env : Env) (d : Disk) (k : Key) :
  getItem k env d = (Return (seen (read_ok env k) (read d k)), d).
Proof.
  unfold getItem, try_catch, bind, AsyncStorage.getItem, seen, stored.
  destruct (read_ok env k); [|reflexivity].
  destruct (read d k) as [[| v] |]; reflexivity.
Qed.

Lemma setItem_eq (env : Env) (d : Disk) (k : Key) (v : docT k) :
  setItem k v env d =
  if write_ok env k then (Return true, write d k (Json v)) else (Return false, d).
Proof.
  unfold setItem, try_catch, bind, AsyncStorage.setItem, JSON.stringify.
  destruct (write_ok env k); reflexivity.
Qed.

Lemma bind_eq (env : Env) (d : Disk) {X Y} (m : M X) (f : X -> M Y) (x : X) (d' : Disk) :
  m env d = (Return x, d') -> bind m f env d = f x env d'.
Proof. intro E. unfold bind. rewrite E. reflexivity. Qed.

Lemma ClientStorage_getAll_eq (env : Env) (d : Disk) :
  ClientStorage.getAll env d =
  (Return (or_else (seen (read_ok env CLIENTS) (at_clients d)) []), d).
Proof.
  unfold ClientStorage.getAll. rewrite (bind_eq env d _ _ _ _ (getItem_eq env d CLIENTS)).
  reflexivity.
Qed.

Lemma GoalStorage_getAll_eq (env : Env) (d : Disk) :
  GoalStorage.getAll env d =
  (Return (or_else (seen (read_ok env GOALS) (at_goals d)) []), d).
Proof.
  unfold GoalStorage.getAll. rewrite (bind_eq env d _ _ _ _ (getItem_eq env d GOALS)).
  reflexivity.
Qed.

Lemma SessionStorage_getAll_eq (env : Env) (d : Disk) :
  SessionStorage.getAll env d =
  (Return (or_else (seen (read_ok env SESSIONS) (at_sessions d)) []), d).
Proof.
  unfold SessionStorage.getAll. rewrite (bind_eq env d _ _ _ _ (getItem_eq env d SESSIONS)).
  reflexivity.
Qed.

Lemma SettingsStorage_get_eq (env : Env) (d : Disk) :
  SettingsStorage.get env d =
  (Return (or_else (seen (read_ok env SETTINGS) (at_settings d)) DEFAULT_SETTINGS), d).
Proof.
  unfold SettingsStorage.get. rewrite (bind_eq env d _ _ _ _ (getItem_eq env d SETTINGS)).
  reflexivity.
Qed.

Lemma ClientStorage_save_eq (env : Env) (d : Disk) (client : Client.t) :
  ClientStorage.save client env d =
  setItem CLIENTS
    (upsert Client.id (Client.with_updatedAt (now env)) client
       (or_else (seen (read_ok env CLIENTS) (at_clients d)) []))
    env d.
Proof.
  unfold ClientStorage.save. rewrite (bind_eq env d _ _ _ _ (ClientStorage_getAll_eq env d)).
  unfold upsert, bind, Date_now, ret.
  destruct (0 <=? findIndex _ _); reflexivity.
Qed.

Lemma GoalStorage_save_eq (env : Env) (d : Disk) (goal : Goal.t) :
  GoalStorage.save goal env d =
  setItem GOALS
    (upsert Goal.id (Goal.with_updatedAt (now env)) goal
       (or_else (seen (read_ok env GOALS) (at_goals d)) []))
    env d.
Proof.
  unfold GoalStorage.save. rewrite (bind_eq env d _ _ _ _ (GoalStorage_getAll_eq env d)).
  unfold upsert, bind, Date_now, ret.
  destruct (0 <=? findIndex _ _); reflexivity.
Qed.

Lemma SessionStorage_save_eq (env : Env) (d : Disk) (session : Session.t) :
  SessionStorage.save session env d =
  setItem SESSIONS
    (upsert Session.id (fun s => s) session
       (or_else (seen (read_ok env SESSIONS) (at_sessions d)) []))
    env d.
Proof.
  unfold SessionStorage.save. rewrite (bind_eq env d _ _ _ _ (SessionStorage_getAll_eq env d)).
  reflexivity.
Qed.

Lemma GoalStorage_delete_eq (env : Env) (d : Disk) (id : string) :
  GoalStorage.delete id env d =
  setItem GOALS
    (filter (fun g => negb (Goal.id g =? id)%string)
       (or_else (seen (read_ok env GOALS) (at_goals d)) []))
    env d.
Proof.
  unfold GoalStorage.delete. rewrite (bind_eq env d _ _ _ _ (GoalStorage_getAll_eq env d)).
  reflexivity.
Qed.

Lemma SessionStorage_delete_eq (env : Env) (d : Disk) (id : string) :
  SessionStorage.delete id env d =
  setItem SESSIONS
    (filter (fun s => negb (Session.id s =? id)%string)
       (or_else (seen (read_ok env SESSIONS) (at_sessions d)) []))
    env d.
Proof.
  unfold SessionStorage.delete. rewrite (bind_eq env d _ _ _ _ (SessionStorage_getAll_eq env d)).
  reflexivity.
Qed.

Lemma GoalStorage_deleteByClientId_eq (env : Env) (d : Disk) (clientId : string) :
  GoalStorage.deleteByClientId clientId env d =
  setItem GOALS
    (filter (fun g => negb (Goal.clientId g =? clientId)%string)
       (or_else (seen (read_ok env GOALS) (at_goals d)) []))
    env d.
Proof.
  unfold GoalStorage.deleteByClientId.
  rewrite (bind_eq env d _ _ _ _ (GoalStorage_getAll_eq env d)). reflexivity.
Qed.

Lemma SessionStorage_deleteByClientId_eq (env : Env) (d : Disk) (clientId : string) :
  SessionStorage.deleteByClientId clientId env d =
  setItem SESSIONS
    (filter (fun s => negb (Session.clientId s =? clientId)%string)
       (or_else (seen (read_ok env SESSIONS) (at_sessions d)) []))
    env d.
Proof.
  unfold SessionStorage.deleteByClientId.
  rewrite (bind_eq env d _ _ _ _ (SessionStorage_getAll_eq env d)). reflexivity.
Qed.

(** The medium after the two cascades of [ClientStorage.delete]. *)
Lemma ClientStorage_delete_eq (env : Env) (d : Disk) (id : string) :
  ClientStorage.delete id env d =
  let d1 := snd (GoalStorage.deleteByClientId id env d) in
  let d2 := snd (SessionStorage.deleteByClientId id env d1) in
  setItem CLIENTS
    (filter (fun c => negb (Client.id c =? id)%string)
       (or_else (seen (read_ok env CLIENTS) (at_clients d)) []))
    env d2.
Proof.
  unfold ClientStorage.delete.
  rewrite (bind_eq env d _ _ _ _ (ClientStorage_getAll_eq env d)).
  cbv zeta. unfold bind at 1.
  rewrite GoalStorage_deleteByClientId_eq, setItem_eq.
  destruct (write_ok env GOALS); cbn [snd]; unfold bind at 1;
    rewrite SessionStorage_deleteByClientId_eq, setItem_eq;
    destruct (write_ok env SESSIONS); reflexivity.
Qed.

End StoreEquations.

(* ================================================================== *)
(** * The record store: deletion, failures, saving                     *)
(* ================================================================== *)

Lemma seen_reads {T} (env : Env) (k : Key) (slot : option (text T)) :
  reads env -> seen (read_ok env k) slot = stored slot.
Proof. intro R. rewrite R. reflexivity. Qed.

Lemma filter_In_neq {A} (p : A -> bool) (l : list A) (x : A) :
  In x (filter (fun y => negb (p y)) l) <-> In x l /\ p x = false.
Proof. rewrite filter_In, negb_true_iff. reflexivity. Qed.

(** C3 (as the specification states it, for every medium).  When
    the medium refuses the write of the sessions, [ClientStorage.delete]
    of client c1 completes with [true] and the session of c1 is still
    stored.  When the medium fails to read the clients, deleting c1
    completes with [true] and the other client, c2, is gone as well. *)
Lemma C3_cascade_depends_on_the_medium :
  (exists d',
     ClientStorage.delete "c1" (sessions_write_fails "2024-02-01T00:00:00.000Z")
       sample_disk = (Return true, d') /\
     In sample_session (sessionsOf d') /\
     Session.clientId sample_session = "c1") /\
  (exists d',
     ClientStorage.delete "c1" (clients_read_fails "2024-02-01T00:00:00.000Z")
       two_clients_disk = (Return true, d') /\
     In other_client (clientsOf two_clients_disk) /\
     Client.id other_client <> "c1" /\
     clientsOf d' = []).
Proof.
  split.
  - eexists. split; [vm_compute; reflexivity|].
    split; [left; reflexivity | reflexivity].
  - eexists. split; [vm_compute; reflexivity|].
    split; [right; left; reflexivity|]. split; [discriminate | reflexivity].
Qed.

(** C3 (amended).  On a medium that performs its reads and writes, for every
    contents of the store and every id X, [ClientStorage.delete X]
    completes with [true] and leaves: the clients without the client of
    id X, the goals without those of clientId X, the sessions without
    those of clientId X.  All other records stay, in their order (the
    three collections are the former ones filtered), and the settings
    are untouched. *)
Theorem C3_delete_client_cascades (env : Env) (d : Disk) (X : string) :
  reads env -> writes env ->
  exists d',
    ClientStorage.delete X env d = (Return true, d') /\
    clientsOf d' = filter (fun c => negb (Client.id c =? X)%string) (clientsOf d) /\
    goalsOf d' = filter (fun g => negb (Goal.clientId g =? X)%string) (goalsOf d) /\
    sessionsOf d' =
      filter (fun s => negb (Session.clientId s =? X)%string) (sessionsOf d) /\
    settingsOf d' = settingsOf d /\
    (forall c, In c (clientsOf d') -> Client.id c <> X) /\
    (forall g, In g (goalsOf d') -> Goal.clientId g <> X) /\
    (forall s, In s (sessionsOf d') -> Session.clientId s <> X) /\
    (forall c, In c (clientsOf d) -> Client.id c <> X -> In c (clientsOf d')) /\
    (forall g, In g (goalsOf d) -> Goal.clientId g <> X -> In g (goalsOf d')) /\
    (forall s, In s (sessionsOf d) -> Session.clientId s <> X ->
               In s (sessionsOf d')).
Proof.
  intros R W. rewrite ClientStorage_delete_eq. cbv zeta.
  rewrite GoalStorage_deleteByClientId_eq, (setItem_eq env d GOALS), (W GOALS).
  cbn [snd].
  rewrite SessionStorage_deleteByClientId_eq, (setItem_eq env _ SESSIONS), (W SESSIONS).
  cbn [snd].
  rewrite setItem_eq, (W CLIENTS). rewrite !seen_reads by exact R.
  eexists. split; [reflexivity|].
  assert (Ec : forall v, clientsOf (write (write (write d GOALS
              (Json (filter (fun g => negb (Goal.clientId g =? X)%string)
                 (or_else (stored (at_goals d)) [])))) SESSIONS
              (Json (filter (fun s => negb (Session.clientId s =? X)%string)
                 (or_else (stored (at_sessions d)) [])))) CLIENTS (Json v)) = v)
    by reflexivity.
  split; [reflexivity|]. split; [reflexivity|]. split; [reflexivity|].
  split; [reflexivity|].
  unfold clientsOf, goalsOf, sessionsOf.
  cbn [write at_clients at_goals at_sessions stored or_else].
  repeat split.
  - intros c Hc. apply filter_In_neq in Hc. apply String.eqb_neq, Hc.
  - intros g Hg. apply filter_In_neq in Hg. apply String.eqb_neq, Hg.
  - intros s Hs. apply filter_In_neq in Hs. apply String.eqb_neq, Hs.
  - intros c Hc Hn. apply filter_In_neq. split; [exact Hc | apply String.eqb_neq, Hn].
  - intros g Hg Hn. apply filter_In_neq. split; [exact Hg | apply String.eqb_neq, Hn].
  - intros s Hs Hn. apply filter_In_neq. split; [exact Hs | apply String.eqb_neq, Hn].
Qed.

Lemma C3_delete_client_cascades_witness :
  exists d',
    ClientStorage.delete "c1" (working "2024-02-01T00:00:00.000Z") sample_disk
    = (Return true, d') /\
    clientsOf d' = [] /\ goalsOf d' = [] /\ sessionsOf d' = [].
Proof.
  destruct (C3_delete_client_cascades
              (working "2024-02-01T00:00:00.000Z") sample_disk "c1")
    as (d' & E & Hc & Hg & Hs & _).
  - intro k. reflexivity.
  - intro k. reflexivity.
  - exists d'. split; [exact E|]. rewrite Hc, Hg, Hs. repeat split; reflexivity.
Defined.

(** No operation of the record store throws: a failure of the medium
    or of the parser is caught where it arises. *)
Theorem save_and_delete_never_throw (env : Env) (d : Disk) :
  (forall c, exists b d', ClientStorage.save c env d = (Return b, d')) /\
  (forall g, exists b d', GoalStorage.save g env d = (Return b, d')) /\
  (forall s, exists b d', SessionStorage.save s env d = (Return b, d')) /\
  (forall id, exists b d', ClientStorage.delete id env d = (Return b, d')) /\
  (forall id, exists b d', GoalStorage.delete id env d = (Return b, d')) /\
  (forall id, exists b d', SessionStorage.delete id env d = (Return b, d')).
Proof.
  repeat split; intros x;
    rewrite ?ClientStorage_save_eq, ?GoalStorage_save_eq, ?SessionStorage_save_eq,
      ?ClientStorage_delete_eq, ?GoalStorage_delete_eq, ?SessionStorage_delete_eq;
    cbv zeta; rewrite setItem_eq;
    match goal with |- context [write_ok env ?k] => destruct (write_ok env k) end;
    eexists; eexists; reflexivity.
Qed.

(** [save], and [delete] of a goal or a session, perform one write and
    return [false] when it fails; the medium is then as it was. *)
Theorem single_write_failure_is_reported (env : Env) (d : Disk) :
  (forall c, write_ok env CLIENTS = false ->
             ClientStorage.save c env d = (Return false, d)) /\
  (forall g, write_ok env GOALS = false ->
             GoalStorage.save g env d = (Return false, d)) /\
  (forall s, write_ok env SESSIONS = false ->
             SessionStorage.save s env d = (Return false, d)) /\
  (forall id, write_ok env GOALS = false ->
              GoalStorage.delete id env d = (Return false, d)) /\
  (forall id, write_ok env SESSIONS = false ->
              SessionStorage.delete id env d = (Return false, d)) /\
  (forall id, write_ok env CLIENTS = false ->
              fst (ClientStorage.delete id env d) = Return false).
Proof.
  repeat split; intros x F;
    rewrite ?ClientStorage_save_eq, ?GoalStorage_save_eq, ?SessionStorage_save_eq,
      ?ClientStorage_delete_eq, ?GoalStorage_delete_eq, ?SessionStorage_delete_eq;
    cbv zeta; rewrite setItem_eq, F; reflexivity.
Qed.

(** [ClientStorage.delete] returns what the write of the clients
    returns, whatever became of the two cascades. *)
Theorem ClientStorage_delete_flag (env : Env) (d : Disk) (id : string) :
  fst (ClientStorage.delete id env d) = Return (write_ok env CLIENTS).
Proof.
  rewrite ClientStorage_delete_eq. cbv zeta. rewrite setItem_eq.
  destruct (write_ok env CLIENTS); reflexivity.
Qed.

(** C4 (the cascade of [ClientStorage.delete]).  The specification
    asks that [ClientStorage.delete] return [false] when any of its
    three writes fails.  On a medium that refuses the write of the
    goals, deleting client c1 returns [true]: the client and its
    session are gone, its goal is still stored.  (That [save] and
    [delete] never throw, and that each returns [false] when its own
    write fails, holds: [save_and_delete_never_throw],
    [single_write_failure_is_reported].) *)
Theorem C4_delete_hides_cascade_failure :
  write_ok (goals_write_fails "2024-02-01T00:00:00.000Z") GOALS = false /\
  exists d',
    ClientStorage.delete "c1" (goals_write_fails "2024-02-01T00:00:00.000Z")
      sample_disk = (Return true, d') /\
    clientsOf d' = [] /\ sessionsOf d' = [] /\
    goalsOf d' = [sample_goal active].
Proof.
  split; [reflexivity|].
  eexists. split; [vm_compute; reflexivity|].
  split; [reflexivity|]. split; reflexivity.
Qed.

(** On first run nothing is stored: the collections read as empty and
    the settings as the defaults. *)
Example first_run (env : Env) :
  ClientStorage.getAll env (mkDisk None None None None)
    = (Return [], mkDisk None None None None) /\
  SettingsStorage.get env (mkDisk None None None None)
    = (Return DEFAULT_SETTINGS, mkDisk None None None None).
Proof.
  rewrite ClientStorage_getAll_eq, SettingsStorage_get_eq.
  destruct (read_ok env CLIENTS), (read_ok env SETTINGS); split; reflexivity.
Qed.

(** Bytes that are not valid JSON read as an empty collection. *)
Example malformed_reads_as_empty (env : Env) :
  fst (GoalStorage.getAll env (mkDisk None (Some Malformed) None None))
  = Return [].
Proof.
  rewrite GoalStorage_getAll_eq. destruct (read_ok env GOALS); reflexivity.
Qed.

(** Of two goals of a client, one active and one discontinued,
    [getActiveByClientId] returns exactly the active one. *)
Example getActiveByClientId_two_goals :
  fst (GoalStorage.getActiveByClientId "c1"
         (working "2024-02-01T00:00:00.000Z")
         (mkDisk None
            (Some (Json [sample_goal discontinued; sample_goal active]))
            None None))
  = Return [sample_goal active].
Proof. reflexivity. Qed.

Lemma saves_by_id_intro {A} (id : A -> string) (stamp : Env -> A -> A)
    (stored_as : Env -> A -> A -> Prop)
    (view : Disk -> list A) (save : A -> M bool) :
  (forall env e, id (stamp env e) = id e) ->
  (forall env e, stored_as env e (stamp env e)) ->
  (forall env d e, reads env -> writes env ->
     exists d', save e env d = (Return true, d') /\
                view d' = upsert id (stamp env) e (view d)) ->
  saves_by_id id stored_as view save.
Proof.
  intros Hid Hst Hsave env env' d e R W R' W' ND.
  destruct (Hsave env d e R W) as (d1 & E1 & V1).
  destruct (Hsave env' d1 e R' W') as (d2 & E2 & V2).
  exists d1, d2.
  assert (ND1 : NoDup (map id (view d1))).
  { rewrite V1. apply upsert_NoDup; [apply Hid | exact ND]. }
  assert (In1 : In (id e) (map id (view d1))).
  { rewrite V1. apply upsert_In. apply Hid. }
  split; [exact E1|]. split; [exact E2|]. split; [exact ND1|].
  split.
  { rewrite V1.
    destruct (upsert_cases id (stamp env) e (view d))
      as [[N U] | (l1 & x & l2 & El & Hx & _ & U)].
    - left. split; assumption.
    - right. exists l1, x, l2, (stamp env e).
      split; [exact El|]. split; [exact Hx|]. split; [exact U | apply Hst]. }
  split; [rewrite V1; apply upsert_count; [apply Hid | exact ND]|].
  split; [rewrite V2; apply upsert_NoDup; [apply Hid | exact ND1]|].
  split; [|rewrite V2; apply upsert_count; [apply Hid | exact ND1]].
  rewrite V2.
  destruct (upsert_existing id (stamp env') e (view d1) In1)
    as (l1 & x & l2 & -> & _ & _ & ->).
  unfold len. rewrite !length_app. reflexivity.
Qed.

(** C7 (as the specification states it, for every medium).  On a
    medium that refuses the writes, the sample store (ids pairwise
    distinct) is asked twice to save a client of a new id: both saves
    return [false], and no record with that id is stored, where the
    specification has exactly one. *)
Lemma C7_refused_writes_store_nothing :
  NoDup (map Client.id (clientsOf sample_disk)) /\
  exists d1 d2,
    ClientStorage.save other_client (no_write "2024-02-01T00:00:00.000Z")
      sample_disk = (Return false, d1) /\
    ClientStorage.save other_client (no_write "2024-02-02T00:00:00.000Z")
      d1 = (Return false, d2) /\
    count_id Client.id (Client.id other_client) (clientsOf d2) = 0.
Proof.
  split; [cbn; constructor; [intros [] | constructor]|].
  eexists. eexists. split; [vm_compute; reflexivity|].
  split; [vm_compute; reflexivity | reflexivity].
Qed.

(** C7 (amended).  For each of the three collections, on a state
    whose ids are pairwise distinct and a medium that performs its
    reads and writes, [save e] succeeds and keeps the ids distinct.  If
    a record with the id of [e] exists it is replaced where it stands:
    for a client or a goal by a record that has every field of [e]
    except [updatedAt], which holds the time of the save; for a
    session by [e] itself.  Otherwise [e] is appended.  Saving the
    same entity twice leaves exactly one record with that id. *)
Theorem C7_save_idempotent_on_id :
  saves_by_id Client.id (fun env => client_stored_at (now env))
    clientsOf ClientStorage.save /\
  saves_by_id Goal.id (fun env => goal_stored_at (now env))
    goalsOf GoalStorage.save /\
  saves_by_id Session.id (fun _ e x => x = e) sessionsOf SessionStorage.save.
Proof.
  split; [|split].
  - apply (saves_by_id_intro Client.id (fun env => Client.with_updatedAt (now env)));
      [reflexivity | intros env e; repeat split |].
    intros env d e R W.
    rewrite ClientStorage_save_eq, setItem_eq, (W CLIENTS), seen_reads by exact R.
    eexists. split; reflexivity.
  - apply (saves_by_id_intro Goal.id (fun env => Goal.with_updatedAt (now env)));
      [reflexivity | intros env e; repeat split |].
    intros env d e R W.
    rewrite GoalStorage_save_eq, setItem_eq, (W GOALS), seen_reads by exact R.
    eexists. split; reflexivity.
  - apply (saves_by_id_intro Session.id (fun _ e => e));
      [reflexivity | reflexivity |].
    intros env d e R W.
    rewrite SessionStorage_save_eq, setItem_eq, (W SESSIONS), seen_reads by exact R.
    eexists. split; reflexivity.
Qed.

Lemma C7_save_idempotent_on_id_witness :
  exists d1 d2 x',
    GoalStorage.save (sample_goal achieved)
      (working "2024-02-01T00:00:00.000Z") sample_disk = (Return true, d1) /\
    GoalStorage.save (sample_goal achieved)
      (working "2024-02-02T00:00:00.000Z") d1 = (Return true, d2) /\
    goalsOf d1 = [x'] /\
    Goal.status x' = achieved /\
    Goal.updatedAt x' = "2024-02-01T00:00:00.000Z" /\
    count_id Goal.id "g1" (goalsOf d2) = 1.
Proof.
  destruct (proj1 (proj2 C7_save_idempotent_on_id)
              (working "2024-02-01T00:00:00.000Z")
              (working "2024-02-02T00:00:00.000Z")
              sample_disk (sample_goal achieved))
    as (d1 & d2 & E1 & E2 & _ & [[N _] | (l1 & x & l2 & x' & El & _ & V & S)]
        & _ & _ & _ & C).
  - intro k; reflexivity.
  - intro k; reflexivity.
  - intro k; reflexivity.
  - intro k; reflexivity.
  - cbn. constructor; [intros [] | constructor].
  - exfalso. apply N. left. reflexivity.
  - exists d1, d2, x'. split; [exact E1|]. split; [exact E2|].
    destruct l1 as [| y l1]; [|destruct l1; discriminate El].
    injection El as _ <-.
    destruct S as (_ & _ & _ & _ & _ & _ & _ & St & _ & _ & Up).
    split; [exact V|]. split; [exact St|]. split; [exact Up | exact C].
Defined.

(* ================================================================== *)
(** * Backups                                                          *)
(* ================================================================== *)

Lemma import_key_eq (env : Env) (d : Disk) (k : Key)
    (sel : Backup -> field (docT k)) (b : Backup) :
  import_key k sel (JObject b) env d = (Return tt, import_slot env k (sel b) d).
Proof.
  unfold import_key, prop, bind, ret, import_slot.
  destruct (sel b) as [| | v]; try reflexivity.
  rewrite setItem_eq. destruct (write_ok env k); reflexivity.
Qed.

Lemma import_key_other (env : Env) (d : Disk) (k : Key)
    (sel : Backup -> field (docT k)) :
  import_key k sel JOther env d = (Return tt, d).
Proof. reflexivity. Qed.

Lemma import_slot_read (env : Env) (d : Disk) (k : Key) (f : field (docT k)) :
  read (import_slot env k f d) k = imported (write_ok env k) f (read d k).
Proof.
  unfold import_slot, imported. destruct f as [| | v]; try reflexivity.
  destruct (write_ok env k); [|reflexivity]. destruct k; reflexivity.
Qed.

Lemma import_slot_read_other (env : Env) (d : Disk) (k k' : Key)
    (f : field (docT k)) :
  k <> k' -> read (import_slot env k f d) k' = read d k'.
Proof.
  intro N. unfold import_slot. destruct f as [| | v]; try reflexivity.
  destruct (write_ok env k); [|reflexivity].
  destruct k, k'; try reflexivity; contradiction.
Qed.

(** What [importData] does, for every document and every medium. *)
Lemma importData_eq (doc : text json) (env : Env) (d : Disk) :
  importData doc env d =
  match doc with
  | Malformed | Json JNull => (Return false, d)
  | Json JOther => (Return true, d)
  | Json (JObject b) =>
      (Return true,
       import_slot env SETTINGS (settings b)
         (import_slot env SESSIONS (sessions b)
            (import_slot env GOALS (goals b)
               (import_slot env CLIENTS (clients b) d))))
  end.
Proof.
  destruct doc as [| [| | b]]; try reflexivity.
  unfold importData, try_catch.
  unfold bind at 1. cbn [JSON.parse ret].
  unfold bind at 1. rewrite import_key_eq.
  unfold bind at 1. rewrite import_key_eq.
  unfold bind at 1. rewrite import_key_eq.
  unfold bind at 1. rewrite import_key_eq.
  reflexivity.
Qed.

Lemma exportAllData_eq (env : Env) (d : Disk) :
  exportAllData env d =
  (Return (Json (JObject
     (mkBackup (Truthy (now env))
        (Truthy (or_else (seen (read_ok env CLIENTS) (at_clients d)) []))
        (Truthy (or_else (seen (read_ok env GOALS) (at_goals d)) []))
        (Truthy (or_else (seen (read_ok env SESSIONS) (at_sessions d)) []))
        (Truthy (or_else (seen (read_ok env SETTINGS) (at_settings d))
                   DEFAULT_SETTINGS))))), d).
Proof.
  unfold exportAllData.
  rewrite (bind_eq env d _ _ _ _ (ClientStorage_getAll_eq env d)).
  rewrite (bind_eq env d _ _ _ _ (GoalStorage_getAll_eq env d)).
  rewrite (bind_eq env d _ _ _ _ (SessionStorage_getAll_eq env d)).
  rewrite (bind_eq env d _ _ _ _ (SettingsStorage_get_eq env d)).
  reflexivity.
Qed.

(** C5 (as the specification states it, for every medium).  The
    export is taken while the medium fails to read the clients: it
    succeeds with a document whose clients are empty.  Importing that
    document into the same store, on a medium that works, returns
    [true] and leaves no client stored, where one was stored before
    the export. *)
Lemma C5_unread_clients_are_lost :
  clientsOf sample_disk = [sample_client] /\
  exists doc d',
    exportAllData (clients_read_fails "2024-02-01T00:00:00.000Z") sample_disk
      = (Return doc, sample_disk) /\
    importData doc (working "2024-02-01T00:00:01.000Z") sample_disk
      = (Return true, d') /\
    clientsOf d' = [].
Proof.
  split; [reflexivity|].
  eexists. eexists. split; [vm_compute; reflexivity|].
  split; [vm_compute; reflexivity | reflexivity].
Qed.

(** C5 (amended).  For every state of the store, on a medium that
    performs the reads, [exportAllData] returns a document and leaves
    the store as it was.  Running [importData] on that document over
    the same store -- on any medium -- returns [true] and leaves the
    four collections equal, record for record, to what they were
    before the export.  Running it over any other store, on a medium
    that performs the writes, returns [true] and leaves in that store
    the four collections of the exported one. *)
Theorem C5_import_of_export_is_identity (env : Env) (d : Disk) :
  reads env ->
  exists doc,
    exportAllData env d = (Return doc, d) /\
    (forall env',
       exists d',
         importData doc env' d = (Return true, d') /\
         clientsOf d' = clientsOf d /\
         goalsOf d' = goalsOf d /\
         sessionsOf d' = sessionsOf d /\
         settingsOf d' = settingsOf d) /\
    (forall env' d0,
       writes env' ->
       exists d',
         importData doc env' d0 = (Return true, d') /\
         clientsOf d' = clientsOf d /\
         goalsOf d' = goalsOf d /\
         sessionsOf d' = sessionsOf d /\
         settingsOf d' = settingsOf d).
Proof.
  intro R. rewrite exportAllData_eq. rewrite !seen_reads by exact R.
  eexists. split; [reflexivity|]. split.
  - intro env'. rewrite importData_eq. eexists. split; [reflexivity|].
    unfold import_slot, clientsOf, goalsOf, sessionsOf, settingsOf, write.
    cbn [clients goals sessions settings].
    destruct (write_ok env' CLIENTS), (write_ok env' GOALS),
      (write_ok env' SESSIONS), (write_ok env' SETTINGS);
      cbn [at_clients at_goals at_sessions at_settings stored or_else];
      repeat split; reflexivity.
  - intros env' d0 W. rewrite importData_eq. eexists. split; [reflexivity|].
    unfold import_slot. cbn [clients goals sessions settings]. rewrite !W.
    repeat split; reflexivity.
Qed.

Lemma C5_import_of_export_is_identity_witness :
  exists doc d',
    exportAllData (working "2024-03-01T00:00:00.000Z") sample_disk
    = (Return doc, sample_disk) /\
    importData doc (working "2024-03-02T00:00:00.000Z")
      (mkDisk None None None None)
    = (Return true, d') /\
    clientsOf d' = [sample_client] /\ goalsOf d' = [sample_goal active] /\
    sessionsOf d' = [sample_session] /\ settingsOf d' = DEFAULT_SETTINGS.
Proof.
  destruct (C5_import_of_export_is_identity
              (working "2024-03-01T00:00:00.000Z") sample_disk)
    as (doc & E & _ & H).
  - intro k; reflexivity.
  - destruct (H (working "2024-03-02T00:00:00.000Z") (mkDisk None None None None))
      as (d' & I & Hc & Hg & Hs & Ht).
    + intro k; reflexivity.
    + exists doc, d'. rewrite Hc, Hg, Hs, Ht. repeat split; assumption.
Defined.

(** C6 (as the specification states it).  The document [null] is
    parseable JSON, and [importData] returns [false] on it; and a
    document in which the key [clients] is present with the value
    [null] does not overwrite the clients. *)
Lemma C6_null_is_parseable_and_refused :
  parseable (Json JNull) = true /\
  importData (Json JNull) (working "2024-03-02T00:00:00.000Z") sample_disk
  = (Return false, sample_disk) /\
  exists d',
    importData (Json (JObject backup_null_clients))
      (working "2024-03-02T00:00:00.000Z") sample_disk = (Return true, d') /\
    clientsOf d' = [sample_client].
Proof.
  split; [reflexivity|]. split; [reflexivity|].
  eexists. split; reflexivity.
Qed.

(** C6 (amended).  [importData] never throws.  It returns [false] if
    and only if the document is not parseable JSON or parses to
    [null], and then leaves the store as it was; otherwise it returns
    [true].  When the document parses to an object, each of the four
    keys whose value in the document is truthy has its collection
    overwritten wholesale with that value, provided the medium accepts
    the write (a refused write is passed over in silence); each key
    that is absent, or present with a falsy value such as [null],
    leaves its collection untouched.  A parsed value that carries none
    of the keys changes nothing. *)
Theorem C6_import_overwrites_truthy_keys (doc : text json) (env : Env) (d : Disk) :
  exists b d',
    importData doc env d = (Return b, d') /\
    (b = false <-> doc = Malformed \/ doc = Json JNull) /\
    (b = false -> d' = d) /\
    (doc = Json JOther -> d' = d) /\
    (forall bk, doc = Json (JObject bk) ->
       at_clients d' = imported (write_ok env CLIENTS) (clients bk) (at_clients d) /\
       at_goals d' = imported (write_ok env GOALS) (goals bk) (at_goals d) /\
       at_sessions d' =
         imported (write_ok env SESSIONS) (sessions bk) (at_sessions d) /\
       at_settings d' =
         imported (write_ok env SETTINGS) (settings bk) (at_settings d)).
Proof.
  rewrite importData_eq. destruct doc as [| [| | bk]].
  - exists false, d. split; [reflexivity|].
    split; [split; [intros _; left; reflexivity | reflexivity]|].
    split; [reflexivity|]. split; [discriminate|]. discriminate.
  - exists false, d. split; [reflexivity|].
    split; [split; [intros _; right; reflexivity | reflexivity]|].
    split; [reflexivity|]. split; [discriminate|]. discriminate.
  - exists true, d. split; [reflexivity|].
    split; [split; [discriminate | intros [H | H]; discriminate H]|].
    split; [discriminate|]. split; [reflexivity|]. discriminate.
  - eexists. eexists. split; [reflexivity|].
    split; [split; [discriminate | intros [H | H]; discriminate H]|].
    split; [discriminate|]. split; [discriminate|].
    intros bk' E. injection E as <-.
    set (d1 := import_slot env CLIENTS (clients bk) d).
    set (d2 := import_slot env GOALS (goals bk) d1).
    set (d3 := import_slot env SESSIONS (sessions bk) d2).
    repeat split.
    + change (read (import_slot env SETTINGS (settings bk) d3) CLIENTS
              = imported (write_ok env CLIENTS) (clients bk) (read d CLIENTS)).
      rewrite import_slot_read_other by discriminate. subst d3.
      rewrite import_slot_read_other by discriminate. subst d2.
      rewrite import_slot_read_other by discriminate. subst d1.
      apply import_slot_read.
    + change (read (import_slot env SETTINGS (settings bk) d3) GOALS
              = imported (write_ok env GOALS) (goals bk) (read d GOALS)).
      rewrite import_slot_read_other by discriminate. subst d3.
      rewrite import_slot_read_other by discriminate. subst d2.
      rewrite import_slot_read. subst d1.
      rewrite import_slot_read_other by discriminate. reflexivity.
    + change (read (import_slot env SETTINGS (settings bk) d3) SESSIONS
              = imported (write_ok env SESSIONS) (sessions bk) (read d SESSIONS)).
      rewrite import_slot_read_other by discriminate. subst d3.
      rewrite import_slot_read. subst d2.
      rewrite import_slot_read_other by discriminate. subst d1.
      rewrite import_slot_read_other by discriminate. reflexivity.
    + change (read (import_slot env SETTINGS (settings bk) d3) SETTINGS
              = imported (write_ok env SETTINGS) (settings bk) (read d SETTINGS)).
      rewrite import_slot_read. subst d3.
      rewrite import_slot_read_other by discriminate. subst d2.
      rewrite import_slot_read_other by discriminate. subst d1.
      rewrite import_slot_read_other by discriminate. reflexivity.
Qed.

Lemma C6_import_overwrites_truthy_keys_witness :
  exists d',
    importData (Json (JObject backup_without_goals))
      (working "2024-03-02T00:00:00.000Z") sample_disk = (Return true, d') /\
    at_goals d' = at_goals sample_disk /\
    at_clients d' = Some (Json [other_client]) /\
    at_sessions d' = Some (Json []) /\
    at_settings d' = Some (Json DEFAULT_SETTINGS).
Proof.
  destruct (C6_import_overwrites_truthy_keys
              (Json (JObject backup_without_goals))
              (working "2024-03-02T00:00:00.000Z") sample_disk)
    as (b & d' & E & Hb & _ & _ & Hk).
  destruct (Hk backup_without_goals eq_refl) as (Hc & Hg & Hs & Ht).
  exists d'. destruct b.
  - split; [exact E|]. rewrite Hc, Hg, Hs, Ht. repeat split; reflexivity.
  - exfalso. destruct (proj1 Hb eq_refl) as [H | H]; discriminate H.
Defined.


(* ================================================================== *)
(** * The state facade                                                 *)
(* ================================================================== *)

(** The two outcomes of a mutation: the flag of its write decides. *)
Ltac by_flag flag :=
  destruct flag; eexists; eexists;
  (split; [reflexivity|]); (split; [|intro; try reflexivity; discriminate]).

Section Facade.

Variables (env : Env) (d : Disk) (ctx : AppContext.t).
Hypothesis R : reads env.
Hypothesis Mir : mirrors ctx d.

Lemma mirror_clients : AppContext.clients ctx = clientsOf d.
Proof. exact (proj1 Mir). Qed.

Lemma mirror_goals : AppContext.goals ctx = goalsOf d.
Proof. exact (proj1 (proj2 Mir)). Qed.

Lemma mirror_sessions : AppContext.sessions ctx = sessionsOf d.
Proof. exact (proj1 (proj2 (proj2 Mir))). Qed.

Lemma mirror_settings : AppContext.settings ctx = settingsOf d.
Proof. exact (proj2 (proj2 (proj2 Mir))). Qed.

Lemma addClient_mirror (c : Client.t) :
  ~ In (Client.id c) (map Client.id (AppContext.clients ctx)) ->
  keeps_mirror (AppContext.addClient c) CLIENTS env d ctx mirrors.
Proof.
  intro F. pose proof mirror_clients as Hc; pose proof mirror_goals as Hg;
  pose proof mirror_sessions as Hs; pose proof mirror_settings as Ht.
  unfold keeps_mirror, AppContext.addClient, bind.
  rewrite ClientStorage_save_eq, setItem_eq, seen_reads by exact R.
  by_flag (write_ok env CLIENTS).
  - intros _. unfold mirrors. cbn. repeat split; try assumption.
    fold (clientsOf d). rewrite upsert_fresh by (rewrite <- mirror_clients; exact F).
    unfold push. rewrite mirror_clients. reflexivity.
  - discriminate.
Qed.

Lemma addGoal_mirror (g : Goal.t) :
  ~ In (Goal.id g) (map Goal.id (AppContext.goals ctx)) ->
  keeps_mirror (AppContext.addGoal g) GOALS env d ctx mirrors.
Proof.
  intro F. pose proof mirror_clients as Hc; pose proof mirror_goals as Hg;
  pose proof mirror_sessions as Hs; pose proof mirror_settings as Ht.
  unfold keeps_mirror, AppContext.addGoal, bind.
  rewrite GoalStorage_save_eq, setItem_eq, seen_reads by exact R.
  by_flag (write_ok env GOALS).
  - intros _. unfold mirrors. cbn. repeat split; try assumption.
    fold (goalsOf d). rewrite upsert_fresh by (rewrite <- mirror_goals; exact F).
    unfold push. rewrite mirror_goals. reflexivity.
  - discriminate.
Qed.

Lemma addSession_mirror (s : Session.t) :
  ~ In (Session.id s) (map Session.id (AppContext.sessions ctx)) ->
  keeps_mirror (AppContext.addSession s) SESSIONS env d ctx mirrors.
Proof.
  intro F. pose proof mirror_clients as Hc; pose proof mirror_goals as Hg;
  pose proof mirror_sessions as Hs; pose proof mirror_settings as Ht.
  unfold keeps_mirror, AppContext.addSession, bind.
  rewrite SessionStorage_save_eq, setItem_eq, seen_reads by exact R.
  by_flag (write_ok env SESSIONS).
  - intros _. unfold mirrors. cbn. repeat split; try assumption.
    fold (sessionsOf d). rewrite upsert_fresh by (rewrite <- mirror_sessions; exact F).
    unfold push. rewrite mirror_sessions. reflexivity.
  - discriminate.
Qed.

Lemma updateSession_mirror (s : Session.t) :
  NoDup (map Session.id (AppContext.sessions ctx)) ->
  In (Session.id s) (map Session.id (AppContext.sessions ctx)) ->
  keeps_mirror (AppContext.updateSession s) SESSIONS env d ctx mirrors.
Proof.
  intros ND I. pose proof mirror_clients as Hc; pose proof mirror_goals as Hg;
  pose proof mirror_sessions as Hs; pose proof mirror_settings as Ht.
  unfold keeps_mirror, AppContext.updateSession, bind.
  rewrite SessionStorage_save_eq, setItem_eq, seen_reads by exact R.
  by_flag (write_ok env SESSIONS).
  - intros _. unfold mirrors. cbn. repeat split; try assumption.
    fold (sessionsOf d). rewrite mirror_sessions in *.
    destruct (map_replace_existing Session.id (fun x => x) s s (sessionsOf d) ND I)
      as (l1 & x & l2 & _ & _ & _ & _ & -> & ->). reflexivity.
  - discriminate.
Qed.

Lemma restamp_split (k stamp : string) (c : Client.t) (l1 l2 : list Client.t) :
  Client.id c = k ->
  ~ In k (map Client.id l1) -> ~ In k (map Client.id l2) ->
  restamp_client k stamp (l1 ++ c :: l2) = l1 ++ Client.with_updatedAt stamp c :: l2.
Proof.
  intros E N1 N2. unfold restamp_client.
  assert (K : forall r, ~ In k (map Client.id r) ->
     map (fun c => if (Client.id c =? k)%string
                   then Client.with_updatedAt stamp c else c) r = r).
  { induction r as [| y r IH]; cbn [map]; [reflexivity|]. intro Hn.
    destruct (String.eqb_spec (Client.id y) k) as [E' | E'].
    - exfalso. apply Hn. left. exact E'.
    - rewrite IH; [reflexivity|]. intro Hin. apply Hn. right. exact Hin. }
  rewrite map_app. cbn [map]. rewrite E, String.eqb_refl, !K by assumption.
  reflexivity.
Qed.

Lemma restamp_goal_split (k stamp : string) (g : Goal.t) (l1 l2 : list Goal.t) :
  Goal.id g = k ->
  ~ In k (map Goal.id l1) -> ~ In k (map Goal.id l2) ->
  restamp_goal k stamp (l1 ++ g :: l2) = l1 ++ Goal.with_updatedAt stamp g :: l2.
Proof.
  intros E N1 N2. unfold restamp_goal.
  assert (K : forall r, ~ In k (map Goal.id r) ->
     map (fun c => if (Goal.id c =? k)%string
                   then Goal.with_updatedAt stamp c else c) r = r).
  { induction r as [| y r IH]; cbn [map]; [reflexivity|]. intro Hn.
    destruct (String.eqb_spec (Goal.id y) k) as [E' | E'].
    - exfalso. apply Hn. left. exact E'.
    - rewrite IH; [reflexivity|]. intro Hin. apply Hn. right. exact Hin. }
  rewrite map_app. cbn [map]. rewrite E, String.eqb_refl, !K by assumption.
  reflexivity.
Qed.

Lemma updateClient_mirror (c : Client.t) :
  NoDup (map Client.id (AppContext.clients ctx)) ->
  In (Client.id c) (map Client.id (AppContext.clients ctx)) ->
  keeps_mirror (AppContext.updateClient c) CLIENTS env d ctx
    (fun ctx' d' =>
       mirrors
         (AppContext.setClients (restamp_client (Client.id c) (now env)) ctx') d').
Proof.
  intros ND I. pose proof mirror_clients as Hc; pose proof mirror_goals as Hg;
  pose proof mirror_sessions as Hs; pose proof mirror_settings as Ht.
  unfold keeps_mirror, AppContext.updateClient, bind.
  rewrite ClientStorage_save_eq, setItem_eq, seen_reads by exact R.
  by_flag (write_ok env CLIENTS).
  - intros _. unfold mirrors. cbn. repeat split; try assumption.
    fold (clientsOf d). rewrite mirror_clients in *.
    destruct (map_replace_existing Client.id (Client.with_updatedAt (now env))
                c c (clientsOf d) ND I) as (l1 & x & l2 & _ & _ & N1 & N2 & -> & ->).
    apply (restamp_split (Client.id c) (now env) c l1 l2); auto.
  - discriminate.
Qed.

Lemma updateGoal_mirror (g : Goal.t) :
  NoDup (map Goal.id (AppContext.goals ctx)) ->
  In (Goal.id g) (map Goal.id (AppContext.goals ctx)) ->
  keeps_mirror (AppContext.updateGoal g) GOALS env d ctx
    (fun ctx' d' =>
       mirrors
         (AppContext.setGoals (restamp_goal (Goal.id g) (now env)) ctx') d').
Proof.
  intros ND I. pose proof mirror_clients as Hc; pose proof mirror_goals as Hg;
  pose proof mirror_sessions as Hs; pose proof mirror_settings as Ht.
  unfold keeps_mirror, AppContext.updateGoal, bind.
  rewrite GoalStorage_save_eq, setItem_eq, seen_reads by exact R.
  by_flag (write_ok env GOALS).
  - intros _. unfold mirrors. cbn. repeat split; try assumption.
    fold (goalsOf d). rewrite mirror_goals in *.
    destruct (map_replace_existing Goal.id (Goal.with_updatedAt (now env))
                g g (goalsOf d) ND I) as (l1 & x & l2 & _ & _ & N1 & N2 & -> & ->).
    apply (restamp_goal_split (Goal.id g) (now env) g l1 l2); auto.
  - discriminate.
Qed.

Lemma deleteGoal_mirror (id : string) :
  keeps_mirror (AppContext.deleteGoal id) GOALS env d ctx mirrors.
Proof.
  pose proof mirror_clients as Hc; pose proof mirror_goals as Hg;
  pose proof mirror_sessions as Hs; pose proof mirror_settings as Ht.
  unfold keeps_mirror, AppContext.deleteGoal, bind.
  rewrite GoalStorage_delete_eq, setItem_eq, seen_reads by exact R.
  by_flag (write_ok env GOALS).
  - intros _. unfold mirrors. cbn. repeat split; try assumption.
    fold (goalsOf d). rewrite mirror_goals. reflexivity.
  - discriminate.
Qed.

Lemma deleteSession_mirror (id : string) :
  keeps_mirror (AppContext.deleteSession id) SESSIONS env d ctx mirrors.
Proof.
  pose proof mirror_clients as Hc; pose proof mirror_goals as Hg;
  pose proof mirror_sessions as Hs; pose proof mirror_settings as Ht.
  unfold keeps_mirror, AppContext.deleteSession, bind.
  rewrite SessionStorage_delete_eq, setItem_eq, seen_reads by exact R.
  by_flag (write_ok env SESSIONS).
  - intros _. unfold mirrors. cbn. repeat split; try assumption.
    fold (sessionsOf d). rewrite mirror_sessions. reflexivity.
  - discriminate.
Qed.

Lemma deleteClient_mirror (id : string) :
  keeps_mirror (AppContext.deleteClient id) CLIENTS env d ctx
    (fun ctx' d' =>
       write_ok env GOALS = true -> write_ok env SESSIONS = true ->
       mirrors ctx' d').
Proof.
  pose proof mirror_clients as Hc; pose proof mirror_goals as Hg;
  pose proof mirror_sessions as Hs; pose proof mirror_settings as Ht.
  unfold keeps_mirror, AppContext.deleteClient, bind.
  rewrite ClientStorage_delete_eq. cbv zeta.
  rewrite GoalStorage_deleteByClientId_eq, (setItem_eq env d GOALS).
  destruct (write_ok env GOALS) eqn:Wg; cbn [snd];
    rewrite SessionStorage_deleteByClientId_eq, (setItem_eq env _ SESSIONS);
    destruct (write_ok env SESSIONS) eqn:Ws; cbn [snd];
    rewrite setItem_eq, !seen_reads by exact R;
    destruct (write_ok env CLIENTS); eexists; eexists;
    (split; [reflexivity|]); (split; [|intro; try reflexivity; discriminate]);
    try discriminate; intros _ Wg' Ws'; try discriminate.
  unfold mirrors. cbn. fold (clientsOf d) (goalsOf d) (sessionsOf d).
  rewrite mirror_clients, mirror_goals, mirror_sessions. repeat split. exact mirror_settings.
Qed.

Lemma updateSettings_mirror (s : AppSettings.t) :
  keeps_mirror (AppContext.updateSettings s) SETTINGS env d ctx mirrors.
Proof.
  pose proof mirror_clients as Hc; pose proof mirror_goals as Hg;
  pose proof mirror_sessions as Hs; pose proof mirror_settings as Ht.
  unfold keeps_mirror, AppContext.updateSettings, bind, SettingsStorage.save.
  rewrite setItem_eq.
  by_flag (write_ok env SETTINGS).
  - intros _. unfold mirrors. cbn. repeat split; assumption.
  - discriminate.
Qed.

End Facade.

(** What the mutations do keep.  Start from a facade whose mirror
    equals the store, on a medium that performs the reads.  Every mutation returns the
    flag of its store operation, and when that flag is [false] the
    mirror is left unchanged.  When it is [true]:
    - after [addClient], [addGoal], [addSession] of an entity whose id
      is not yet in its collection, the mirror equals the store;
    - after [updateSession] of a session whose id is in the collection
      (ids pairwise distinct), the mirror equals the store;
    - after [updateClient], [updateGoal] of an entity whose id is in
      the collection (ids pairwise distinct), the mirror equals the
      store in everything but the [updatedAt] of the updated record:
      the store holds the mirror's records, the updated one with
      [updatedAt] set to the time of the save;
    - after [deleteGoal], [deleteSession], [updateSettings], the
      mirror equals the store;
    - after [deleteClient], the mirror equals the store provided the
      two cascading writes were performed. *)
Theorem mutations_keep_the_mirror (env : Env) (d : Disk) (ctx : AppContext.t) :
  reads env -> mirrors ctx d ->
  (forall c, ~ In (Client.id c) (map Client.id (AppContext.clients ctx)) ->
     keeps_mirror (AppContext.addClient c) CLIENTS env d ctx mirrors) /\
  (forall g, ~ In (Goal.id g) (map Goal.id (AppContext.goals ctx)) ->
     keeps_mirror (AppContext.addGoal g) GOALS env d ctx mirrors) /\
  (forall s, ~ In (Session.id s) (map Session.id (AppContext.sessions ctx)) ->
     keeps_mirror (AppContext.addSession s) SESSIONS env d ctx mirrors) /\
  (forall s, NoDup (map Session.id (AppContext.sessions ctx)) ->
     In (Session.id s) (map Session.id (AppContext.sessions ctx)) ->
     keeps_mirror (AppContext.updateSession s) SESSIONS env d ctx mirrors) /\
  (forall c, NoDup (map Client.id (AppContext.clients ctx)) ->
     In (Client.id c) (map Client.id (AppContext.clients ctx)) ->
     keeps_mirror (AppContext.updateClient c) CLIENTS env d ctx
       (fun ctx' d' =>
          mirrors (AppContext.setClients
                     (restamp_client (Client.id c) (now env)) ctx') d')) /\
  (forall g, NoDup (map Goal.id (AppContext.goals ctx)) ->
     In (Goal.id g) (map Goal.id (AppContext.goals ctx)) ->
     keeps_mirror (AppContext.updateGoal g) GOALS env d ctx
       (fun ctx' d' =>
          mirrors (AppContext.setGoals
                     (restamp_goal (Goal.id g) (now env)) ctx') d')) /\
  (forall id, keeps_mirror (AppContext.deleteGoal id) GOALS env d ctx mirrors) /\
  (forall id, keeps_mirror (AppContext.deleteSession id) SESSIONS env d ctx mirrors) /\
  (forall s, keeps_mirror (AppContext.updateSettings s) SETTINGS env d ctx mirrors) /\
  (forall id,
     keeps_mirror (AppContext.deleteClient id) CLIENTS env d ctx
       (fun ctx' d' =>
          write_ok env GOALS = true -> write_ok env SESSIONS = true ->
          mirrors ctx' d')).
Proof.
  intros R Mir.
  split; [intros; apply addClient_mirror; assumption|].
  split; [intros; apply addGoal_mirror; assumption|].
  split; [intros; apply addSession_mirror; assumption|].
  split; [intros; apply updateSession_mirror; assumption|].
  split; [intros; apply updateClient_mirror; assumption|].
  split; [intros; apply updateGoal_mirror; assumption|].
  split; [intros; apply deleteGoal_mirror; assumption|].
  split; [intros; apply deleteSession_mirror; assumption|].
  split; [intros; apply updateSettings_mirror; assumption|].
  intros; apply deleteClient_mirror; assumption.
Qed.

Lemma mutations_keep_the_mirror_witness :
  exists ctx' d',
    AppContext.deleteClient "c1" sample_ctx
      (working "2024-02-01T00:00:00.000Z") sample_disk
    = (Return (true, ctx'), d') /\
    mirrors ctx' d'.
Proof.
  destruct (mutations_keep_the_mirror
              (working "2024-02-01T00:00:00.000Z") sample_disk sample_ctx)
    as (_ & _ & _ & _ & _ & _ & _ & _ & _ & H).
  - intro k; reflexivity.
  - repeat split.
  - destruct (H "c1") as (ctx' & d' & E & Ok & _).
    exists ctx', d'. split; [exact E|].
    apply Ok; reflexivity.
Defined.

(** C8.  The specification has the mirror equal to the store after
    every mutation whose store operation succeeds, [updateClient] and
    [updateGoal] included.  Here the facade mirrors the store; an edit
    screen updates the sample client; the store operation succeeds.
    Afterwards the mirror and the store each hold one client of id c1,
    and they differ: the stored record carries the time of the save
    in [updatedAt], the mirrored one the time the screen put there.
    (What does hold of the ten mutations is
    [mutations_keep_the_mirror].) *)
Theorem C8_update_leaves_stale_updatedAt :
  mirrors sample_ctx sample_disk /\
  exists ctx' d' mirrored kept,
    AppContext.updateClient edited_client sample_ctx
      (working "2024-02-01T10:00:01.000Z") sample_disk
    = (Return (true, ctx'), d') /\
    AppContext.clients ctx' = [mirrored] /\
    clientsOf d' = [kept] /\
    Client.id mirrored = "c1" /\
    Client.id kept = "c1" /\
    Client.lastName mirrored = "Lovelace" /\
    Client.lastName kept = "Lovelace" /\
    Client.updatedAt mirrored = "2024-02-01T10:00:00.000Z" /\
    Client.updatedAt kept = "2024-02-01T10:00:01.000Z" /\
    ~ mirrors ctx' d'.
Proof.
  split; [repeat split|].
  eexists. eexists. eexists. eexists. split; [vm_compute; reflexivity|].
  split; [reflexivity|]. split; [reflexivity|].
  repeat (split; [reflexivity|]).
  intros [H _]. discriminate H.
Qed.

(* ================================================================== *)
(** * The goal-accuracy update                                         *)
(* ================================================================== *)

Lemma getGoal_id (goalId : string) (ctx : AppContext.t) (goal : Goal.t) :
  AppContext.getGoal goalId ctx = Some goal -> Goal.id goal = goalId.
Proof.
  unfold AppContext.getGoal. intro H. apply find_some in H.
  apply String.eqb_eq. exact (proj2 H).
Qed.


(** One update.  On a medium that performs the reads and the write
    of the goals, for a goal that the screen finds in the facade and
    that the store holds, with a stored accuracy between 0 and 100,
    the update stores under the goal's id the goal with the mean of
    the two accuracies, rounded with a tie going up, and with the
    status achieved if that mean reaches the target. *)
Lemma goal_accuracy_update_once
    (env : Env) (d : Disk) (rendered ctx : AppContext.t)
    (s : NewSessionScreen.t) (stamp goalId : string) (goal : Goal.t) :
  reads env -> write_ok env GOALS = true ->
  AppContext.getGoal goalId rendered = Some goal ->
  In goalId (map Goal.id (goalsOf d)) ->
  0 <= Goal.currentAccuracy goal <= 100 ->
  len (NewSessionScreen.trials s) < 2 ^ 53 ->
  let a :=
    SessionStats.accuracy
      (calculateSessionStats
         (filter (fun x => (Trial.goalId x =? goalId)%string)
            (NewSessionScreen.trials s))) in
  let newAccuracy := nearest_half_up (Goal.currentAccuracy goal + a) in
  let newStatus :=
    if Goal.targetAccuracy goal <=? newAccuracy
    then achieved else Goal.status goal in
  exists ctx' d',
    NewSessionScreen.calculateAndUpdateGoalAccuracy rendered s stamp goalId ctx env d
    = (Return ctx', d') /\
    GoalStorage.getById goalId env d' =
      (Return (Some (Goal.with_updatedAt (now env)
                       (Goal.with_progress newAccuracy newStatus stamp goal))), d') /\
    (newStatus = achieved <->
     Goal.targetAccuracy goal <= newAccuracy \/ Goal.status goal = achieved).
Proof.
  intros R W G I Hcur Hlen a newAccuracy newStatus.
  assert (Ha : 0 <= a <= 100).
  { apply accuracy_bounds.
    pose proof (len_filter_le (fun x => (Trial.goalId x =? goalId)%string)
                  (NewSessionScreen.trials s)). lia. }
  destruct (mean_spec _ _ Hcur Ha) as [_ Hm].
  pose proof (getGoal_id _ _ _ G) as Hid.
  unfold NewSessionScreen.calculateAndUpdateGoalAccuracy. rewrite G.
  fold a. rewrite Hm. fold newAccuracy. fold newStatus.
  set (g1 := Goal.with_progress newAccuracy newStatus stamp goal).
  unfold bind, AppContext.updateGoal, bind.
  rewrite GoalStorage_save_eq, setItem_eq, W, seen_reads by exact R.
  fold (goalsOf d).
  eexists. eexists. split; [reflexivity|]. split.
  - unfold GoalStorage.getById.
    rewrite (bind_eq env _ _ _ _ _ (GoalStorage_getAll_eq env _)).
    rewrite seen_reads by exact R. unfold ret. f_equal. f_equal.
    cbn [write at_goals stored or_else].
    assert (Hid1 : Goal.id g1 = goalId) by exact Hid.
    rewrite <- Hid1.
    apply (find_upsert_existing Goal.id (Goal.with_updatedAt (now env))).
    + reflexivity.
    + rewrite Hid1. exact I.
  - subst newStatus. destruct (Z.leb_spec (Goal.targetAccuracy goal) newAccuracy).
    + split; [intros _; left; assumption | reflexivity].
    + split; [intro E; right; exact E | intros [E | E]; [lia | exact E]].
Qed.

(* ================================================================== *)
(** * The session-recording flow                                       *)
(* ================================================================== *)

Section Recording.

Import NewSessionScreen.

Lemma at_index_In {A} (l : list A) (i : Z) (x : A) :
  at_index l i = Some x -> In x l.
Proof.
  unfold at_index. destruct (0 <=? i); [|discriminate].
  apply nth_error_In.
Qed.

Lemma currentGoal_selected (ctx : AppContext.t) (s : t) (g : Goal.t) :
  currentGoal ctx s = Some g -> In (Goal.id g) (selectedGoalIds s).
Proof.
  unfold currentGoal. destruct (len (selectedGoalIds s) =? 0); [discriminate|].
  destruct (at_index (selectedGoalIds s) (currentGoalIndex s)) as [id |] eqn:E;
    [|discriminate].
  intro G. rewrite (getGoal_id _ _ _ G). eapply at_index_In. exact E.
Qed.

Lemma initial_invariant (clientId : string) (initialGoalIds : option (list string)) :
  recording_invariant (initial clientId initialGoalIds).
Proof. split; [intros x [] | reflexivity]. Qed.

Lemma step_invariant (ctx : AppContext.t) (ev : Event) (s : t) :
  recording_invariant s -> recording_invariant (step ctx ev s).
Proof.
  intros [Hin Hst]. unfold step.
  destruct (AppContext.getClient (clientId s) ctx); [|split; assumption].
  case_eq (sessionStarted s); intro St.
  - (* the recording view *)
    assert (Keep : forall s', trials s' = trials s ->
                     selectedGoalIds s' = selectedGoalIds s ->
                     sessionStarted s' = sessionStarted s ->
                     recording_invariant s').
    { intros s' Et Eg Es. split; rewrite Et, ?Eg, ?Es; assumption. }
    destruct ev; try (apply Keep; reflexivity).
    + (* a response is recorded *)
      unfold handleRecordTrial.
      destruct (currentGoal ctx s) as [g |] eqn:G; [|split; assumption].
      split; cbn; [|rewrite St; discriminate].
      intros x Hx. unfold push in Hx. apply in_app_or in Hx.
      destruct Hx as [Hx | [<- | []]]; [apply Hin; exact Hx|].
      cbn. split; [eapply currentGoal_selected; exact G | reflexivity].
    + (* the last trial is undone *)
      destruct (0 <? len (currentGoalTrials ctx s)); [|split; assumption].
      unfold handleDeleteLastTrial.
      destruct (rev (currentGoalTrials ctx s)); [split; assumption|].
      split; cbn; [|rewrite St; discriminate].
      intros x Hx. apply filter_In in Hx. apply Hin, Hx.
    + destruct (1 <? len (selectedGoalIds s)); [|split; assumption].
      unfold handleNextGoal.
      destruct (currentGoalIndex s <? len (selectedGoalIds s) - 1);
        apply Keep; reflexivity.
    + destruct (1 <? len (selectedGoalIds s)); [|split; assumption].
      unfold handlePrevGoal.
      destruct (0 <? currentGoalIndex s); apply Keep; reflexivity.
  - (* the goal-selection view: nothing is recorded yet *)
    specialize (Hst St).
    assert (Keep : forall s', trials s' = trials s -> recording_invariant s').
    { intros s' Et. split; rewrite Et, Hst; [intros x [] | reflexivity]. }
    destruct ev; try (apply Keep; reflexivity).
    + destruct (existsb _ _); apply Keep; reflexivity.
    + unfold handleStartSession.
      destruct (len (selectedGoalIds s) =? 0); apply Keep; reflexivity.
Qed.

Lemma run_invariant (evs : list (AppContext.t * Event)) (s : t) :
  recording_invariant s -> recording_invariant (run evs s).
Proof.
  revert s. induction evs as [| [ctx ev] r IH]; intros s H; cbn [run];
    [exact H | apply IH, step_invariant, H].
Qed.

(** The updates of the goals return, and touch only the goals. *)
Lemma calculateAndUpdateGoalAccuracy_returns
    (rendered : AppContext.t) (s : t) (stamp goalId : string)
    (ctx : AppContext.t) (env : Env) (d : Disk) :
  exists ctx' d',
    calculateAndUpdateGoalAccuracy rendered s stamp goalId ctx env d
    = (Return ctx', d') /\
    at_sessions d' = at_sessions d.
Proof.
  unfold calculateAndUpdateGoalAccuracy.
  destruct (AppContext.getGoal goalId rendered);
    [|eexists; eexists; split; reflexivity].
  unfold bind, AppContext.updateGoal, bind.
  rewrite GoalStorage_save_eq, setItem_eq.
  destruct (write_ok env GOALS); eexists; eexists; split; reflexivity.
Qed.

Lemma forEach_updates_return
    (rendered : AppContext.t) (s : t) (stampOf : string -> string)
    (ids : list string) (ctx : AppContext.t) (env : Env) (d : Disk) :
  exists ctx' d',
    forEach (fun goalId =>
               calculateAndUpdateGoalAccuracy rendered s (stampOf goalId) goalId)
      ids ctx env d = (Return ctx', d') /\
    at_sessions d' = at_sessions d.
Proof.
  revert ctx d. induction ids as [| id r IH]; intros ctx d; cbn [forEach].
  - eexists; eexists; split; reflexivity.
  - destruct (calculateAndUpdateGoalAccuracy_returns rendered s (stampOf id) id
                ctx env d) as (ctx1 & d1 & E1 & S1).
    unfold bind at 1. rewrite E1.
    destruct (IH ctx1 d1) as (ctx2 & d2 & E2 & S2).
    exists ctx2, d2. split; [exact E2 | congruence].
Qed.

(** C9.  Whatever is done on the screen -- any selection of goals,
    any sequence of recorded and undone trials, whatever the facade
    holds at each moment -- ending the session returns; with no trial
    recorded it asks and persists nothing; otherwise it builds a
    session under the freshly generated id and passes it to the
    store.  In that session every trial has sessionId equal to the
    session's id (on the screen each trial carried the empty
    placeholder, which has been rewritten), and every trial's goalId
    is among the session's goals.  When the store
    accepted the write the session is in the stored collection. *)
Theorem C9_saved_session_is_well_formed
    (clientId : string) (initialGoalIds : option (list string))
    (evs : list (AppContext.t * Event))
    (sessionId date createdAt : string) (stampOf : string -> string)
    (ctx : AppContext.t) (env : Env) (d : Disk) :
  let s := run evs (initial clientId initialGoalIds) in
  exists out s' ctx' d',
    handleEndSession sessionId date createdAt stampOf ctx s env d
    = (Return (out, s', ctx'), d') /\
    (forall x, In x (trials s) -> Trial.sessionId x = "") /\
    match out with
    | AlertNoTrials => trials s = [] /\ d' = d
    | WentBack session =>
        write_ok env SESSIONS = true /\
        Session.id session = sessionId /\
        Session.goals session = selectedGoalIds s /\
        Session.trials session = map (Trial.with_sessionId sessionId) (trials s) /\
        well_formed session /\
        In session (sessionsOf d')
    | AlertFailed session =>
        write_ok env SESSIONS = false /\
        Session.id session = sessionId /\
        well_formed session /\
        d' = d
    end.
Proof.
  intro s.
  assert (Inv : recording_invariant s)
    by (apply run_invariant, initial_invariant).
  destruct Inv as [Hin _].
  unfold handleEndSession.
  destruct (len (trials s) =? 0) eqn:E0.
  - exists AlertNoTrials, s, ctx, d. split; [reflexivity|].
    split; [intros x Hx; apply Hin; exact Hx|].
    split; [|reflexivity].
    apply Z.eqb_eq in E0. unfold len in E0.
    destruct (trials s); [reflexivity | cbn in E0; lia].
  - cbn [NewSessionScreen.trials NewSessionScreen.setIsSaving
         NewSessionScreen.clientId NewSessionScreen.sessionNotes
         NewSessionScreen.selectedGoalIds].
    set (session := Session.mk sessionId (NewSessionScreen.clientId s) date 30 _
                      (selectedGoalIds s)
                      (map (Trial.with_sessionId sessionId) (trials s)) createdAt).
    assert (WF : well_formed session).
    { intros x Hx. cbn in Hx. apply in_map_iff in Hx.
      destruct Hx as (y & <- & Hy). split; [reflexivity|].
      cbn. apply Hin. exact Hy. }
    unfold bind at 1. unfold AppContext.addSession, bind at 1.
    rewrite SessionStorage_save_eq, setItem_eq.
    destruct (write_ok env SESSIONS) eqn:W.
    + cbv beta iota. unfold ret at 1. cbv beta iota.
      match goal with
      | |- context [bind (forEach _ ?ids ?c) _ env ?dd] =>
          destruct (forEach_updates_return ctx (setIsSaving true s) stampOf
                      ids c env dd) as (ctx2 & d2 & E2 & S2)
      end.
      unfold bind at 1. rewrite E2.
      eexists. eexists. eexists. eexists. split; [reflexivity|].
      split; [intros x Hx; apply Hin; exact Hx|].
      split; [reflexivity|]. split; [reflexivity|]. split; [reflexivity|].
      split; [reflexivity|]. split; [exact WF|].
      unfold sessionsOf. rewrite S2. cbn [write at_sessions stored or_else].
      destruct (upsert_cases Session.id (fun x => x) session
                  (or_else (seen (read_ok env SESSIONS) (at_sessions d)) []))
        as [[_ ->] | (l1 & x & l2 & _ & _ & _ & ->)];
        apply in_or_app; right; left; reflexivity.
    + cbv beta iota. unfold ret at 1. cbv beta iota.
      eexists. eexists. eexists. eexists. split; [reflexivity|].
      split; [intros x Hx; apply Hin; exact Hx|].
      split; [reflexivity|]. split; [reflexivity|]. split; [exact WF | reflexivity].
Qed.

Lemma C9_saved_session_is_well_formed_witness :
  exists session s' ctx' d',
    handleEndSession "s2" "2024-02-01T10:30:00.000Z" "2024-02-01T10:30:00.001Z"
      (fun _ => "2024-02-01T10:30:00.002Z") sample_ctx
      (run sample_visit (initial "c1" None))
      (working "2024-02-01T10:30:00.003Z") sample_disk
    = (Return (WentBack session, s', ctx'), d') /\
    len (Session.trials session) = 2 /\
    well_formed session /\
    In session (sessionsOf d').
Proof.
  destruct (C9_saved_session_is_well_formed "c1" None sample_visit
              "s2" "2024-02-01T10:30:00.000Z" "2024-02-01T10:30:00.001Z"
              (fun _ => "2024-02-01T10:30:00.002Z") sample_ctx
              (working "2024-02-01T10:30:00.003Z") sample_disk)
    as (out & s' & ctx' & d' & E & _ & H).
  destruct out as [| session | session].
  - exfalso. destruct H as [H _]. vm_compute in H. discriminate H.
  - exists session, s', ctx', d'. split; [exact E|].
    destruct H as (_ & _ & _ & Ht & WF & Hin).
    split; [rewrite Ht; reflexivity|]. split; [exact WF | exact Hin].
  - exfalso. destruct H as [H _]. discriminate H.
Defined.

End Recording.

(* ================================================================== *)
(** * Session completion                                               *)
(* ================================================================== *)

Section Completion.

Variables (env : Env) (rendered : AppContext.t) (s : NewSessionScreen.t)
          (stampOf : string -> string).
Hypothesis R : reads env.
Hypothesis Wg : write_ok env GOALS = true.




End Completion.




(* ================================================================== *)
(** * The record store: reading back                                   *)
(* ================================================================== *)

Lemma includes_In (k : string) (l : list string) :
  includes k l = true <-> In k l.
Proof.
  unfold includes. rewrite existsb_exists. split.
  - intros (x & Hx & E). apply String.eqb_eq in E. subst x. exact Hx.
  - intro H. exists k. split; [exact H | apply String.eqb_refl].
Qed.

Lemma filter_twice {A} (p : A -> bool) (l : list A) :
  filter p (filter p l) = filter p l.
Proof.
  induction l as [| x r IH]; cbn [filter]; [reflexivity|].
  destruct (p x) eqn:Px; cbn [filter]; rewrite ?Px, IH; reflexivity.
Qed.

Lemma filter_all {A} (p : A -> bool) (l : list A) :
  (forall x, In x l -> p x = true) -> filter p l = l.
Proof.
  induction l as [| x r IH]; cbn [filter]; [reflexivity|]. intro H.
  rewrite (H x (or_introl eq_refl)), IH; [reflexivity|].
  intros y Hy. apply H. right. exact Hy.
Qed.

Section Lookup.

Context {A : Type} (id : A -> string) (stamp : A -> A).
Hypothesis stamp_id : forall e, id (stamp e) = id e.

Lemma find_absent (k : string) (l : list A) :
  ~ In k (map id l) -> find (fun x => (id x =? k)%string) l = None.
Proof.
  intro N. induction l as [| y r IH]; cbn [find]; [reflexivity|].
  cbn [map] in N. destruct (String.eqb_spec (id y) k) as [E | E].
  - exfalso. apply N. left. exact E.
  - apply IH. intro H. apply N. right. exact H.
Qed.

Lemma find_upsert_fresh (e : A) (l : list A) :
  ~ In (id e) (map id l) ->
  find (fun x => (id x =? id e)%string) (upsert id stamp e l) = Some e.
Proof.
  intro N. rewrite (upsert_fresh id stamp e l N).
  induction l as [| y r IH]; cbn [app find].
  - rewrite String.eqb_refl. reflexivity.
  - cbn [map] in N. destruct (String.eqb_spec (id y) (id e)) as [E | E].
    + exfalso. apply N. left. exact E.
    + apply IH. intro H. apply N. right. exact H.
Qed.

(** [find] on the id, after [save]. *)
Lemma find_saved (e : A) (l : list A) :
  find (fun x => (id x =? id e)%string) (upsert id stamp e l)
  = Some (saved_as id stamp e l).
Proof.
  unfold saved_as. destruct (includes (id e) (map id l)) eqn:I.
  - apply find_upsert_existing; [exact stamp_id | apply includes_In; exact I].
  - apply find_upsert_fresh. intro H. apply includes_In in H. congruence.
Qed.

Lemma find_filter_same (k : string) (l : list A) :
  find (fun x => (id x =? k)%string)
    (filter (fun x => negb (id x =? k)%string) l) = None.
Proof.
  induction l as [| y r IH]; cbn [filter find]; [reflexivity|].
  destruct (id y =? k)%string eqn:E; cbn [negb find]; rewrite ?E; exact IH.
Qed.

Lemma find_filter_other (k k' : string) (l : list A) :
  k' <> k ->
  find (fun x => (id x =? k')%string)
    (filter (fun x => negb (id x =? k)%string) l)
  = find (fun x => (id x =? k')%string) l.
Proof.
  intro N. induction l as [| y r IH]; cbn [filter find]; [reflexivity|].
  destruct (String.eqb_spec (id y) k) as [E | E]; cbn [negb find].
  - destruct (String.eqb_spec (id y) k') as [E' | E']; [congruence | exact IH].
  - rewrite IH. reflexivity.
Qed.

Lemma filter_absent (k : string) (l : list A) :
  ~ In k (map id l) -> filter (fun x => negb (id x =? k)%string) l = l.
Proof.
  intro N. apply filter_all. intros x Hx. apply negb_true_iff, String.eqb_neq.
  intro E. apply N. rewrite <- E. apply in_map. exact Hx.
Qed.

End Lookup.

Lemma ClientStorage_getById_eq (env : Env) (d : Disk) (id : string) :
  ClientStorage.getById id env d =
  (Return (find (fun c => (Client.id c =? id)%string)
             (or_else (seen (read_ok env CLIENTS) (at_clients d)) [])), d).
Proof.
  unfold ClientStorage.getById.
  rewrite (bind_eq env d _ _ _ _ (ClientStorage_getAll_eq env d)). reflexivity.
Qed.

Lemma GoalStorage_getById_eq (env : Env) (d : Disk) (id : string) :
  GoalStorage.getById id env d =
  (Return (find (fun g => (Goal.id g =? id)%string)
             (or_else (seen (read_ok env GOALS) (at_goals d)) [])), d).
Proof.
  unfold GoalStorage.getById.
  rewrite (bind_eq env d _ _ _ _ (GoalStorage_getAll_eq env d)). reflexivity.
Qed.

Lemma SessionStorage_getById_eq (env : Env) (d : Disk) (id : string) :
  SessionStorage.getById id env d =
  (Return (find (fun s => (Session.id s =? id)%string)
             (or_else (seen (read_ok env SESSIONS) (at_sessions d)) [])), d).
Proof.
  unfold SessionStorage.getById.
  rewrite (bind_eq env d _ _ _ _ (SessionStorage_getAll_eq env d)). reflexivity.
Qed.

(** Reading is total and leaves the medium alone: whatever the medium
    does, the four reads of the store return, without a change of the
    medium; a key that cannot be read, that holds nothing, or that
    holds bytes that do not parse, reads as the empty collection,
    respectively as the default settings. *)
Theorem reads_fall_back (env : Env) (d : Disk) :
  (exists l, ClientStorage.getAll env d = (Return l, d) /\
     (read_ok env CLIENTS = false \/ stored (at_clients d) = None -> l = [])) /\
  (exists l, GoalStorage.getAll env d = (Return l, d) /\
     (read_ok env GOALS = false \/ stored (at_goals d) = None -> l = [])) /\
  (exists l, SessionStorage.getAll env d = (Return l, d) /\
     (read_ok env SESSIONS = false \/ stored (at_sessions d) = None -> l = [])) /\
  (exists s, SettingsStorage.get env d = (Return s, d) /\
     (read_ok env SETTINGS = false \/ stored (at_settings d) = None ->
      s = DEFAULT_SETTINGS)).
Proof.
  rewrite ClientStorage_getAll_eq, GoalStorage_getAll_eq,
    SessionStorage_getAll_eq, SettingsStorage_get_eq.
  repeat split; eexists; (split; [reflexivity|]); unfold seen;
    intros [F | F]; rewrite F; [| destruct (read_ok env _) |
                                 | destruct (read_ok env _) |
                                 | destruct (read_ok env _) |
                                 | destruct (read_ok env _)]; reflexivity.
Qed.

Lemma reads_fall_back_witness :
  (read_ok (working "2024-02-01T00:00:00.000Z") GOALS = false \/
   stored (at_goals (mkDisk None (Some Malformed) None None)) = None) /\
  fst (GoalStorage.getAll (working "2024-02-01T00:00:00.000Z")
         (mkDisk None (Some Malformed) None None)) = Return [].
Proof.
  split; [right; reflexivity|].
  destruct (reads_fall_back (working "2024-02-01T00:00:00.000Z")
              (mkDisk None (Some Malformed) None None))
    as (_ & (l & E & H) & _).
  rewrite E. cbn [fst]. rewrite (H (or_intror eq_refl)). reflexivity.
Defined.

Lemma saved_as_record {A} (id : A -> string) (stamp : A -> A)
    (stored_at : A -> A -> Prop) (e : A) (l : list A) :
  stored_at e (stamp e) ->
  saved_record id stored_at e l (saved_as id stamp e l).
Proof.
  intro H. unfold saved_record, saved_as.
  destruct (includes (id e) (map id l)) eqn:I; split; intro K.
  - exact H.
  - exfalso. apply K. apply includes_In. exact I.
  - exfalso. apply includes_In in K. congruence.
  - reflexivity.
Qed.

(** A saved record reads back.  On a medium that works, [save e]
    succeeds; afterwards [getById] on the id of [e] yields a record:
    [e] itself when the id was new, and when a record was replaced a
    record with every field of [e] except [updatedAt], which holds the
    time of the save (a session is stored as it is in both cases);
    [getById] on every other id yields what it did. *)
Theorem save_then_getById (env env' : Env) (d : Disk) :
  reads env -> writes env -> reads env' ->
  (forall c,
     then_reads_a (ClientStorage.save c) ClientStorage.getById (Client.id c)
       (saved_record Client.id (client_stored_at (now env)) c (clientsOf d))
       env env' d) /\
  (forall g,
     then_reads_a (GoalStorage.save g) GoalStorage.getById (Goal.id g)
       (saved_record Goal.id (goal_stored_at (now env)) g (goalsOf d))
       env env' d) /\
  (forall s,
     then_reads (SessionStorage.save s) SessionStorage.getById (Session.id s)
       (Some s) env env' d).
Proof.
  intros R W R'. unfold then_reads, then_reads_a. repeat split; intro e.
  - rewrite ClientStorage_save_eq, setItem_eq, W, seen_reads by exact R.
    eexists.
    exists (saved_as Client.id (Client.with_updatedAt (now env)) e (clientsOf d)).
    split; [reflexivity|]. split; [|split].
    + rewrite ClientStorage_getById_eq, seen_reads by exact R'.
      cbn [write at_clients stored or_else]. fold (clientsOf d).
      rewrite find_saved by reflexivity. reflexivity.
    + apply saved_as_record. repeat split.
    + intros k' N. rewrite !ClientStorage_getById_eq, !seen_reads by exact R'.
      cbn [write at_clients stored or_else fst]. fold (clientsOf d).
      rewrite find_upsert_other by (reflexivity || exact N). reflexivity.
  - rewrite GoalStorage_save_eq, setItem_eq, W, seen_reads by exact R.
    eexists.
    exists (saved_as Goal.id (Goal.with_updatedAt (now env)) e (goalsOf d)).
    split; [reflexivity|]. split; [|split].
    + rewrite GoalStorage_getById_eq, seen_reads by exact R'.
      cbn [write at_goals stored or_else]. fold (goalsOf d).
      rewrite find_saved by reflexivity. reflexivity.
    + apply saved_as_record. repeat split.
    + intros k' N. rewrite !GoalStorage_getById_eq, !seen_reads by exact R'.
      cbn [write at_goals stored or_else fst]. fold (goalsOf d).
      rewrite find_upsert_other by (reflexivity || exact N). reflexivity.
  - rewrite SessionStorage_save_eq, setItem_eq, W, seen_reads by exact R.
    eexists. split; [reflexivity|]. split.
    + rewrite SessionStorage_getById_eq, seen_reads by exact R'.
      cbn [write at_sessions stored or_else]. fold (sessionsOf d).
      rewrite (find_saved Session.id (fun s => s)) by reflexivity.
      unfold saved_as. destruct (includes _ _); reflexivity.
    + intros k' N. rewrite !SessionStorage_getById_eq, !seen_reads by exact R'.
      cbn [write at_sessions stored or_else fst]. fold (sessionsOf d).
      rewrite find_upsert_other by (reflexivity || exact N). reflexivity.
Qed.

Lemma save_then_getById_witness :
  exists d' x,
    ClientStorage.save edited_client (working "2024-02-01T10:00:05.000Z")
      sample_disk = (Return true, d') /\
    ClientStorage.getById "c1" (working "2024-02-02T00:00:00.000Z") d'
      = (Return (Some x), d') /\
    Client.lastName x = "Lovelace" /\
    Client.updatedAt x = "2024-02-01T10:00:05.000Z".
Proof.
  destruct (proj1 (save_then_getById (working "2024-02-01T10:00:05.000Z")
                     (working "2024-02-02T00:00:00.000Z") sample_disk
                     ltac:(intro k; reflexivity) ltac:(intro k; reflexivity)
                     ltac:(intro k; reflexivity))
              edited_client)
    as (d' & x & E & G & [P _] & _).
  exists d', x. split; [exact E|]. split; [exact G|].
  destruct P as (_ & _ & L & _ & _ & _ & _ & _ & U).
  - left. reflexivity.
  - split; [exact L | exact U].
Defined.

(** A deleted record is gone.  On a medium that works, [delete id]
    succeeds; afterwards [getById id] yields [null], and [getById] on
    every other id yields what it did. *)
Theorem delete_then_getById (env env' : Env) (d : Disk) (id : string) :
  reads env -> writes env -> reads env' ->
  then_reads (ClientStorage.delete id) ClientStorage.getById id None env env' d /\
  then_reads (GoalStorage.delete id) GoalStorage.getById id None env env' d /\
  then_reads (SessionStorage.delete id) SessionStorage.getById id None env env' d.
Proof.
  intros R W R'. unfold then_reads. repeat split.
  - rewrite ClientStorage_delete_eq. cbv zeta.
    rewrite GoalStorage_deleteByClientId_eq, setItem_eq, W. cbn [snd].
    rewrite SessionStorage_deleteByClientId_eq, setItem_eq, W. cbn [snd].
    rewrite setItem_eq, W, !seen_reads by exact R.
    eexists. split; [reflexivity|]. split.
    + rewrite ClientStorage_getById_eq, seen_reads by exact R'.
      cbn [write at_clients stored or_else]. rewrite find_filter_same. reflexivity.
    + intros k' N. rewrite !ClientStorage_getById_eq, !seen_reads by exact R'.
      cbn [write at_clients stored or_else fst].
      rewrite find_filter_other by exact N. reflexivity.
  - rewrite GoalStorage_delete_eq, setItem_eq, W, seen_reads by exact R.
    eexists. split; [reflexivity|]. split.
    + rewrite GoalStorage_getById_eq, seen_reads by exact R'.
      cbn [write at_goals stored or_else]. rewrite find_filter_same. reflexivity.
    + intros k' N. rewrite !GoalStorage_getById_eq, !seen_reads by exact R'.
      cbn [write at_goals stored or_else fst].
      rewrite find_filter_other by exact N. reflexivity.
  - rewrite SessionStorage_delete_eq, setItem_eq, W, seen_reads by exact R.
    eexists. split; [reflexivity|]. split.
    + rewrite SessionStorage_getById_eq, seen_reads by exact R'.
      cbn [write at_sessions stored or_else]. rewrite find_filter_same. reflexivity.
    + intros k' N. rewrite !SessionStorage_getById_eq, !seen_reads by exact R'.
      cbn [write at_sessions stored or_else fst].
      rewrite find_filter_other by exact N. reflexivity.
Qed.

Lemma delete_then_getById_witness :
  then_reads (GoalStorage.delete "g1") GoalStorage.getById "g1" None
    (working "2024-02-01T00:00:00.000Z") (working "2024-02-02T00:00:00.000Z")
    sample_disk.
Proof.
  refine (proj1 (proj2 (delete_then_getById (working "2024-02-01T00:00:00.000Z")
                          (working "2024-02-02T00:00:00.000Z") sample_disk "g1"
                          _ _ _)));
    intro k; reflexivity.
Defined.

(** Deleting twice is deleting once: on a medium that works, a second
    [delete] of the same id succeeds and leaves the medium exactly as
    the first one left it. *)
Theorem delete_is_idempotent (env env' : Env) (d : Disk) (id : string) :
  reads env -> writes env -> reads env' -> writes env' ->
  (exists d1, ClientStorage.delete id env d = (Return true, d1) /\
              ClientStorage.delete id env' d1 = (Return true, d1)) /\
  (exists d1, GoalStorage.delete id env d = (Return true, d1) /\
              GoalStorage.delete id env' d1 = (Return true, d1)) /\
  (exists d1, SessionStorage.delete id env d = (Return true, d1) /\
              SessionStorage.delete id env' d1 = (Return true, d1)).
Proof.
  intros R W R' W'. repeat split.
  - rewrite ClientStorage_delete_eq. cbv zeta.
    rewrite GoalStorage_deleteByClientId_eq, setItem_eq, W. cbn [snd].
    rewrite SessionStorage_deleteByClientId_eq, setItem_eq, W. cbn [snd].
    rewrite setItem_eq, W, !seen_reads by exact R.
    eexists. split; [reflexivity|].
    rewrite ClientStorage_delete_eq. cbv zeta.
    rewrite GoalStorage_deleteByClientId_eq, setItem_eq, W'. cbn [snd].
    rewrite SessionStorage_deleteByClientId_eq, setItem_eq, W'. cbn [snd].
    rewrite setItem_eq, W', !seen_reads by exact R'.
    cbn [write at_clients at_goals at_sessions at_settings stored or_else snd].
    rewrite !filter_twice. reflexivity.
  - rewrite GoalStorage_delete_eq, setItem_eq, W, seen_reads by exact R.
    eexists. split; [reflexivity|].
    rewrite GoalStorage_delete_eq, setItem_eq, W', seen_reads by exact R'.
    cbn [write at_clients at_goals at_sessions at_settings stored or_else snd].
    rewrite !filter_twice. reflexivity.
  - rewrite SessionStorage_delete_eq, setItem_eq, W, seen_reads by exact R.
    eexists. split; [reflexivity|].
    rewrite SessionStorage_delete_eq, setItem_eq, W', seen_reads by exact R'.
    cbn [write at_clients at_goals at_sessions at_settings stored or_else snd].
    rewrite !filter_twice. reflexivity.
Qed.

Lemma delete_is_idempotent_witness :
  exists d1,
    ClientStorage.delete "c1" (working "2024-02-01T00:00:00.000Z") sample_disk
      = (Return true, d1) /\
    ClientStorage.delete "c1" (working "2024-02-02T00:00:00.000Z") d1
      = (Return true, d1).
Proof.
  refine (proj1 (delete_is_idempotent (working "2024-02-01T00:00:00.000Z")
                   (working "2024-02-02T00:00:00.000Z") sample_disk "c1"
                   _ _ _ _));
    intro k; reflexivity.
Defined.

(** Deleting an id that is not stored changes no record: on a medium
    that performs its reads, whether or not the writes succeed, the
    three collections are afterwards what they were.  (For a client the
    id must also be absent from the [clientId] of every goal and
    session, which the cascade would remove otherwise.) *)
Theorem delete_of_absent_id (env : Env) (d : Disk) (id : string) :
  reads env ->
  (~ In id (map Client.id (clientsOf d)) ->
   ~ In id (map Goal.clientId (goalsOf d)) ->
   ~ In id (map Session.clientId (sessionsOf d)) ->
   same_records d (snd (ClientStorage.delete id env d))) /\
  (~ In id (map Goal.id (goalsOf d)) ->
   same_records d (snd (GoalStorage.delete id env d))) /\
  (~ In id (map Session.id (sessionsOf d)) ->
   same_records d (snd (SessionStorage.delete id env d))).
Proof.
  intro R. unfold same_records. split; [|split].
  - intros Nc Ng Ns.
    rewrite ClientStorage_delete_eq. cbv zeta.
    rewrite GoalStorage_deleteByClientId_eq, SessionStorage_deleteByClientId_eq,
      !setItem_eq, !seen_reads by exact R.
    fold (clientsOf d).
    destruct (write_ok env GOALS), (write_ok env SESSIONS), (write_ok env CLIENTS);
      cbn [snd write at_clients at_goals at_sessions at_settings];
      unfold clientsOf, goalsOf, sessionsOf;
      cbn [at_clients at_goals at_sessions stored or_else];
      fold (clientsOf d); fold (goalsOf d); fold (sessionsOf d);
      rewrite ?(filter_absent Client.id), ?(filter_absent Goal.clientId),
        ?(filter_absent Session.clientId) by assumption;
      repeat split; reflexivity.
  - intro N. rewrite GoalStorage_delete_eq, setItem_eq, seen_reads by exact R.
    fold (goalsOf d). rewrite (filter_absent Goal.id) by exact N.
    destruct (write_ok env GOALS); repeat split; reflexivity.
  - intro N. rewrite SessionStorage_delete_eq, setItem_eq, seen_reads by exact R.
    fold (sessionsOf d). rewrite (filter_absent Session.id) by exact N.
    destruct (write_ok env SESSIONS); repeat split; reflexivity.
Qed.

Lemma delete_of_absent_id_witness :
  same_records sample_disk
    (snd (GoalStorage.delete "g2" (working "2024-02-01T00:00:00.000Z") sample_disk)).
Proof.
  refine (proj1 (proj2 (delete_of_absent_id (working "2024-02-01T00:00:00.000Z")
                          sample_disk "g2" _)) _).
  - intro k. reflexivity.
  - cbn. intros [E | []]. discriminate E.
Defined.

(** When the medium fails to read a collection and then performs the
    write, [save] stores the saved record alone: the records that
    were stored are dropped, and [save] returns [true]. *)
Theorem save_after_failed_read (env : Env) (d : Disk) :
  (forall c, read_ok env CLIENTS = false -> write_ok env CLIENTS = true ->
     exists d', ClientStorage.save c env d = (Return true, d') /\
                clientsOf d' = [c]) /\
  (forall g, read_ok env GOALS = false -> write_ok env GOALS = true ->
     exists d', GoalStorage.save g env d = (Return true, d') /\
                goalsOf d' = [g]) /\
  (forall s, read_ok env SESSIONS = false -> write_ok env SESSIONS = true ->
     exists d', SessionStorage.save s env d = (Return true, d') /\
                sessionsOf d' = [s]).
Proof.
  repeat split; intros e F W;
    rewrite ?ClientStorage_save_eq, ?GoalStorage_save_eq, ?SessionStorage_save_eq;
    rewrite setItem_eq, W, F; eexists; split; reflexivity.
Qed.

Lemma save_after_failed_read_witness :
  clientsOf sample_disk = [sample_client] /\
  exists d',
    ClientStorage.save other_client
      (clients_read_fails "2024-02-01T00:00:00.000Z") sample_disk
    = (Return true, d') /\
    clientsOf d' = [other_client].
Proof.
  split; [reflexivity|].
  apply (proj1 (save_after_failed_read
                  (clients_read_fails "2024-02-01T00:00:00.000Z") sample_disk));
    reflexivity.
Defined.

Lemma updateAccuracy_unknown
    (env : Env) (d : Disk) (id : string) (accuracy : Z) :
  ~ In id (map Goal.id (goalsOf d)) ->
  GoalStorage.updateAccuracy id accuracy env d = (Return false, d).
Proof.
  intro N. unfold GoalStorage.updateAccuracy.
  rewrite (bind_eq env d _ _ _ _ (GoalStorage_getById_eq env d id)).
  unfold seen. destruct (read_ok env GOALS); [|reflexivity].
  fold (goalsOf d). rewrite (find_absent Goal.id) by exact N. reflexivity.
Qed.

Lemma updateAccuracy_stored
    (env env' : Env) (d : Disk) (id : string) (accuracy : Z) (goal : Goal.t) :
  reads env -> writes env -> reads env' ->
  find (fun g => (Goal.id g =? id)%string) (goalsOf d) = Some goal ->
  then_reads (GoalStorage.updateAccuracy id accuracy) GoalStorage.getById id
    (Some (Goal.with_progress accuracy
             (if Goal.targetAccuracy goal <=? accuracy
              then achieved else Goal.status goal)
             (now env) goal))
    env env' d.
Proof.
  intros R W R' F. unfold then_reads, GoalStorage.updateAccuracy.
  rewrite (bind_eq env d _ _ _ _ (GoalStorage_getById_eq env d id)).
  rewrite seen_reads by exact R. fold (goalsOf d). rewrite F.
  assert (Hid : Goal.id goal = id)
    by (apply String.eqb_eq; exact (proj2 (find_some _ _ F))).
  assert (Hin : In id (map Goal.id (goalsOf d))).
  { apply find_some in F. destruct F as [Hin _]. rewrite <- Hid.
    apply in_map. exact Hin. }
  set (goal' := Goal.mk _ _ _ _ _ _ _ _ _ _ _).
  assert (Hid' : Goal.id goal' = id) by exact Hid.
  rewrite GoalStorage_save_eq, setItem_eq, W, seen_reads by exact R.
  fold (goalsOf d).
  eexists. split; [reflexivity|]. split.
  - rewrite GoalStorage_getById_eq, seen_reads by exact R'.
    cbn [write at_goals stored or_else].
    pose proof (find_upsert_existing Goal.id (Goal.with_updatedAt (now env))
                  (fun _ => eq_refl) goal' (goalsOf d)) as Hf.
    rewrite Hid' in Hf. fold (goalsOf d). rewrite (Hf Hin). reflexivity.
  - intros k' N. rewrite !GoalStorage_getById_eq, !seen_reads by exact R'.
    cbn [write at_goals stored or_else fst]. fold (goalsOf d).
    rewrite find_upsert_other; [reflexivity | reflexivity |].
    rewrite Hid'. exact N.
Qed.

(** [GoalStorage.updateAccuracy].  On an id that is not stored it
    returns [false] and writes nothing, whatever the medium does.  On
    a stored goal and a medium that works it succeeds; the goal then
    reads back with the given accuracy, with the time of the update in
    [updatedAt], and with the status [achieved] when the accuracy
    reaches the target -- whatever the status was -- and with its
    former status otherwise; every other goal reads as before. *)
Theorem updateAccuracy_sets_the_progress
    (env env' : Env) (d : Disk) (id : string) (accuracy : Z) :
  (~ In id (map Goal.id (goalsOf d)) ->
   GoalStorage.updateAccuracy id accuracy env d = (Return false, d)) /\
  (reads env -> writes env -> reads env' ->
   forall goal,
     find (fun g => (Goal.id g =? id)%string) (goalsOf d) = Some goal ->
     then_reads (GoalStorage.updateAccuracy id accuracy) GoalStorage.getById id
       (Some (Goal.with_progress accuracy
                (if Goal.targetAccuracy goal <=? accuracy
                 then achieved else Goal.status goal)
                (now env) goal))
       env env' d).
Proof.
  split.
  - apply updateAccuracy_unknown.
  - intros R W R' goal F. apply updateAccuracy_stored; assumption.
Qed.

Lemma updateAccuracy_sets_the_progress_witness :
  GoalStorage.updateAccuracy "g2" 85 (working "2024-02-01T00:00:00.000Z")
    (disk_with_goal discontinued)
  = (Return false, disk_with_goal discontinued) /\
  then_reads (GoalStorage.updateAccuracy "g1" 85) GoalStorage.getById "g1"
    (Some (Goal.with_progress 85 achieved "2024-02-01T00:00:00.000Z"
             (sample_goal discontinued)))
    (working "2024-02-01T00:00:00.000Z") (working "2024-02-02T00:00:00.000Z")
    (disk_with_goal discontinued).
Proof.
  split.
  - apply (proj1 (updateAccuracy_sets_the_progress
                    (working "2024-02-01T00:00:00.000Z")
                    (working "2024-02-02T00:00:00.000Z")
                    (disk_with_goal discontinued) "g2" 85)).
    cbn. intros [E | []]. discriminate E.
  - refine (proj2 (updateAccuracy_sets_the_progress
                     (working "2024-02-01T00:00:00.000Z")
                     (working "2024-02-02T00:00:00.000Z")
                     (disk_with_goal discontinued) "g1" 85)
              _ _ _ (sample_goal discontinued) _);
      try (intro k; reflexivity).
    reflexivity.
Defined.

(** The settings read back: on a medium that performs the write, what
    [SettingsStorage.save] stored is what [get] returns, and after
    [reset] it returns the defaults; neither touches the records. *)
Theorem settings_read_back (env env' : Env) (d : Disk) (s : AppSettings.t) :
  write_ok env SETTINGS = true -> read_ok env' SETTINGS = true ->
  (exists d', SettingsStorage.save s env d = (Return true, d') /\
              SettingsStorage.get env' d' = (Return s, d') /\
              same_records d d') /\
  (exists d', SettingsStorage.reset env d = (Return true, d') /\
              SettingsStorage.get env' d' = (Return DEFAULT_SETTINGS, d') /\
              same_records d d').
Proof.
  intros W R. unfold SettingsStorage.save, SettingsStorage.reset.
  rewrite !setItem_eq, W.
  split; eexists; (split; [reflexivity|]);
    rewrite SettingsStorage_get_eq, R; (split; [reflexivity|]);
    repeat split; reflexivity.
Qed.

Lemma settings_read_back_witness :
  exists d',
    SettingsStorage.save (AppSettings.mk 45 90 false dark [independent] [correct])
      (working "2024-02-01T00:00:00.000Z") sample_disk = (Return true, d') /\
    SettingsStorage.get (working "2024-02-02T00:00:00.000Z") d'
      = (Return (AppSettings.mk 45 90 false dark [independent] [correct]), d') /\
    same_records sample_disk d'.
Proof.
  apply (proj1 (settings_read_back (working "2024-02-01T00:00:00.000Z")
                  (working "2024-02-02T00:00:00.000Z") sample_disk
                  (AppSettings.mk 45 90 false dark [independent] [correct])
                  eq_refl eq_refl)).
Defined.

(* ================================================================== *)
(** * Sorted queries                                                   *)
(* ================================================================== *)

Section Sorting.

Context {A : Type}.

Lemma insert_sorted_Permutation (compareFn : A -> A -> Z) (x : A) (l : list A) :
  Permutation (insert_sorted compareFn x l) (x :: l).
Proof.
  induction l as [| y r IH]; cbn [insert_sorted]; [reflexivity|].
  destruct (compareFn x y <=? 0); [reflexivity|].
  rewrite IH. apply perm_swap.
Qed.

Lemma sort_Permutation (compareFn : A -> A -> Z) (l : list A) :
  Permutation (sort compareFn l) l.
Proof.
  unfold sort. induction l as [| x r IH]; cbn [fold_right]; [reflexivity|].
  rewrite insert_sorted_Permutation. apply perm_skip. exact IH.
Qed.

Variable key : A -> Z.

Lemma insert_sorted_descending (x : A) (l : list A) :
  descending key l ->
  descending key (insert_sorted (fun a b => key b - key a) x l).
Proof.
  unfold descending. induction l as [| y r IH]; cbn [insert_sorted]; intro S.
  - constructor; [constructor | constructor].
  - inversion S as [| ? ? Sr Hy]; subst.
    destruct (Z.leb_spec (key y - key x) 0) as [L | L].
    + constructor; [exact S|]. constructor; [lia|].
      rewrite Forall_forall in Hy |- *. intros z Hz. specialize (Hy z Hz). lia.
    + constructor; [apply IH; exact Sr|].
      rewrite Forall_forall in Hy |- *. intros z Hz.
      apply (Permutation_in _ (insert_sorted_Permutation _ x r)) in Hz.
      destruct Hz as [<- | Hz]; [lia | apply Hy; exact Hz].
Qed.

Lemma sort_descending (l : list A) :
  descending key (sort (fun a b => key b - key a) l).
Proof.
  unfold sort. induction l as [| x r IH]; cbn [fold_right].
  - constructor.
  - apply insert_sorted_descending. exact IH.
Qed.

(** The sort is stable: elements of equal key keep their order. *)
Lemma insert_sorted_stable (t : Z) (x : A) (l : list A) :
  filter (fun a => key a =? t) (insert_sorted (fun a b => key b - key a) x l)
  = filter (fun a => key a =? t) (x :: l).
Proof.
  induction l as [| y r IH]; cbn [insert_sorted]; [reflexivity|].
  destruct (Z.leb_spec (key y - key x) 0) as [L | L]; [reflexivity|].
  cbn [filter] in IH |- *. rewrite IH.
  destruct (Z.eqb_spec (key x) t), (Z.eqb_spec (key y) t); try reflexivity. lia.
Qed.

Lemma sort_stable (t : Z) (l : list A) :
  filter (fun a => key a =? t) (sort (fun a b => key b - key a) l)
  = filter (fun a => key a =? t) l.
Proof.
  unfold sort. induction l as [| x r IH]; cbn [fold_right]; [reflexivity|].
  rewrite insert_sorted_stable. cbn [filter]. rewrite IH. reflexivity.
Qed.

End Sorting.

Lemma len_firstn {A} (n : Z) (l : list A) :
  0 <= n -> len (firstn (Z.to_nat n) l) = Z.min n (len l).
Proof. intro H. unfold len. rewrite length_firstn. lia. Qed.

(** The sessions of a client, and the sessions that worked on a goal,
    come newest first: on a medium that performs the read, the result
    is a rearrangement of the stored sessions that qualify, in
    descending order of their dates, sessions of the same instant
    keeping the order in which they are stored. *)
Theorem sessions_come_newest_first
    (getTime : string -> Z) (env : Env) (d : Disk) (k : string) :
  read_ok env SESSIONS = true ->
  newest_first_of getTime
    (filter (fun s => (Session.clientId s =? k)%string) (sessionsOf d))
    (SessionStorage.getByClientId getTime k env d) d /\
  newest_first_of getTime
    (filter (fun s => includes k (Session.goals s)) (sessionsOf d))
    (SessionStorage.getByGoalId getTime k env d) d.
Proof.
  intro R. unfold newest_first_of, SessionStorage.getByClientId,
    SessionStorage.getByGoalId.
  rewrite !(bind_eq env d _ _ _ _ (SessionStorage_getAll_eq env d)), R.
  unfold seen. fold (sessionsOf d).
  split; eexists; (split; [reflexivity|]);
    (split; [apply (sort_descending (fun s => getTime (Session.date s)))|]);
    (split; [apply sort_Permutation|]);
    intro t; apply (sort_stable (fun s => getTime (Session.date s))).
Qed.

Lemma sessions_come_newest_first_witness :
  newest_first_of iso_digits
    [sample_session; later_session]
    (SessionStorage.getByClientId iso_digits "c1"
       (working "2024-02-01T00:00:00.000Z") two_sessions_disk)
    two_sessions_disk /\
  fst (SessionStorage.getByClientId iso_digits "c1"
         (working "2024-02-01T00:00:00.000Z") two_sessions_disk)
  = Return [later_session; sample_session].
Proof.
  split; [|reflexivity].
  apply (proj1 (sessions_come_newest_first iso_digits
                  (working "2024-02-01T00:00:00.000Z") two_sessions_disk "c1"
                  eq_refl)).
Defined.

(** [getRecent] returns the newest sessions: on a medium that performs
    the read and for a limit that is not negative (10 when it is left
    out), the result has [limit] sessions, or all of them when fewer
    are stored, and it is the front of an arrangement of all stored
    sessions in descending order of their dates. *)
Theorem getRecent_returns_the_newest
    (getTime : string -> Z) (env : Env) (d : Disk) (limit : option Z) :
  read_ok env SESSIONS = true ->
  0 <= or_else limit 10 ->
  exists recent older,
    SessionStorage.getRecent getTime limit env d = (Return recent, d) /\
    len recent = Z.min (or_else limit 10) (len (sessionsOf d)) /\
    Permutation (recent ++ older) (sessionsOf d) /\
    descending (fun s => getTime (Session.date s)) (recent ++ older).
Proof.
  intros R L. unfold SessionStorage.getRecent.
  rewrite (bind_eq env d _ _ _ _ (SessionStorage_getAll_eq env d)), R.
  unfold seen. fold (sessionsOf d). unfold slice0.
  destruct (Z.leb_spec 0 (or_else limit 10)) as [_ | F]; [|lia].
  set (sorted := sort _ _).
  exists (firstn (Z.to_nat (or_else limit 10)) sorted),
         (skipn (Z.to_nat (or_else limit 10)) sorted).
  split; [reflexivity|]. split.
  - rewrite len_firstn by exact L. f_equal. unfold len. f_equal.
    apply Permutation_length. apply sort_Permutation.
  - rewrite firstn_skipn. split; [apply sort_Permutation|].
    apply (sort_descending (fun s => getTime (Session.date s))).
Qed.

Lemma getRecent_returns_the_newest_witness :
  exists recent older,
    SessionStorage.getRecent iso_digits (Some 1)
      (working "2024-02-01T00:00:00.000Z") two_sessions_disk
    = (Return recent, two_sessions_disk) /\
    len recent = Z.min 1 (len (sessionsOf two_sessions_disk)) /\
    Permutation (recent ++ older) (sessionsOf two_sessions_disk) /\
    descending (fun s => iso_digits (Session.date s)) (recent ++ older).
Proof.
  apply (getRecent_returns_the_newest iso_digits
           (working "2024-02-01T00:00:00.000Z") two_sessions_disk (Some 1) eq_refl).
  cbn. lia.
Defined.

(* ================================================================== *)
(** * Backups: export, import, clearing                                *)
(* ================================================================== *)

(** [exportAllData] only reads: whatever the medium does, it returns a
    document and leaves the medium as it was.  The document carries
    the time of the export; a collection that the medium reads is
    exported as it is stored, and one that the medium fails to read is
    exported as empty (the settings: as the defaults), without any
    error. *)
Theorem export_only_reads (env : Env) (d : Disk) :
  exists b,
    exportAllData env d = (Return (Json (JObject b)), d) /\
    exportDate b = Truthy (now env) /\
    clients b = Truthy (if read_ok env CLIENTS then clientsOf d else []) /\
    goals b = Truthy (if read_ok env GOALS then goalsOf d else []) /\
    sessions b = Truthy (if read_ok env SESSIONS then sessionsOf d else []) /\
    settings b = Truthy (if read_ok env SETTINGS then settingsOf d
                         else DEFAULT_SETTINGS).
Proof.
  rewrite exportAllData_eq. eexists. split; [reflexivity|].
  cbn [exportDate clients goals sessions settings]. unfold seen.
  destruct (read_ok env CLIENTS), (read_ok env GOALS),
    (read_ok env SESSIONS), (read_ok env SETTINGS);
    repeat split; reflexivity.
Qed.





(** An imported backup exports again.  After [importData] of a
    document that is an object, on a medium that performs the writes,
    [exportAllData] on a medium that performs the reads returns, under
    each of the four keys, the value of the document where the
    document holds a truthy value under the key, and the collection
    that was stored before the import where the key is absent or
    holds a falsy value such as [null]; so a document with a truthy
    value under all four keys comes back as those four values. *)
Theorem export_after_import (env env' : Env) (d : Disk) (b : Backup) :
  writes env -> reads env' ->
  exists d',
    importData (Json (JObject b)) env d = (Return true, d') /\
    exportAllData env' d' =
      (Return (Json (JObject
         (mkBackup (Truthy (now env'))
            (Truthy (value_or (clients b) (clientsOf d)))
            (Truthy (value_or (goals b) (goalsOf d)))
            (Truthy (value_or (sessions b) (sessionsOf d)))
            (Truthy (value_or (settings b) (settingsOf d)))))), d').
Proof.
  intros W R. rewrite importData_eq. eexists. split; [reflexivity|].
  rewrite exportAllData_eq, !seen_reads by exact R.
  unfold import_slot. rewrite !W.
  destruct (clients b), (goals b), (sessions b), (settings b); reflexivity.
Qed.

Lemma export_after_import_witness :
  exists d',
    importData (Json (JObject (mkBackup Absent Falsy (Truthy [])
                                 (Truthy []) (Truthy DEFAULT_SETTINGS))))
      (working "2024-02-01T00:00:00.000Z") sample_disk = (Return true, d') /\
    exportAllData (working "2024-03-01T00:00:00.000Z") d' =
      (Return (Json (JObject (mkBackup (Truthy "2024-03-01T00:00:00.000Z")
                                (Truthy [sample_client]) (Truthy []) (Truthy [])
                                (Truthy DEFAULT_SETTINGS)))), d').
Proof.
  apply (export_after_import (working "2024-02-01T00:00:00.000Z")
           (working "2024-03-01T00:00:00.000Z") sample_disk
           (mkBackup Absent Falsy (Truthy []) (Truthy [])
              (Truthy DEFAULT_SETTINGS)));
    intro k; reflexivity.
Defined.

Lemma clearAllData_eq (env : Env) (d : Disk) :
  clearAllData env d =
  (Return (forallb (write_ok env) [CLIENTS; GOALS; SESSIONS; SETTINGS]),
   fold_left (fun acc k => if write_ok env k then AsyncStorage.remove acc k else acc)
     [CLIENTS; GOALS; SESSIONS; SETTINGS] d).
Proof.
  unfold clearAllData, try_catch, bind, AsyncStorage.multiRemove.
  destruct (forallb (write_ok env) _); reflexivity.
Qed.

(** [clearAllData] never throws; on a medium that performs the writes
    it returns [true] and leaves nothing stored, so that the store
    reads as on first run. *)
Theorem clearAllData_clears (env : Env) (d : Disk) :
  (exists flag d', clearAllData env d = (Return flag, d')) /\
  (writes env ->
   clearAllData env d = (Return true, mkDisk None None None None)).
Proof.
  rewrite clearAllData_eq. split.
  - eexists; eexists; reflexivity.
  - intro W. cbn [forallb fold_left]. rewrite !W. reflexivity.
Qed.

Lemma clearAllData_clears_witness :
  clearAllData (working "2024-02-01T00:00:00.000Z") sample_disk
  = (Return true, mkDisk None None None None).
Proof.
  apply (proj2 (clearAllData_clears (working "2024-02-01T00:00:00.000Z")
                  sample_disk)).
  intro k. reflexivity.
Defined.

(* ================================================================== *)
(** * The state facade: loading and queries                            *)
(* ================================================================== *)

Lemma filter_filter {A} (p q : A -> bool) (l : list A) :
  filter q (filter p l) = filter (fun x => p x && q x) l.
Proof.
  induction l as [| x r IH]; cbn [filter]; [reflexivity|].
  destruct (p x); cbn [filter andb]; [destruct (q x)|]; rewrite IH; reflexivity.
Qed.

Lemma loadData_eq (env : Env) (d : Disk) (ctx : AppContext.t) :
  AppContext.loadData ctx env d =
  (Return (AppContext.mk
             (or_else (seen (read_ok env CLIENTS) (at_clients d)) [])
             (or_else (seen (read_ok env GOALS) (at_goals d)) [])
             (or_else (seen (read_ok env SESSIONS) (at_sessions d)) [])
             (or_else (seen (read_ok env SETTINGS) (at_settings d)) DEFAULT_SETTINGS)
             false), d).
Proof.
  unfold AppContext.loadData, try_catch. unfold bind at 1.
  rewrite (bind_eq env d _ _ _ _ (ClientStorage_getAll_eq env d)).
  rewrite (bind_eq env d _ _ _ _ (GoalStorage_getAll_eq env d)).
  rewrite (bind_eq env d _ _ _ _ (SessionStorage_getAll_eq env d)).
  rewrite (bind_eq env d _ _ _ _ (SettingsStorage_get_eq env d)).
  reflexivity.
Qed.

Lemma GoalStorage_getByClientId_eq (env : Env) (d : Disk) (clientId : string) :
  GoalStorage.getByClientId clientId env d =
  (Return (filter (fun g => (Goal.clientId g =? clientId)%string)
             (or_else (seen (read_ok env GOALS) (at_goals d)) [])), d).
Proof.
  unfold GoalStorage.getByClientId.
  rewrite (bind_eq env d _ _ _ _ (GoalStorage_getAll_eq env d)). reflexivity.
Qed.

(** Loading never fails and never writes: whatever the medium does and
    whatever the mirror held, [loadData] (and so [refreshData]) returns
    with the loading flag down and the medium as it was; when the
    medium performs the reads, the mirror then equals the store. *)
Theorem loadData_mirrors_the_store (env : Env) (d : Disk) (ctx : AppContext.t) :
  exists ctx',
    AppContext.loadData ctx env d = (Return ctx', d) /\
    AppContext.refreshData ctx env d = (Return ctx', d) /\
    AppContext.isLoading ctx' = false /\
    (reads env -> mirrors ctx' d).
Proof.
  unfold AppContext.refreshData. rewrite loadData_eq.
  eexists. split; [reflexivity|]. split; [reflexivity|]. split; [reflexivity|].
  intro R. rewrite !seen_reads by exact R. repeat split.
Qed.

Lemma loadData_mirrors_the_store_witness :
  exists ctx',
    AppContext.loadData AppContext.initial (working "2024-02-01T00:00:00.000Z")
      sample_disk = (Return ctx', sample_disk) /\
    mirrors ctx' sample_disk.
Proof.
  destruct (loadData_mirrors_the_store (working "2024-02-01T00:00:00.000Z")
              sample_disk AppContext.initial) as (ctx' & E & _ & _ & H).
  exists ctx'. split; [exact E|]. apply H. intro k. reflexivity.
Defined.

(** The queries of the facade answer as the store does.  When the
    mirror equals the store and the medium performs the reads, each
    query of the facade returns what the corresponding query of the
    record store returns. *)
Theorem facade_queries_agree_with_the_store
    (getTime : string -> Z) (env : Env) (d : Disk) (ctx : AppContext.t)
    (k : string) :
  reads env -> mirrors ctx d ->
  ClientStorage.getById k env d = (Return (AppContext.getClient k ctx), d) /\
  GoalStorage.getById k env d = (Return (AppContext.getGoal k ctx), d) /\
  SessionStorage.getById k env d = (Return (AppContext.getSession k ctx), d) /\
  GoalStorage.getByClientId k env d
    = (Return (AppContext.getGoalsByClient k ctx), d) /\
  GoalStorage.getActiveByClientId k env d
    = (Return (AppContext.getActiveGoalsByClient k ctx), d) /\
  SessionStorage.getByClientId getTime k env d
    = (Return (AppContext.getSessionsByClient getTime k ctx), d) /\
  SessionStorage.getByGoalId getTime k env d
    = (Return (AppContext.getSessionsByGoal getTime k ctx), d).
Proof.
  intros R (Hc & Hg & Hs & _).
  unfold AppContext.getClient, AppContext.getGoal, AppContext.getSession,
    AppContext.getGoalsByClient, AppContext.getActiveGoalsByClient,
    AppContext.getSessionsByClient, AppContext.getSessionsByGoal.
  rewrite Hc, Hg, Hs.
  rewrite ClientStorage_getById_eq, GoalStorage_getById_eq,
    SessionStorage_getById_eq.
  unfold GoalStorage.getActiveByClientId.
  rewrite (bind_eq env d _ _ _ _ (GoalStorage_getByClientId_eq env d k)).
  rewrite GoalStorage_getByClientId_eq.
  unfold SessionStorage.getByClientId, SessionStorage.getByGoalId.
  rewrite !(bind_eq env d _ _ _ _ (SessionStorage_getAll_eq env d)).
  rewrite !seen_reads by exact R.
  fold (clientsOf d) (goalsOf d) (sessionsOf d).
  cbn [ret]. rewrite filter_filter.
  repeat split; reflexivity.
Qed.

Lemma facade_queries_agree_with_the_store_witness :
  GoalStorage.getActiveByClientId "c1" (working "2024-02-01T00:00:00.000Z")
    sample_disk
  = (Return (AppContext.getActiveGoalsByClient "c1" sample_ctx), sample_disk).
Proof.
  refine (proj1 (proj2 (proj2 (proj2 (proj2
            (facade_queries_agree_with_the_store iso_digits
               (working "2024-02-01T00:00:00.000Z") sample_disk sample_ctx "c1"
               _ _)))))).
  - intro k. reflexivity.
  - repeat split.
Defined.

(* ================================================================== *)
(** * The session-recording flow: selection, navigation, undo          *)
(* ================================================================== *)

Section Screen.

Import NewSessionScreen.

(** Pressing a goal flips its selection and nothing else: the goal is
    selected afterwards exactly when it was not before, every other
    goal stays as it was, a selection without repetition stays without
    repetition, and pressing a goal that was not selected twice gives
    the selection back. *)
Theorem toggle_flips_the_selection (goalId : string) (s : t) :
  (In goalId (selectedGoalIds (toggleGoalSelection goalId s))
   <-> ~ In goalId (selectedGoalIds s)) /\
  (forall k, k <> goalId ->
     (In k (selectedGoalIds (toggleGoalSelection goalId s))
      <-> In k (selectedGoalIds s))) /\
  (NoDup (selectedGoalIds s) ->
   NoDup (selectedGoalIds (toggleGoalSelection goalId s))) /\
  (~ In goalId (selectedGoalIds s) ->
   selectedGoalIds (toggleGoalSelection goalId (toggleGoalSelection goalId s))
   = selectedGoalIds s).
Proof.
  unfold toggleGoalSelection. cbn [selectedGoalIds setSelectedGoalIds].
  destruct (includes goalId (selectedGoalIds s)) eqn:I.
  - assert (Hin : In goalId (selectedGoalIds s)) by (apply includes_In; exact I).
    split; [|split; [|split]].
    + rewrite filter_In, negb_true_iff, String.eqb_refl. split.
      * intros [_ F]. discriminate F.
      * intro N. contradiction.
    + intros k N. rewrite filter_In, negb_true_iff. split.
      * intros [H _]. exact H.
      * intro H. split; [exact H | apply String.eqb_neq; exact N].
    + intro ND. apply NoDup_filter. exact ND.
    + intro N. contradiction.
  - assert (Hnin : ~ In goalId (selectedGoalIds s)).
    { intro H. apply includes_In in H. congruence. }
    unfold push. split; [|split; [|split]].
    + split; [intros _; exact Hnin|]. intros _. apply in_or_app. right. left.
      reflexivity.
    + intros k N. rewrite in_app_iff. split.
      * intros [H | [E | []]]; [exact H | congruence].
      * intro H. left. exact H.
    + intro ND. apply NoDup_app; [exact ND | constructor; [intros [] | constructor] |].
      intros k Hk [<- | []]. contradiction.
    + intros _.
      assert (I' : includes goalId (selectedGoalIds s ++ [goalId]) = true).
      { apply includes_In. apply in_or_app. right. left. reflexivity. }
      rewrite I'. rewrite filter_app. cbn [filter].
      rewrite String.eqb_refl. cbn [negb]. rewrite app_nil_r.
      apply filter_all. intros x Hx. apply negb_true_iff, String.eqb_neq.
      intros ->. contradiction.
Qed.

Lemma toggle_flips_the_selection_witness :
  selectedGoalIds
    (toggleGoalSelection "g2" (toggleGoalSelection "g2" screen_one_correct))
  = selectedGoalIds screen_one_correct.
Proof.
  apply (proj2 (proj2 (proj2 (toggle_flips_the_selection "g2" screen_one_correct)))).
  cbn. intros [E | []]. discriminate E.
Defined.

Lemma step_goal_in_view (ctx : AppContext.t) (ev : Event) (s : t) :
  goal_in_view s -> goal_in_view (step ctx ev s).
Proof.
  intros (H0 & Hf & Ht). unfold step.
  destruct (AppContext.getClient (clientId s) ctx); [|repeat split; assumption].
  case_eq (sessionStarted s); intro St.
  - specialize (Ht St).
    destruct ev; try (repeat split; cbn; (assumption || congruence || lia)).
    + (* PressResponse *)
      unfold handleRecordTrial.
      destruct (currentGoal ctx s); repeat split; cbn; (assumption || congruence || lia).
    + (* PressUndoLast *)
      destruct (0 <? len (currentGoalTrials ctx s));
        [|repeat split; (assumption || congruence || lia)].
      unfold handleDeleteLastTrial.
      destruct (rev (currentGoalTrials ctx s));
        repeat split; cbn; (assumption || congruence || lia).
    + (* PressNext *)
      destruct (1 <? len (selectedGoalIds s));
        [|repeat split; (assumption || congruence || lia)].
      unfold handleNextGoal.
      destruct (Z.ltb_spec (currentGoalIndex s) (len (selectedGoalIds s) - 1));
        repeat split; cbn; (assumption || congruence || lia).
    + (* PressPrev *)
      destruct (1 <? len (selectedGoalIds s));
        [|repeat split; (assumption || congruence || lia)].
      unfold handlePrevGoal.
      destruct (Z.ltb_spec 0 (currentGoalIndex s));
        repeat split; cbn; (assumption || congruence || lia).
  - specialize (Hf St).
    destruct ev; try (repeat split; (assumption || congruence || lia)).
    + (* PressGoal *)
      destruct (existsb _ _); [|repeat split; (assumption || congruence || lia)].
      repeat split; cbn; (assumption || congruence || lia).
    + (* PressStart *)
      unfold handleStartSession.
      destruct (Z.eqb_spec (len (selectedGoalIds s)) 0);
        [repeat split; (assumption || congruence || lia)|].
      pose proof (len_nonneg (selectedGoalIds s)).
      repeat split; cbn; (assumption || congruence || lia).
Qed.

Lemma initial_goal_in_view (clientId : string)
    (initialGoalIds : option (list string)) :
  goal_in_view (initial clientId initialGoalIds).
Proof.
  unfold goal_in_view. cbn. repeat split; (lia || discriminate || reflexivity).
Qed.

Lemma run_goal_in_view (evs : list (AppContext.t * Event)) (s : t) :
  goal_in_view s -> goal_in_view (run evs s).
Proof.
  revert s. induction evs as [| [ctx ev] r IH]; intros s G; cbn [run]; [exact G|].
  apply IH. apply step_goal_in_view. exact G.
Qed.

(** Whatever is done on the screen, the goal in view exists: the index
    of the current goal never leaves the selection.  It is 0 until the
    session has started; once it has, the selection is not empty and
    [selectedGoalIds[currentGoalIndex]] is one of the selected goals. *)
Theorem current_goal_stays_in_the_selection
    (clientId : string) (initialGoalIds : option (list string))
    (evs : list (AppContext.t * Event)) :
  let s := run evs (initial clientId initialGoalIds) in
  goal_in_view s /\
  (sessionStarted s = true ->
   exists id, at_index (selectedGoalIds s) (currentGoalIndex s) = Some id /\
              In id (selectedGoalIds s)).
Proof.
  intro s.
  assert (G : goal_in_view s)
    by (apply run_goal_in_view, initial_goal_in_view).
  split; [exact G|]. intro St. destruct G as (H0 & _ & Ht). specialize (Ht St).
  unfold at_index. destruct (Z.leb_spec 0 (currentGoalIndex s)); [|lia].
  destruct (nth_error (selectedGoalIds s) (Z.to_nat (currentGoalIndex s))) eqn:E.
  - exists s0. split; [reflexivity|]. apply nth_error_In in E. exact E.
  - exfalso. apply nth_error_None in E. unfold len in Ht. lia.
Qed.

Lemma currentGoal_after_record (ctx : AppContext.t) (newId stamp : string)
    (response : Response) (s : t) :
  currentGoal ctx (handleRecordTrial ctx newId stamp response s)
  = currentGoal ctx s.
Proof.
  unfold handleRecordTrial. destruct (currentGoal ctx s) eqn:E; [|exact E].
  unfold currentGoal in *. cbn [selectedGoalIds currentGoalIndex setPrompt setTrials].
  exact E.
Qed.

(** Undo takes back what was recorded: after a response has been
    recorded for the goal in view under an id that no recorded trial
    carries, 'undo last' leaves the trials as they were before the
    response. *)
Theorem undo_takes_back_the_last_trial
    (ctx : AppContext.t) (newId stamp : string) (response : Response)
    (s : t) (g : Goal.t) :
  currentGoal ctx s = Some g ->
  ~ In newId (map Trial.id (trials s)) ->
  trials (handleDeleteLastTrial ctx (handleRecordTrial ctx newId stamp response s))
  = trials s.
Proof.
  intros G F. unfold handleDeleteLastTrial, currentGoalTrials.
  rewrite currentGoal_after_record, G.
  unfold handleRecordTrial. rewrite G.
  cbn [trials setPrompt setTrials]. unfold push.
  set (newTrial := Trial.mk _ _ _ _ _ _ _ _).
  rewrite filter_app. cbn [filter].
  change (Trial.goalId newTrial) with (Goal.id g).
  rewrite String.eqb_refl, rev_app_distr. cbn [rev app].
  cbn [trials setTrials setPrompt selectedGoalIds currentGoalIndex clientId
       currentCueLevel prompt sessionNotes sessionStarted isSaving].
  rewrite filter_app. cbn [filter].
  change (Trial.id newTrial) with newId.
  rewrite String.eqb_refl. cbn [negb]. rewrite app_nil_r.
  apply (filter_absent Trial.id). exact F.
Qed.

Lemma undo_takes_back_the_last_trial_witness :
  trials (handleDeleteLastTrial sample_ctx
            (handleRecordTrial sample_ctx "t2" "2024-02-01T10:01:00.000Z"
               incorrect screen_one_correct))
  = trials screen_one_correct.
Proof.
  apply (undo_takes_back_the_last_trial sample_ctx "t2"
           "2024-02-01T10:01:00.000Z" incorrect screen_one_correct
           (sample_goal active)).
  - reflexivity.
  - cbn. intros [E | []]. discriminate E.
Defined.

End Screen.

(* ================================================================== *)
(** * The aggregator: order, extremes, ages                            *)
(* ================================================================== *)

Lemma len_filter_Permutation {A} (p : A -> bool) (l l' : list A) :
  Permutation l l' -> len (filter p l) = len (filter p l').
Proof.
  intro P. unfold len. f_equal.
  induction P as [| x l l' _ IH | x y l | l l' l'' _ IH1 _ IH2]; cbn [filter].
  - reflexivity.
  - destruct (p x); cbn [List.length]; rewrite IH; reflexivity.
  - destruct (p x), (p y); reflexivity.
  - rewrite IH1. exact IH2.
Qed.

(** The statistics do not depend on the order of the trials. *)
Theorem stats_ignore_the_order (trials trials' : list Trial.t) :
  Permutation trials trials' ->
  calculateSessionStats trials' = calculateSessionStats trials.
Proof.
  intro P. unfold calculateSessionStats.
  rewrite !(len_filter_Permutation _ _ _ P).
  assert (L : len trials = len trials')
    by (unfold len; f_equal; apply Permutation_length; exact P).
  rewrite L. reflexivity.
Qed.

Lemma stats_ignore_the_order_witness :
  calculateSessionStats [trial_with incorrect; trial_with correct]
  = calculateSessionStats [trial_with correct; trial_with incorrect].
Proof.
  apply stats_ignore_the_order. apply perm_swap.
Defined.

(** [n / n] is 1 and [1 * 100] is 100, exactly. *)
Lemma percentage_of_all (n : Z) :
  0 < n < 2 ^ 53 -> percentage n n = JS.of_Z 100.
Proof.
  intro Hn. unfold percentage.
  destruct (of_Z_exact n Hn) as (m & e & E & He & Hm & Hd).
  assert (D : JS.div (JS.of_Z n) (JS.of_Z n)
              = S754_finite false 4503599627370496 (-52)).
  { unfold JS.div. rewrite E. cbn [SFdiv xorb].
    unfold SFdiv_core_binary. cbn [Zdigits2]. rewrite Hd, fexp64.
    replace (Z.min (Z.max (53 + e - (53 + e) - 53) (-1074)) (e - e))
      with (-53) by lia.
    replace (e - e - -53) with 53 by lia.
    rewrite Z.shiftl_mul_pow2 by lia.
    assert (Q : Z.div_eucl (Z.pos m * 2 ^ 53) (Z.pos m) = (2 ^ 53, 0)).
    { pose proof (Z.div_mul (2 ^ 53) (Z.pos m) ltac:(lia)) as Q1.
      pose proof (Z.mod_mul (2 ^ 53) (Z.pos m) ltac:(lia)) as Q2.
      rewrite (Z.mul_comm (Z.pos m)).
      unfold Z.div in Q1. unfold Z.modulo in Q2.
      destruct (Z.div_eucl (2 ^ 53 * Z.pos m) (Z.pos m)) as [q r].
      rewrite Q1, Q2. reflexivity. }
    rewrite Q.
    replace (new_location (Z.pos m) 0) with loc_Exact
      by (unfold new_location, new_location_even, new_location_odd;
          destruct (Z.even (Z.pos m)); reflexivity).
    vm_compute. reflexivity. }
  rewrite D. vm_compute. reflexivity.
Qed.

(** The accuracy at the two ends: a session all of whose trials are
    correct has accuracy 100, and one with no correct trial has
    accuracy 0. *)
Theorem accuracy_at_the_extremes (trials : list Trial.t) :
  len trials < 2 ^ 53 ->
  (trials <> [] ->
   (forall x, In x trials -> Trial.response x = correct) ->
   SessionStats.accuracy (calculateSessionStats trials) = 100) /\
  ((forall x, In x trials -> Trial.response x <> correct) ->
   SessionStats.accuracy (calculateSessionStats trials) = 0).
Proof.
  intro Hlen. unfold calculateSessionStats. cbn [SessionStats.accuracy]. split.
  - intros Hne Hall.
    rewrite filter_all
      by (intros x Hx; rewrite (Hall x Hx); reflexivity).
    assert (P : 0 < len trials).
    { unfold len. destruct trials; [contradiction | cbn; lia]. }
    destruct (Z.ltb_spec 0 (len trials)); [|lia].
    rewrite percentage_of_all by lia. reflexivity.
  - intro Hnone.
    rewrite filter_none
      by (intros x Hx; specialize (Hnone x Hx);
          destruct (Trial.response x); [contradiction | reflexivity ..]).
    destruct (Z.ltb_spec 0 (len trials)); [|reflexivity].
    unfold percentage.
    destruct (of_Z_exact (len trials) ltac:(lia)) as (m & e & -> & _).
    reflexivity.
Qed.

Lemma accuracy_at_the_extremes_witness :
  SessionStats.accuracy
    (calculateSessionStats [trial_with correct; trial_with correct; trial_with correct])
  = 100.
Proof.
  apply (proj1 (accuracy_at_the_extremes
                  [trial_with correct; trial_with correct; trial_with correct]
                  ltac:(vm_compute; reflexivity))).
  - discriminate.
  - intros x [<- | [<- | [<- | []]]]; reflexivity.
Defined.

(** The age is the number of birthdays passed: the [n]-th anniversary
    of the birth is today or earlier exactly when [n] does not exceed
    the age. *)
Theorem calculateAge_counts_birthdays (today birthDate : JSDate.t) (n : Z) :
  n <= calculateAge today birthDate <->
  on_or_before (JSDate.getFullYear birthDate + n) (JSDate.getMonth birthDate)
    (JSDate.getDate birthDate) today.
Proof.
  unfold calculateAge, on_or_before.
  destruct (Z.ltb_spec (JSDate.getMonth today - JSDate.getMonth birthDate) 0);
    destruct (Z.eqb_spec (JSDate.getMonth today - JSDate.getMonth birthDate) 0);
    destruct (Z.ltb_spec (JSDate.getDate today) (JSDate.getDate birthDate));
    cbn [orb andb]; lia.
Qed.

(* ================================================================== *)
(** * The reports                                                      *)
(* ================================================================== *)

Section Reports.

Import ReportsScreen.

Lemma len_app {A} (l l' : list A) : len (l ++ l') = len l + len l'.
Proof. unfold len. rewrite length_app. lia. Qed.

Lemma len_filter_flat_map {A B} (f : A -> list B) (p : B -> bool) (l : list A) :
  len (filter p (flat_map f l)) = sum_of (fun x => len (filter p (f x))) l.
Proof.
  induction l as [| x r IH]; cbn [flat_map sum_of fold_right]; [reflexivity|].
  rewrite filter_app, len_app, IH. reflexivity.
Qed.

Lemma len_flat_map {A B} (f : A -> list B) (l : list A) :
  len (flat_map f l) = sum_of (fun x => len (f x)) l.
Proof.
  induction l as [| x r IH]; cbn [flat_map sum_of fold_right]; [reflexivity|].
  rewrite len_app, IH. reflexivity.
Qed.

(** The overall counts are the sums of the counts of the sessions:
    each of the five counts of [overallStats] is the sum, over the
    sessions of the period, of that count in the statistics of the
    session. *)
Theorem overallStats_adds_up (filteredSessions : list Session.t) :
  let per (count : SessionStats.t -> Z) :=
    sum_of (fun s => count (calculateSessionStats (Session.trials s)))
      filteredSessions in
  let overall := overallStats filteredSessions in
  SessionStats.totalTrials overall = per SessionStats.totalTrials /\
  SessionStats.correctTrials overall = per SessionStats.correctTrials /\
  SessionStats.incorrectTrials overall = per SessionStats.incorrectTrials /\
  SessionStats.approximationTrials overall = per SessionStats.approximationTrials /\
  SessionStats.noResponseTrials overall = per SessionStats.noResponseTrials.
Proof.
  cbv zeta. unfold overallStats, calculateSessionStats.
  cbn [SessionStats.totalTrials SessionStats.correctTrials
       SessionStats.incorrectTrials SessionStats.approximationTrials
       SessionStats.noResponseTrials].
  rewrite len_flat_map, !len_filter_flat_map. repeat split; reflexivity.
Qed.

(** The response chart shows every trial once: the slices have
    positive counts that add up to the number of trials of the period,
    no response is shown twice, and there is no slice exactly when
    there is no trial. *)
Theorem responseDistribution_covers_the_trials (filteredSessions : list Session.t) :
  let slices := responseDistribution filteredSessions in
  Forall (fun item => 0 < count item) slices /\
  sum_of count slices = len (flat_map Session.trials filteredSessions) /\
  NoDup (map name slices) /\
  (slices = [] <-> flat_map Session.trials filteredSessions = []).
Proof.
  cbv zeta. unfold responseDistribution.
  set (allTrials := flat_map Session.trials filteredSessions).
  pose proof (responses_partition allTrials) as P.
  pose proof (len_nonneg (filter (fun t => Response_eqb (Trial.response t) correct)
                            allTrials)) as Pc.
  pose proof (len_nonneg (filter (fun t => Response_eqb (Trial.response t) incorrect)
                            allTrials)) as Pi.
  pose proof (len_nonneg (filter (fun t => Response_eqb (Trial.response t) approximation)
                            allTrials)) as Pa.
  pose proof (len_nonneg (filter (fun t => Response_eqb (Trial.response t) no_response)
                            allTrials)) as Pn.
  destruct (Z.eqb_spec (len allTrials) 0) as [Z | NZ].
  - split; [constructor|]. split; [cbn; lia|]. split; [constructor|].
    split; [intros _|reflexivity].
    destruct allTrials; [reflexivity | rewrite len_cons in Z].
    pose proof (len_nonneg allTrials). lia.
  - unfold calculateSessionStats.
    cbn [SessionStats.correctTrials SessionStats.incorrectTrials
         SessionStats.approximationTrials SessionStats.noResponseTrials].
    set (c := len (filter (fun t => Response_eqb (Trial.response t) correct) allTrials)) in *.
    set (i := len (filter (fun t => Response_eqb (Trial.response t) incorrect) allTrials)) in *.
    set (a := len (filter (fun t => Response_eqb (Trial.response t) approximation) allTrials)) in *.
    set (n := len (filter (fun t => Response_eqb (Trial.response t) no_response) allTrials)) in *.
    cbn [filter count].
    assert (Ne : allTrials <> []) by (intros E; rewrite E in NZ; apply NZ; reflexivity).
    destruct (Z.ltb_spec 0 c), (Z.ltb_spec 0 i), (Z.ltb_spec 0 a), (Z.ltb_spec 0 n);
      (split; [repeat constructor; cbn [count]; assumption|]);
      (split; [cbn [sum_of fold_right count]; lia|]);
      (split; [cbn [map name];
               repeat (constructor;
                       [cbn [In]; intros K;
                        repeat (destruct K as [K | K]; [discriminate K|]); exact K|]);
               constructor|]);
      (split; [intros K; try discriminate K; exfalso; lia
              | intros K; contradiction]).
Qed.

(** The goal table: one row for each goal that is active or achieved
    and none for a discontinued goal, the rows in descending order of
    the number of trials. *)
Theorem goalProgress_rows (goals : list Goal.t) (filteredSessions : list Session.t) :
  let rows := goalProgress goals filteredSessions in
  Permutation (map goal rows)
    (filter (fun g => negb (GoalStatus_eqb (Goal.status g) discontinued)) goals) /\
  descending trialCount rows /\
  Forall (fun row =>
            trialCount row
            = sum_of (fun s =>
                        if includes (Goal.id (goal row)) (Session.goals s)
                        then count_id Trial.goalId (Goal.id (goal row))
                               (Session.trials s)
                        else 0) filteredSessions) rows.
Proof.
  cbv zeta. unfold goalProgress.
  set (row := fun g : Goal.t => mkGoalRow _ _ _ _).
  set (shown := filter _ goals).
  assert (E : shown = filter (fun g => negb (GoalStatus_eqb (Goal.status g) discontinued))
                        goals).
  { subst shown. apply filter_ext. intro g. destruct (Goal.status g); reflexivity. }
  split; [|split].
  - rewrite (Permutation_map goal (sort_Permutation _ (map row shown))).
    rewrite map_map. cbn [goal row]. rewrite map_id, E. reflexivity.
  - apply (sort_descending trialCount).
  - rewrite Forall_forall. intros r Hr.
    apply (Permutation_in _ (sort_Permutation _ (map row shown))) in Hr.
    apply in_map_iff in Hr. destruct Hr as (g & <- & _).
    subst row. cbn [trialCount goal]. unfold count_id.
    induction filteredSessions as [| s ss IH]; cbn [filter flat_map sum_of fold_right];
      [reflexivity|].
    destruct (includes (Goal.id g) (Session.goals s)).
    + cbn [flat_map]. rewrite len_app. fold (sum_of (A:=Session.t)) in IH |- *.
      rewrite IH. reflexivity.
    + fold (sum_of (A:=Session.t)) in IH |- *. rewrite IH. reflexivity.
Qed.

End Reports.

(* ================================================================== *)
(** * The trials of a session, by goal                                 *)
(* ================================================================== *)

Section Groups.

Import SessionDetailScreen.

Variable inherited : string -> bool.

Lemma own_None (k : string) (acc : Groups) :
  own k acc = None <-> ~ In k (map fst acc).
Proof.
  induction acc as [| [k' ts] r IH]; cbn [own map fst In]; [tauto|].
  destruct (String.eqb_spec k' k) as [E | E].
  - split; [discriminate | intro N; exfalso; apply N; left; exact E].
  - rewrite IH. tauto.
Qed.

Lemma own_push_own (k kx : string) (x : Trial.t) (acc : Groups) :
  own k (push_own kx x acc) =
  if (kx =? k)%string then option_map (push x) (own k acc) else own k acc.
Proof.
  induction acc as [| [k' ts] r IH]; cbn [push_own own option_map].
  - destruct (kx =? k)%string; reflexivity.
  - destruct (String.eqb_spec k' kx) as [E | E]; cbn [own].
    + subst k'. destruct (String.eqb_spec kx k); reflexivity.
    + rewrite IH. destruct (String.eqb_spec k' k) as [E' | E']; [|reflexivity].
      subst k'. destruct (String.eqb_spec kx k); [congruence | reflexivity].
Qed.

Lemma keys_push_own (kx : string) (x : Trial.t) (acc : Groups) :
  map fst (push_own kx x acc) = map fst acc.
Proof.
  induction acc as [| [k' ts] r IH]; cbn [push_own map fst]; [reflexivity|].
  destruct (k' =? kx)%string; cbn [map fst]; rewrite ?IH; reflexivity.
Qed.

Lemma own_push (k kx : string) (ts : list Trial.t) (acc : Groups) :
  own k (push (kx, ts) acc) =
  match own k acc with
  | Some ts' => Some ts'
  | None => if (kx =? k)%string then Some ts else None
  end.
Proof.
  unfold push. induction acc as [| [k' ts'] r IH]; cbn [app own]; [reflexivity|].
  destruct (k' =? k)%string; [reflexivity | exact IH].
Qed.

Lemma trials_of_push (k : string) (x : Trial.t) (l : list Trial.t) :
  trials_of k (l ++ [x]) =
  if (Trial.goalId x =? k)%string
  then Some (push x (or_else (trials_of k l) []))
  else trials_of k l.
Proof.
  unfold trials_of, push. rewrite filter_app. cbn [filter].
  destruct (Trial.goalId x =? k)%string.
  - destruct (filter _ l) as [| y r]; reflexivity.
  - rewrite app_nil_r. reflexivity.
Qed.

(** The trials of a session are grouped by goal.  When no goal id of
    the session is a name that every object inherits, the grouping
    returns an object with one property for each goal that has trials,
    holding the trials of that goal in the order of the session, and
    no other property.  It throws exactly when some trial carries such
    a name as its goal id. *)
Theorem trialsByGoal_groups_by_goal (session : Session.t) :
  match trialsByGoal inherited (Some session) with
  | Throw =>
      exists x, In x (Session.trials session) /\
                inherited (Trial.goalId x) = true
  | Return groups =>
      (forall x, In x (Session.trials session) ->
         inherited (Trial.goalId x) = false) /\
      NoDup (map fst groups) /\
      (forall k, own k groups = trials_of k (Session.trials session))
  end.
Proof.
  unfold trialsByGoal. generalize (Session.trials session). intro l.
  induction l as [| x l IH] using rev_ind.
  - cbn. split; [intros ? []|]. split; [constructor | reflexivity].
  - rewrite fold_left_app. cbn [fold_left].
    destruct (fold_left (group_step inherited) l (Return [])) as [acc |];
      cbn [group_step].
    + destruct IH as (Hn & ND & Ho).
      destruct (own (Trial.goalId x) acc) as [ts |] eqn:O.
      * assert (Hx : inherited (Trial.goalId x) = false).
        { rewrite Ho in O. unfold trials_of in O.
          destruct (filter _ l) as [| y r] eqn:F; [discriminate|].
          assert (Hy : In y (filter (fun z => (Trial.goalId z =? Trial.goalId x)%string) l))
            by (rewrite F; left; reflexivity).
          apply filter_In in Hy. destruct Hy as [Hy E].
          apply String.eqb_eq in E. rewrite <- E. apply Hn. exact Hy. }
        split; [|split].
        -- intros y Hy. apply in_app_or in Hy.
           destruct Hy as [Hy | [<- | []]]; [apply Hn; exact Hy | exact Hx].
        -- rewrite keys_push_own. exact ND.
        -- intro k. rewrite own_push_own, trials_of_push, Ho.
           destruct (Trial.goalId x =? k)%string eqn:E; [|reflexivity].
           apply String.eqb_eq in E. subst k. rewrite <- Ho, O. reflexivity.
      * destruct (inherited (Trial.goalId x)) eqn:Hx.
        -- exists x. split; [apply in_or_app; right; left; reflexivity | exact Hx].
        -- split; [|split].
           ++ intros y Hy. apply in_app_or in Hy.
              destruct Hy as [Hy | [<- | []]]; [apply Hn; exact Hy | exact Hx].
           ++ unfold push. rewrite map_app. cbn [map fst].
              apply NoDup_app; [exact ND | constructor; [intros [] | constructor] |].
              intros k Hk [<- | []]. apply own_None in O. contradiction.
           ++ intro k. rewrite own_push, trials_of_push, Ho.
              destruct (Trial.goalId x =? k)%string eqn:E.
              ** apply String.eqb_eq in E. subst k. rewrite <- Ho, O. reflexivity.
              ** destruct (trials_of k l); reflexivity.
    + destruct IH as (y & Hy & Iy). exists y.
      split; [apply in_or_app; left; exact Hy | exact Iy].
Qed.

End Groups.

(* ================================================================== *)
(** * The settings screen                                              *)
(* ================================================================== *)

Section Settings.

Import SettingsScreen.

(** Saving the settings.  Whatever is typed into the two fields, the
    handler returns and says 'Saved'.  When the medium performs the
    write, the stored settings and the mirror hold a session duration
    within 5..120 and a target accuracy within 1..100 -- the number
    typed when it lies within the range; 30, respectively 80, taken
    into the range, when nothing parses or 0 is typed -- and the other
    settings as they were; the records are untouched.  When the
    medium refuses the write, nothing is stored, the mirror is as it
    was, and the handler still says 'Saved'. *)
Theorem handleSaveSettings_keeps_the_ranges
    (parseInt : string -> option Z) (defaultDuration defaultAccuracy : string)
    (ctx : AppContext.t) (env : Env) (d : Disk) :
  exists ctx' d',
    handleSaveSettings parseInt defaultDuration defaultAccuracy ctx env d
    = (Return (Saved, ctx'), d') /\
    (write_ok env SETTINGS = true ->
     let saved := AppContext.settings ctx' in
     stored (at_settings d') = Some saved /\
     same_records d d' /\
     5 <= AppSettings.defaultSessionDuration saved <= 120 /\
     1 <= AppSettings.defaultTargetAccuracy saved <= 100 /\
     (forall n, parseInt defaultDuration = Some n -> 5 <= n <= 120 ->
        AppSettings.defaultSessionDuration saved = n) /\
     (forall n, parseInt defaultAccuracy = Some n -> 1 <= n <= 100 ->
        AppSettings.defaultTargetAccuracy saved = n) /\
     (parseInt defaultDuration = None \/ parseInt defaultDuration = Some 0 ->
        AppSettings.defaultSessionDuration saved = 30) /\
     (parseInt defaultAccuracy = None \/ parseInt defaultAccuracy = Some 0 ->
        AppSettings.defaultTargetAccuracy saved = 80) /\
     AppSettings.enableNotifications saved
       = AppSettings.enableNotifications (AppContext.settings ctx) /\
     AppSettings.theme saved = AppSettings.theme (AppContext.settings ctx) /\
     AppSettings.cueLevels saved = AppSettings.cueLevels (AppContext.settings ctx) /\
     AppSettings.responseOptions saved
       = AppSettings.responseOptions (AppContext.settings ctx)) /\
    (write_ok env SETTINGS = false -> ctx' = ctx /\ d' = d).
Proof.
  unfold handleSaveSettings, AppContext.updateSettings, SettingsStorage.save, bind.
  cbv zeta. rewrite setItem_eq.
  destruct (write_ok env SETTINGS); eexists; eexists;
    (split; [reflexivity|]); (split; [|intro F; try discriminate F; split; reflexivity]).
  - intros _.
    cbn [snd ret AppContext.settings AppContext.setSettings
         AppSettings.defaultSessionDuration AppSettings.defaultTargetAccuracy
         AppSettings.enableNotifications AppSettings.theme AppSettings.cueLevels
         AppSettings.responseOptions write at_settings stored].
    split; [reflexivity|]. split; [repeat split|].
    split; [lia|]. split; [lia|].
    unfold parsed_or.
    split; [intros n -> Hn; destruct (Z.eqb_spec n 0); lia|].
    split; [intros n -> Hn; destruct (Z.eqb_spec n 0); lia|].
    split; [intros [-> | ->]; reflexivity|].
    split; [intros [-> | ->]; reflexivity|].
    repeat split.
  - intro F. discriminate F.
Qed.

Lemma handleSaveSettings_keeps_the_ranges_witness :
  exists ctx' d',
    handleSaveSettings (fun _ => Some 500) "500" "500" sample_ctx
      (working "2024-02-01T00:00:00.000Z") sample_disk
    = (Return (Saved, ctx'), d') /\
    AppSettings.defaultSessionDuration (AppContext.settings ctx') = 120 /\
    AppSettings.defaultTargetAccuracy (AppContext.settings ctx') = 100.
Proof.
  destruct (handleSaveSettings_keeps_the_ranges (fun _ => Some 500) "500" "500"
              sample_ctx (working "2024-02-01T00:00:00.000Z") sample_disk)
    as (ctx' & d' & E & H & _).
  exists ctx', d'. split; [exact E|].
  injection E as <- _. split; reflexivity.
Defined.

(** Importing a backup from the settings screen.  The handler always
    returns.  A picker or a file that fails gives 'Unable to import',
    a cancelled picker nothing, a file that does not parse or holds
    [null] 'Invalid backup file format'; in these cases the store and
    the mirror are as they were.  Every other file gives 'Success':
    the store is what [importData] made of it, and the mirror has been
    reloaded, so that it equals the store when the medium performs the
    reads. *)
Theorem handleImportData_outcomes
    (picked : Picked) (ctx : AppContext.t) (env : Env) (d : Disk) :
  exists alert ctx' d',
    handleImportData picked ctx env d = (Return (alert, ctx'), d') /\
    match picked with
    | Rejected => alert = Unable /\ ctx' = ctx /\ d' = d
    | Canceled => alert = NoAlert /\ ctx' = ctx /\ d' = d
    | Content Malformed | Content (Json JNull) =>
        alert = InvalidFormat /\ ctx' = ctx /\ d' = d
    | Content content =>
        alert = Success /\
        importData content env d = (Return true, d') /\
        AppContext.isLoading ctx' = false /\
        (reads env -> mirrors ctx' d')
    end.
Proof.
  unfold handleImportData, try_catch.
  destruct picked as [| | content].
  - exists Unable, ctx, d. repeat split.
  - exists NoAlert, ctx, d. repeat split.
  - unfold bind at 1. rewrite importData_eq.
    destruct content as [| [| | b]].
    + exists InvalidFormat, ctx, d. repeat split.
    + exists InvalidFormat, ctx, d. repeat split.
    + unfold bind, AppContext.refreshData. rewrite loadData_eq.
      eexists. eexists. eexists. split; [reflexivity|].
      split; [reflexivity|]. split; [reflexivity|]. split; [reflexivity|].
      intro R. rewrite !seen_reads by exact R. repeat split.
    + unfold bind, AppContext.refreshData. rewrite loadData_eq.
      eexists. eexists. eexists. split; [reflexivity|].
      split; [reflexivity|]. split; [reflexivity|]. split; [reflexivity|].
      intro R. rewrite !seen_reads by exact R. repeat split.
Qed.

(** Clearing all data from the settings screen.  The handler always
    returns and says 'Done', with the mirror reloaded: it equals the
    store when the medium performs the reads.  When the medium
    performs the writes nothing is stored afterwards, and the mirror
    holds no record and the default settings. *)
Theorem handleClearData_reloads
    (ctx : AppContext.t) (env : Env) (d : Disk) :
  exists ctx' d',
    handleClearData ctx env d = (Return (Done, ctx'), d') /\
    (reads env -> mirrors ctx' d') /\
    (writes env ->
     d' = mkDisk None None None None /\
     ctx' = AppContext.mk [] [] [] DEFAULT_SETTINGS false).
Proof.
  unfold handleClearData.
  rewrite (bind_eq env d _ _ _ _ (clearAllData_eq env d)).
  unfold bind, AppContext.refreshData. rewrite loadData_eq.
  eexists. eexists. split; [reflexivity|]. split.
  - intro R. rewrite !seen_reads by exact R. repeat split.
  - intro W. cbn [fold_left]. rewrite !W.
    cbn [AsyncStorage.remove at_clients at_goals at_sessions at_settings].
    split; [reflexivity|]. unfold seen.
    destruct (read_ok env CLIENTS), (read_ok env GOALS),
      (read_ok env SESSIONS), (read_ok env SETTINGS); reflexivity.
Qed.

Lemma handleClearData_reloads_witness :
  exists ctx' d',
    handleClearData sample_ctx (working "2024-02-01T00:00:00.000Z") sample_disk
    = (Return (Done, ctx'), d') /\
    mirrors ctx' d' /\
    d' = mkDisk None None None None.
Proof.
  destruct (handleClearData_reloads sample_ctx (working "2024-02-01T00:00:00.000Z")
              sample_disk) as (ctx' & d' & E & Hr & Hw).
  exists ctx', d'. split; [exact E|]. split.
  - apply Hr. intro k. reflexivity.
  - apply Hw. intro k. reflexivity.
Defined.

End Settings.

(* ================================================================== *)
(** * Adding a goal                                                    *)
(* ================================================================== *)

Section AddGoal.

Import AddGoalScreen.

Lemma strip_white_space (w s : string) :
  In w white_space -> strip false (w ++ s)%string = strip false s.
Proof.
  intro H. cbn in H.
  repeat (destruct H as [<- | H]; [reflexivity|]). destruct H.
Qed.

(** A string of white space trims to the empty string. *)
Lemma trim_Blank (s : string) : Blank s -> trim s = "".
Proof.
  intro B. unfold trim, trimStart.
  assert (E : strip false s = "").
  { induction B as [| w s Hw _ IH]; [reflexivity|].
    rewrite strip_white_space by exact Hw. exact IH. }
  rewrite E. reflexivity.
Qed.

(** The form guards the store.  [handleSave] always returns.  When
    the name trims to the empty string -- as every name of white space
    only does, a no-break space included -- or the target accuracy is
    not a number within 1..100, it stays on the form and neither the
    store nor the mirror changes.  Otherwise it passes to the store a
    goal of the client of the screen that is active, has current
    accuracy 0, a target accuracy within 1..100, and a name and a
    description that are not empty; it leaves the form when the store
    accepted the goal, which is then stored and mirrored, and reports
    the failure when it did not, the store and the mirror being as
    they were. *)
Theorem handleSave_stores_valid_goals_only
    (parseInt : string -> option Z) (newId createdAt updatedAt : string)
    (ctx : AppContext.t) (s : t) (env : Env) (d : Disk) :
  exists out s' ctx' d',
    handleSave parseInt newId createdAt updatedAt ctx s env d
    = (Return (out, s', ctx'), d') /\
    (Blank (name s) -> out = Stayed) /\
    match out with
    | Stayed =>
        (trim (name s) = "" \/
         forall n, parseInt (targetAccuracy s) = Some n -> n < 1 \/ 100 < n) /\
        ctx' = ctx /\ d' = d
    | WentBack =>
        write_ok env GOALS = true /\
        exists goal,
          GoalStorage.save goal env d = (Return true, d') /\
          AppContext.goals ctx' = AppContext.goals ctx ++ [goal] /\
          Goal.id goal = newId /\
          Goal.clientId goal = clientId s /\
          Goal.status goal = active /\
          Goal.currentAccuracy goal = 0 /\
          1 <= Goal.targetAccuracy goal <= 100 /\
          parseInt (targetAccuracy s) = Some (Goal.targetAccuracy goal) /\
          Goal.name goal = trim (name s) /\
          Goal.name goal <> "" /\
          Goal.description goal <> ""
    | AlertFailed =>
        write_ok env GOALS = false /\ ctx' = ctx /\ d' = d
    end.
Proof.
  unfold handleSave, validateForm.
  cbn [error_name error_targetAccuracy targetAccuracy setErrors].
  destruct (trim (name s)) as [| c r] eqn:N.
  - exists Stayed. eexists. exists ctx, d. split; [reflexivity|].
    split; [intros _; reflexivity|].
    split; [left; reflexivity | split; reflexivity].
  - assert (NB : forall out, Blank (name s) -> out = Stayed).
    { intros out B. apply trim_Blank in B. rewrite N in B. discriminate B. }
    destruct (parseInt (targetAccuracy s)) as [n |] eqn:P.
    + destruct (Z.ltb_spec n 1) as [L | L]; cbn [orb].
      * exists Stayed. eexists. exists ctx, d. split; [reflexivity|].
        split; [apply NB|].
        split; [right; intros n' E; injection E as <-; left; exact L
               | split; reflexivity].
      * destruct (Z.ltb_spec 100 n) as [U | U]; cbn [negb].
        -- exists Stayed. eexists. exists ctx, d. split; [reflexivity|].
           split; [apply NB|].
           split; [right; intros n' E; injection E as <-; right; exact U
                  | split; reflexivity].
        -- cbn [clientId name description category setIsLoading setErrors
                targetAccuracy].
           set (newGoal := Goal.mk _ _ _ _ _ _ _ _ _ _ _).
           unfold AppContext.addGoal, bind.
           rewrite GoalStorage_save_eq, setItem_eq.
           destruct (write_ok env GOALS) eqn:W.
           ++ exists WentBack. eexists. eexists. eexists.
              split; [reflexivity|]. split; [apply NB|].
              split; [reflexivity|].
              exists newGoal.
              split; [rewrite GoalStorage_save_eq, setItem_eq, W; reflexivity|].
              split; [reflexivity|].
              subst newGoal.
              cbn [Goal.id Goal.clientId Goal.status Goal.currentAccuracy
                   Goal.targetAccuracy Goal.name Goal.description].
              rewrite N. repeat split; try lia; try discriminate.
              destruct (trim (description s)); discriminate.
           ++ exists AlertFailed. eexists. exists ctx, d.
              split; [reflexivity|]. split; [apply NB|]. repeat split.
    + exists Stayed. eexists. exists ctx, d. split; [reflexivity|].
      split; [apply NB|].
      split; [right; intros n' E; discriminate E | split; reflexivity].
Qed.

Lemma handleSave_stores_valid_goals_only_witness :
  Blank (name form_with_blank_name) /\
  exists s',
    handleSave (fun _ => Some 80) "g9" "2024-02-01T00:00:00.000Z"
      "2024-02-01T00:00:00.001Z" sample_ctx form_with_blank_name
      (working "2024-02-01T00:00:00.002Z") sample_disk
    = (Return (Stayed, s', sample_ctx), sample_disk).
Proof.
  assert (B : Blank (name form_with_blank_name)).
  { exact (Blank_more (utf8 [194; 160]%nat) "" (or_intror (or_intror (or_intror
             (or_intror (or_intror (or_intror (or_introl eq_refl)))))))
             Blank_empty). }
  split; [exact B|].
  destruct (handleSave_stores_valid_goals_only (fun _ => Some 80) "g9"
              "2024-02-01T00:00:00.000Z" "2024-02-01T00:00:00.001Z"
              sample_ctx form_with_blank_name
              (working "2024-02-01T00:00:00.002Z") sample_disk)
    as (out & s' & ctx' & d' & E & St & M).
  rewrite (St B) in E, M. destruct M as (_ & -> & ->).
  exists s'. exact E.
Defined.

End AddGoal.
